(** * PyStreaming: the chat session engine of [app.py]

    A shallow embedding of the socket handlers of [src/app.py]
    ([handle_login], [handle_message], [stream_count], [get_color], ...)
    together with the properties of the session registry, the presence
    tracker and the command interpreter.

    Conventions of the embedding.
    - A Python [str] is a [string]; each character is read as the code
      point of the same number (0..255), so [lower] and [strip] follow
      Python on that range.
    - [socket_to_info] is an insertion-ordered dictionary: an association
      list whose keys are kept distinct by the dictionary operations.
      [socket_to_presence] is only ever counted, never enumerated in order,
      and is a [gmap].
    - A handler is a function from the world to an [Outcome]: the world it
      leaves behind, the effects it performed in order, and the exception
      that ended it, if any.  What was mutated before an exception stays
      mutated, as in Python.
    - [now()], [random.choice] and [request.remote_addr] are inputs carried
      by the [Request]; [emoji.emojize] and the comparison the database
      uses for [WHERE username = ...] are fields of [Env]. *)

From Stdlib Require Import ZArith String Ascii List Bool Lia.
From stdpp Require Import base option list gmap strings fin_maps.
Import ListNotations.

Local Open Scope Z_scope.

(** ** Python string primitives *)

Module Py.

(** [str.isspace] on one character: the code points below 256 that Python
    treats as whitespace. *)
Definition isspace (c : ascii) : bool :=
  let n := N_of_ascii c in
  ((9 <=? n) && (n <=? 13) || (28 <=? n) && (n <=? 32)
   || (n =? 133) || (n =? 160))%N.

(** [str.lower] on one character: A-Z, and the upper-case letters of the
    Latin-1 block (all of 0xC0..0xDE but the multiplication sign). *)
Definition lower_char (c : ascii) : ascii :=
  let n := N_of_ascii c in
  if ((65 <=? n) && (n <=? 90)
      || (192 <=? n) && (n <=? 222) && negb (n =? 215))%N
  then ascii_of_N (n + 32) else c.

Fixpoint lower (s : string) : string :=
  match s with
  | EmptyString => EmptyString
  | String c r => String (lower_char c) (lower r)
  end.

Fixpoint rev_onto (s acc : string) : string :=
  match s with
  | EmptyString => acc
  | String c r => rev_onto r (String c acc)
  end.

Definition rev (s : string) : string := rev_onto s EmptyString.

Fixpoint lstrip (s : string) : string :=
  match s with
  | EmptyString => EmptyString
  | String c r => if isspace c then lstrip r else s
  end.

Definition rstrip (s : string) : string := rev (lstrip (rev s)).

Definition strip (s : string) : string := rstrip (lstrip s).

Definition len (s : string) : nat := String.length s.

(** [' ' in s] *)
Fixpoint has_space (s : string) : bool :=
  match s with
  | EmptyString => false
  | String c r => if Ascii.eqb c " " then true else has_space r
  end.

(** [s.split(' ', 1)] when [s] has a space: the text before the first
    space and the text after it. *)
Fixpoint split_space (s : string) : string * string :=
  match s with
  | EmptyString => (EmptyString, EmptyString)
  | String c r =>
      if Ascii.eqb c " " then (EmptyString, r)
      else let '(a, b) := split_space r in (String c a, b)
  end.

(** The value of a digit in [int(_, base)], for bases up to 36. *)
Definition digit_value (c : ascii) : option Z :=
  let n := Z.of_N (N_of_ascii c) in
  if (48 <=? n) && (n <=? 57) then Some (n - 48)
  else if (97 <=? n) && (n <=? 122) then Some (n - 87)
  else if (65 <=? n) && (n <=? 90) then Some (n - 55)
  else None.

(** The whitespace [int(s, base)] skips around the number.  It is not the
    set of [str.strip]: [int] keeps every character below 127 as it is and
    tests it as C's [isspace] does (tab to carriage return, and the
    space), so the separators 0x1C..0x1F are not skipped; a character
    above 126 that Unicode counts as a space (0x85, 0xA0) is read as a
    space. *)
Definition int_isspace (c : ascii) : bool :=
  let n := N_of_ascii c in
  ((9 <=? n) && (n <=? 13) || (n =? 32) || (n =? 133) || (n =? 160))%N.

Fixpoint int_lstrip (s : string) : string :=
  match s with
  | EmptyString => EmptyString
  | String c r => if int_isspace c then int_lstrip r else s
  end.

(** The digits of [int(s, 16)] after sign and prefix: hexadecimal digits
    with single underscores between them, then optional whitespace.
    [prev_us] tells that the previous character was an underscore,
    [seen] that a digit has been read.  [None] is [ValueError]. *)
Fixpoint int16_digits (s : string) (acc : Z) (prev_us seen : bool)
  : option Z :=
  match s with
  | EmptyString => if prev_us || negb seen then None else Some acc
  | String c r =>
      if Ascii.eqb c "_" then
        if prev_us then None else int16_digits r acc true seen
      else
        match digit_value c with
        | Some d =>
            if d <? 16 then int16_digits r (16 * acc + d) false true
            else None
        | None =>
            if prev_us || negb seen then None
            else match int_lstrip s with
                 | EmptyString => Some acc
                 | _ => None
                 end
        end
  end.

Definition int16_prefixed (s : string) : string :=
  match s with
  | String "0" (String x r) =>
      if Ascii.eqb x "x" || Ascii.eqb x "X" then
        match r with
        | String "_" r' => r'
        | _ => r
        end
      else s
  | _ => s
  end.

Definition int16_unsigned (s : string) : option Z :=
  match int16_prefixed s with
  | String "_" _ => None
  | body => int16_digits body 0 false false
  end.

(** [int(s, 16)]: leading whitespace, a sign, an optional [0x] prefix,
    the digits.  [None] is [ValueError]. *)
Definition int16 (s : string) : option Z :=
  match int_lstrip s with
  | String "+" r => int16_unsigned r
  | String "-" r => Z.opp <$> int16_unsigned r
  | r => int16_unsigned r
  end.

(** [hex(n)[2:]] for a non-negative [n]: lower-case digits, no padding. *)
Definition hex_digit (d : Z) : ascii :=
  if d <? 10 then ascii_of_N (Z.to_N (48 + d))
  else ascii_of_N (Z.to_N (87 + d)).

Fixpoint hex_onto (fuel : nat) (n : Z) (acc : string) : string :=
  match fuel with
  | O => acc
  | S f =>
      let acc' := String (hex_digit (n mod 16)) acc in
      if n / 16 =? 0 then acc' else hex_onto f (n / 16) acc'
  end.

Definition hex (n : Z) : string :=
  hex_onto (S (Z.to_nat (Z.log2 n))) n EmptyString.

Fixpoint repeat_char (c : ascii) (n : nat) : string :=
  match n with
  | O => EmptyString
  | S k => String c (repeat_char c k)
  end.

End Py.

(** ** The [webcolors] functions used by [get_color]

    [webcolors] is a third-party package; its three entry points used by
    [app.py] are transcribed here: the CSS3 table of colour names, the
    lookup [name_to_hex] and the normaliser [normalize_hex], which accepts
    exactly [#] followed by three or six hexadecimal digits.  [None]
    stands for the [ValueError] both functions raise. *)

Module webcolors.

Definition CSS3_NAMES_TO_HEX : list (string * string) :=
  [ ("aliceblue", "#f0f8ff"); ("antiquewhite", "#faebd7");
    ("aqua", "#00ffff"); ("aquamarine", "#7fffd4"); ("azure", "#f0ffff");
    ("beige", "#f5f5dc"); ("bisque", "#ffe4c4"); ("black", "#000000");
    ("blanchedalmond", "#ffebcd"); ("blue", "#0000ff");
    ("blueviolet", "#8a2be2"); ("brown", "#a52a2a");
    ("burlywood", "#deb887"); ("cadetblue", "#5f9ea0");
    ("chartreuse", "#7fff00"); ("chocolate", "#d2691e");
    ("coral", "#ff7f50"); ("cornflowerblue", "#6495ed");
    ("cornsilk", "#fff8dc"); ("crimson", "#dc143c"); ("cyan", "#00ffff");
    ("darkblue", "#00008b"); ("darkcyan", "#008b8b");
    ("darkgoldenrod", "#b8860b"); ("darkgray", "#a9a9a9");
    ("darkgrey", "#a9a9a9"); ("darkgreen", "#006400");
    ("darkkhaki", "#bdb76b"); ("darkmagenta", "#8b008b");
    ("darkolivegreen", "#556b2f"); ("darkorange", "#ff8c00");
    ("darkorchid", "#9932cc"); ("darkred", "#8b0000");
    ("darksalmon", "#e9967a"); ("darkseagreen", "#8fbc8f");
    ("darkslateblue", "#483d8b"); ("darkslategray", "#2f4f4f");
    ("darkslategrey", "#2f4f4f"); ("darkturquoise", "#00ced1");
    ("darkviolet", "#9400d3"); ("deeppink", "#ff1493");
    ("deepskyblue", "#00bfff"); ("dimgray", "#696969");
    ("dimgrey", "#696969"); ("dodgerblue", "#1e90ff");
    ("firebrick", "#b22222"); ("floralwhite", "#fffaf0");
    ("forestgreen", "#228b22"); ("fuchsia", "#ff00ff");
    ("gainsboro", "#dcdcdc"); ("ghostwhite", "#f8f8ff");
    ("gold", "#ffd700"); ("goldenrod", "#daa520"); ("gray", "#808080");
    ("grey", "#808080"); ("green", "#008000");
    ("greenyellow", "#adff2f"); ("honeydew", "#f0fff0");
    ("hotpink", "#ff69b4"); ("indianred", "#cd5c5c");
    ("indigo", "#4b0082"); ("ivory", "#fffff0"); ("khaki", "#f0e68c");
    ("lavender", "#e6e6fa"); ("lavenderblush", "#fff0f5");
    ("lawngreen", "#7cfc00"); ("lemonchiffon", "#fffacd");
    ("lightblue", "#add8e6"); ("lightcoral", "#f08080");
    ("lightcyan", "#e0ffff"); ("lightgoldenrodyellow", "#fafad2");
    ("lightgray", "#d3d3d3"); ("lightgrey", "#d3d3d3");
    ("lightgreen", "#90ee90"); ("lightpink", "#ffb6c1");
    ("lightsalmon", "#ffa07a"); ("lightseagreen", "#20b2aa");
    ("lightskyblue", "#87cefa"); ("lightslategray", "#778899");
    ("lightslategrey", "#778899"); ("lightsteelblue", "#b0c4de");
    ("lightyellow", "#ffffe0"); ("lime", "#00ff00");
    ("limegreen", "#32cd32"); ("linen", "#faf0e6");
    ("magenta", "#ff00ff"); ("maroon", "#800000");
    ("mediumaquamarine", "#66cdaa"); ("mediumblue", "#0000cd");
    ("mediumorchid", "#ba55d3"); ("mediumpurple", "#9370db");
    ("mediumseagreen", "#3cb371"); ("mediumslateblue", "#7b68ee");
    ("mediumspringgreen", "#00fa9a"); ("mediumturquoise", "#48d1cc");
    ("mediumvioletred", "#c71585"); ("midnightblue", "#191970");
    ("mintcream", "#f5fffa"); ("mistyrose", "#ffe4e1");
    ("moccasin", "#ffe4b5"); ("navajowhite", "#ffdead");
    ("navy", "#000080"); ("oldlace", "#fdf5e6"); ("olive", "#808000");
    ("olivedrab", "#6b8e23"); ("orange", "#ffa500");
    ("orangered", "#ff4500"); ("orchid", "#da70d6");
    ("palegoldenrod", "#eee8aa"); ("palegreen", "#98fb98");
    ("paleturquoise", "#afeeee"); ("palevioletred", "#db7093");
    ("papayawhip", "#ffefd5"); ("peachpuff", "#ffdab9");
    ("peru", "#cd853f"); ("pink", "#ffc0cb"); ("plum", "#dda0dd");
    ("powderblue", "#b0e0e6"); ("purple", "#800080"); ("red", "#ff0000");
    ("rosybrown", "#bc8f8f"); ("royalblue", "#4169e1");
    ("saddlebrown", "#8b4513"); ("salmon", "#fa8072");
    ("sandybrown", "#f4a460"); ("seagreen", "#2e8b57");
    ("seashell", "#fff5ee"); ("sienna", "#a0522d");
    ("silver", "#c0c0c0"); ("skyblue", "#87ceeb");
    ("slateblue", "#6a5acd"); ("slategray", "#708090");
    ("slategrey", "#708090"); ("snow", "#fffafa");
    ("springgreen", "#00ff7f"); ("steelblue", "#4682b4");
    ("tan", "#d2b48c"); ("teal", "#008080"); ("thistle", "#d8bfd8");
    ("tomato", "#ff6347"); ("turquoise", "#40e0d0");
    ("violet", "#ee82ee"); ("wheat", "#f5deb3"); ("white", "#ffffff");
    ("whitesmoke", "#f5f5f5"); ("yellow", "#ffff00");
    ("yellowgreen", "#9acd32") ].

Fixpoint assoc (k : string) (l : list (string * string)) : option string :=
  match l with
  | [] => None
  | (k', v) :: r => if String.eqb k k' then Some v else assoc k r
  end.

(** [name_to_hex(name, spec=CSS3)] *)
Definition name_to_hex (name : string) : option string :=
  assoc (Py.lower name) CSS3_NAMES_TO_HEX.

Definition is_hex_digit (c : ascii) : bool :=
  match Py.digit_value c with
  | Some d => d <? 16
  | None => false
  end.

Fixpoint all_hex (s : string) : bool :=
  match s with
  | EmptyString => true
  | String c r => is_hex_digit c && all_hex r
  end.

Fixpoint doubled (s : string) : string :=
  match s with
  | EmptyString => EmptyString
  | String c r => String c (String c (doubled r))
  end.

(** [normalize_hex(hex_value)] *)
Definition normalize_hex (hex_value : string) : option string :=
  match hex_value with
  | String "#" digits =>
      if all_hex digits then
        if Nat.eqb (Py.len digits) 3
        then Some (String "#" (Py.lower (doubled digits)))
        else if Nat.eqb (Py.len digits) 6
        then Some (String "#" (Py.lower digits))
        else None
      else None
  | _ => None
  end.

End webcolors.

(** ** Exceptions and results *)

Inductive Exn : Type :=
| IndexError
| KeyError (key : string)
| ValueError
| Exception (msg : string).

Inductive Result (A : Type) : Type :=
| Ok (a : A)
| Raise (e : Exn).
Arguments Ok {A} a.
Arguments Raise {A} e.

(** ** [get_color]

    [rand] is the index [random.choice] draws.  The result is [Ok None]
    where the source returns [None], [Ok (Some n)] where it returns the
    integer [n], and [Raise ValueError] where [int(color[1:], 16)] raises. *)

Definition random_choice (rand : nat) (choices : list string) : string :=
  nth (rand mod length choices)%nat choices EmptyString.

Definition get_color (rand : nat) (color : string) : Result (option Z) :=
  let color := Py.lower (Py.strip color) in
  let color :=
    if String.eqb color "random"
    then random_choice rand (map fst webcolors.CSS3_NAMES_TO_HEX)
    else color in
  let color :=
    match webcolors.name_to_hex color with
    | Some h => h
    | None => color
    end in
  let color :=
    match webcolors.normalize_hex color with
    | Some h => h
    | None => color
    end in
  match color with
  | String c0 rest =>
      if negb (Nat.eqb (Py.len color) 7) || negb (Ascii.eqb c0 "#")
      then Ok None
      else
        match Py.int16 rest with
        | None => Raise ValueError
        | Some intval =>
            if (intval <? 0) || (16777215 <? intval) then Ok None
            else Ok (Some intval)
        end
  | EmptyString => Ok None
  end.

(** ** Data model *)

(** [class SocketInfo] *)
Record SocketInfo : Type := mkSocketInfo {
  sid : string;
  ip : string;
  streamer : string;
  username : string;
  admin : bool;
  moderator : bool;
  muted : bool;
  color : Z
}.

(** [class PresenceInfo]; [timestamp] is [now()] at construction. *)
Record PresenceInfo : Type := mkPresenceInfo {
  presence_sid : string;
  presence_streamer : string;
  timestamp : Z
}.

(** A row of the table [streamersettings] of [data.py]. *)
Record StreamerRow : Type := mkStreamerRow {
  row_username : string;
  row_key : string;
  row_description : option string;
  row_streampass : option string
}.

(** The insertion-ordered dictionary [Dict[Any, SocketInfo]]. *)
Module Dict.

Definition t : Type := list (string * SocketInfo).

Fixpoint get (k : string) (d : t) : option SocketInfo :=
  match d with
  | [] => None
  | (k', v) :: r => if String.eqb k k' then Some v else get k r
  end.

Definition contains (k : string) (d : t) : bool :=
  match get k d with
  | Some _ => true
  | None => false
  end.

(** [d[k] = v]: in place when the key is there, appended otherwise. *)
Fixpoint set (k : string) (v : SocketInfo) (d : t) : t :=
  match d with
  | [] => [(k, v)]
  | (k', v') :: r =>
      if String.eqb k k' then (k', v) :: r else (k', v') :: set k v r
  end.

(** [del d[k]] *)
Fixpoint del (k : string) (d : t) : t :=
  match d with
  | [] => []
  | (k', v') :: r => if String.eqb k k' then r else (k', v') :: del k r
  end.

(** An attribute assignment on the object [d[k]]. *)
Fixpoint update (k : string) (f : SocketInfo -> SocketInfo) (d : t) : t :=
  match d with
  | [] => []
  | (k', v') :: r =>
      if String.eqb k k' then (k', f v') :: r else (k', v') :: update k f r
  end.

Definition values (d : t) : list SocketInfo := map snd d.

Definition keys (d : t) : list string := map fst d.

End Dict.

(** The module-level state of [app.py] and the settings table behind
    [mysql()]. *)
Record World : Type := mkWorld {
  socket_to_info : Dict.t;
  socket_to_presence : gmap string PresenceInfo;
  streamersettings : list StreamerRow
}.

(** What the handlers take from outside the repository. *)
Record Env : Type := mkEnv {
  emotes : string -> string;
  sql_eq : string -> string -> bool;
  read_only : bool
}.

(** The facts of one inbound socket event. *)
Record Request : Type := mkRequest {
  request_sid : string;
  remote_addr : string;
  now : Z;
  rand : nat
}.

(** ** Outbound effects *)

(** The payload of an emitted event. *)
Unset Elimination Schemes.
Inductive Json : Type :=
| JStr (s : string)
| JList (items : list Json)
| JObj (fields : list (string * Json)).
Set Elimination Schemes.

(** [socketio.emit(event, payload, room=room)] and [join_room(room)]. *)
Inductive Effect : Type :=
| Emit (event : string) (payload : Json) (room : string)
| JoinRoom (member room : string).

Record Outcome : Type := mkOutcome {
  world : World;
  effects : list Effect;
  raised : option Exn
}.

Definition done (w : World) (es : list Effect) : Outcome :=
  mkOutcome w es None.

Definition raise (w : World) (es : list Effect) (e : Exn) : Outcome :=
  mkOutcome w es (Some e).

Definition msg (text : string) : Json := JObj [("msg", JStr text)].

Definition server (text room : string) : Effect :=
  Emit "server" (msg text) room.

Definition error (text room : string) : Effect :=
  Emit "error" (msg text) room.

Definition set_info (d : Dict.t) (w : World) : World :=
  mkWorld d (socket_to_presence w) (streamersettings w).

Definition set_settings (t : list StreamerRow) (w : World) : World :=
  mkWorld (socket_to_info w) (socket_to_presence w) t.

(** [socket_to_presence[request.sid] = PresenceInfo(request.sid, streamer)] *)
Definition touch (req : Request) (room : string) (w : World) : World :=
  mkWorld (socket_to_info w)
    (<[request_sid req := mkPresenceInfo (request_sid req) room (now req)]>
       (socket_to_presence w))
    (streamersettings w).

(** ** Projections *)

(** [SocketInfo.htmlcolor] *)
Definition htmlcolor (user : SocketInfo) : string :=
  let digits := Py.hex (color user) in
  let digits :=
    if (Py.len digits <? 6)%nat
    then Py.repeat_char "0" (6 - Py.len digits) +:+ digits
    else digits in
  String "#" digits.

Definition get_type (user : SocketInfo) : string :=
  if admin user then "admin"
  else if moderator user then "moderator"
  else "normal".

(** One entry of the roster, [{'username': _, 'type': _, 'color': _}]. *)
Record User : Type := mkUser {
  user_username : string;
  user_type : string;
  user_color : string
}.

Definition user_json (u : User) : Json :=
  JObj [("username", JStr (user_username u)); ("type", JStr (user_type u));
        ("color", JStr (user_color u))].

Definition in_room (room : string) (i : SocketInfo) : bool :=
  String.eqb (streamer i) room.

Definition users_in_room (d : Dict.t) (room : string) : list User :=
  map (fun i => mkUser (username i) (get_type i) (htmlcolor i))
      (List.filter (in_room room) (Dict.values d)).

Definition users_json (d : Dict.t) (room : string) : Json :=
  JList (map user_json (users_in_room d room)).

(** [stream_count], with [now()] as an argument. *)
Definition stream_count (time : Z) (w : World) (room : string) : nat :=
  let oldest := time - 30 in
  length (filter (fun x => presence_streamer x = room ∧ oldest <= timestamp x)
            (map snd (map_to_list (socket_to_presence w)))).

(** ** The settings store, as [Data.execute] shows it *)

(** [SELECT ... FROM streamersettings WHERE username = :username]; the
    rows are the cursor, [length] its [rowcount], [head] its [fetchone]. *)
Definition select_streamer (env : Env) (w : World) (name : string)
  : list StreamerRow :=
  List.filter (fun r => sql_eq env (row_username r) name) (streamersettings w).

(** [UPDATE streamersettings SET ... WHERE username = :streamer].  In
    read-only mode [Data.execute] raises on any update statement. *)
Definition update_streamer (env : Env) (w : World) (name : string)
    (f : StreamerRow -> StreamerRow) : Result World :=
  if read_only env then Raise (Exception "Read-only mode is active!")
  else Ok (set_settings
             (map (fun r => if sql_eq env (row_username r) name then f r else r)
                  (streamersettings w)) w).

(** ** Inbound payloads

    A payload is a JSON object; each record lists the keys its handler
    reads, [None] for a key that is absent. *)

Record LoginJson : Type := mkLoginJson {
  login_username : option string;
  login_streamer : option string;
  login_color : option string;
  login_key : option string
}.

(** ** Connection handlers *)

(** [connect] *)
Definition connect (req : Request) (w : World) : Outcome :=
  if Dict.contains (request_sid req) (socket_to_info w)
  then done (set_info (Dict.del (request_sid req) (socket_to_info w)) w) []
  else done w [].

(** The identity fields every room-wide payload starts with. *)
Definition identity (name : string) (info : SocketInfo)
  : list (string * Json) :=
  [("username", JStr name); ("type", JStr (get_type info));
   ("color", JStr (htmlcolor info))].

(** [disconnect] *)
Definition disconnect (req : Request) (w : World) : Outcome :=
  let sid := request_sid req in
  let '(w, es) :=
    match Dict.get sid (socket_to_info w) with
    | Some info =>
        let d := Dict.del sid (socket_to_info w) in
        (set_info d w,
         [Emit "disconnected"
            (JObj (identity (username info) info
                   ++ [("users", users_json d (streamer info))]))
            (streamer info)])
    | None => (w, [])
    end in
  done (mkWorld (socket_to_info w) (delete sid (socket_to_presence w))
          (streamersettings w)) es.

(** [handle_presence]; the payload is the value of ['streamer']. *)
Definition handle_presence (req : Request) (json : option string) (w : World)
  : Outcome :=
  match json with
  | None => done w []
  | Some room => done (touch req (Py.lower room) w) []
  end.

(** ** [handle_login] *)

Definition name_taken (d : Dict.t) (room name : string) : bool :=
  existsb (fun user => String.eqb (Py.lower (user_username user))
                         (Py.lower name))
          (users_in_room d room).

Definition name_taken_again (d : Dict.t) (room name : string) : bool :=
  existsb (fun existing => in_room room existing
                           && String.eqb (Py.lower (username existing))
                                (Py.lower name))
          (Dict.values d).

(** [get_color(...) or 0]: [None] and [0] are both falsy and both give 0. *)
Definition or_zero (c : option Z) : Z :=
  match c with
  | Some n => n
  | None => 0
  end.

(** The tail of [handle_login] from the insertion of the session on. *)
Definition login_insert (req : Request) (room name : string)
    (is_admin : bool) (col : Z) (w : World) : Outcome :=
  let sid := request_sid req in
  if name_taken_again (socket_to_info w) room name
  then done w [error "Username is taken" sid]
  else
    let info :=
      mkSocketInfo sid (remote_addr req) room name is_admin false false col in
    let d := Dict.set sid info (socket_to_info w) in
    done (set_info d w)
      ([JoinRoom sid room;
        Emit "login success" (JObj [("username", JStr name)]) sid;
        Emit "connected"
          (JObj (identity name info ++ [("users", users_json d room)])) room]
       ++ (if is_admin then [server "You have admin rights." sid] else [])).

Definition handle_login (env : Env) (req : Request) (json : LoginJson)
    (w : World) : Outcome :=
  let sid := request_sid req in
  if Dict.contains sid (socket_to_info w)
  then done w [error "SID already taken?" sid]
  else
  match login_username json with
  | None => done w [error "Username mssing from JSON?" sid]
  | Some json_username =>
  match login_streamer json with
  | None => done w [error "Streamer mssing from JSON?" sid]
  | Some json_streamer =>
  if Nat.eqb (Py.len json_username) 0
  then done w [error "Username cannot be blank" sid]
  else if (30 <=? Py.len json_username)%nat
  then done w [error "Username cannot be that long" sid]
  else
  let streamer := Py.lower json_streamer in
  let username := json_username in
  if name_taken (socket_to_info w) streamer username
  then done w [error "Username is already taken" sid]
  else
  match login_color json with
  | None => raise w [] (KeyError "color")
  | Some json_color =>
  match get_color (rand req) (Py.lower (Py.strip json_color)) with
  | Raise e => raise w [] e
  | Ok resolved =>
  let color := or_zero resolved in
  let key := login_key json in
  (* Update user presence information *)
  let w := touch req streamer w in
  let cursor := select_streamer env w streamer in
  match cursor with
  | [result] =>
      if String.eqb (Py.lower username) streamer then
        match key with
        | None =>
            done w [Emit "login key required"
                      (JObj [("username", JStr (row_username result))]) sid]
        | Some key =>
            if negb (String.eqb key (row_key result))
            then done w [error "Invalid password!" sid]
            else
              let username := row_username result in
              (* the session is built from json['username'], not [username] *)
              login_insert req streamer json_username true color w
        end
      else login_insert req streamer json_username false color w
  | _ => done w [error "Streamer does not exist" sid]
  end
  end
  end
  end
  end.

(** ** [handle_message] *)

Definition dquote : string := String "034" EmptyString.

(** [command in [...]] *)
Definition command_in (command : string) (names : list string) : bool :=
  existsb (String.eqb command) names.

Definition unrecognized (command room : string) : Effect :=
  server ("Unrecognized command '" +:+ command +:+ "', use '/help' for info.")
         room.

Definition you_are_muted (room : string) : Effect :=
  server "You are muted!" room.

(** The payload of ['message received'] and ['action received']. *)
Definition spoken (me : SocketInfo) (text : string) : Json :=
  JObj (identity (username me) me ++ [("message", JStr text)]).

(** [/say] and plain speech. *)
Definition cmd_say (env : Env) (req : Request) (me : SocketInfo)
    (message : string) (w : World) : Outcome :=
  if muted me then done w [you_are_muted (request_sid req)]
  else done w [Emit "message received" (spoken me (emotes env message))
                 (streamer me)].

(** [/me], [/action], [/describe] *)
Definition cmd_me (env : Env) (req : Request) (me : SocketInfo)
    (message : string) (w : World) : Outcome :=
  if muted me then done w [you_are_muted (request_sid req)]
  else done w [Emit "action received" (spoken me (emotes env message))
                 (streamer me)].

(** [not color] for an [Optional[int]]: true for [None] and for [0]. *)
Definition falsy (c : option Z) : bool :=
  match c with
  | Some n => n =? 0
  | None => true
  end.

Definition with_color (c : Z) (i : SocketInfo) : SocketInfo :=
  mkSocketInfo (sid i) (ip i) (streamer i) (username i) (admin i)
    (moderator i) (muted i) c.

Definition with_username (name : string) (i : SocketInfo) : SocketInfo :=
  mkSocketInfo (sid i) (ip i) (streamer i) name (admin i) (moderator i)
    (muted i) (color i).

Definition with_muted (b : bool) (i : SocketInfo) : SocketInfo :=
  mkSocketInfo (sid i) (ip i) (streamer i) (username i) (admin i)
    (moderator i) b (color i).

Definition with_moderator (b : bool) (i : SocketInfo) : SocketInfo :=
  mkSocketInfo (sid i) (ip i) (streamer i) (username i) (admin i) b
    (muted i) (color i).

(** [/color], [/setcolor] *)
Definition cmd_color (req : Request) (me : SocketInfo) (message : string)
    (w : World) : Outcome :=
  let sid := request_sid req in
  if muted me then done w [you_are_muted sid]
  else
    match get_color (rand req) (Py.lower (Py.strip message)) with
    | Raise e => raise w [] e
    | Ok color =>
        if falsy color then
          done w [server ("Invalid color " +:+ message
                          +:+ " specified, try a color name, an HTML color like #ff00ff or "
                          +:+ dquote +:+ "random" +:+ dquote
                          +:+ " for a random color.") sid]
        else
          let me' := with_color (or_zero color) me in
          done (set_info (Dict.update sid (with_color (or_zero color))
                            (socket_to_info w)) w)
            [Emit "action received" (spoken me' "changed their color!")
               (streamer me');
             Emit "return color" (JObj [("color", JStr (htmlcolor me'))]) sid]
    end.

(** [/name], [/nick] *)
Definition cmd_name (req : Request) (me : SocketInfo) (message : string)
    (w : World) : Outcome :=
  let sid := request_sid req in
  if muted me then done w [you_are_muted sid]
  else
    let name := Py.strip message in
    if (30 <=? Py.len name)%nat then
      done w [server "Too long of a name specified, try a different name." sid]
    else if name_taken (socket_to_info w) (streamer me) name then
      done w [server "Name has already been taken, try a different name." sid]
    else if Nat.eqb (Py.len name) 0 then
      done w [server "Invalid name specified, try a different name." sid]
    else
      let old := username me in
      let me' := with_username name me in
      let d := Dict.update sid (with_username name) (socket_to_info w) in
      done (set_info d w)
        [Emit "rename"
           (JObj [("newname", JStr (username me')); ("oldname", JStr old);
                  ("type", JStr (get_type me'));
                  ("color", JStr (htmlcolor me'));
                  ("users", users_json d (streamer me'))])
           (streamer me')].

(** [/help] *)
Definition cmd_help (req : Request) (me : SocketInfo) (w : World) : Outcome :=
  let messages :=
    [ "The following commands are recognized:";
      "/help - show this message";
      "/users - show the currently chatting users";
      "/me - perform an action";
      "/color - set the color of your name in chat";
      "/name - change your name to a new one" ]
    ++ (if admin me then
          [ "/settings - display all stream settings";
            "/description <text> - set the stream description";
            "/password [<text>] - set or unset the stream password";
            "/mod <user> - grant moderator privileges to user";
            "/demod <user> - revoke moderator privileges to user" ]
        else [])
    ++ (if admin me || moderator me then
          [ "/mute <user> - mute user"; "/unmute <user> - unmute user" ]
        else []) in
  done w (map (fun message => server message (request_sid req)) messages).

(** [/users] *)
Definition cmd_users (req : Request) (me : SocketInfo) (w : World) : Outcome :=
  done w [Emit "userlist"
            (JObj [("users", users_json (socket_to_info w) (streamer me))])
            (request_sid req)].

Definition opt_text (o : option string) : string :=
  match o with
  | Some s => s
  | None => "None"
  end.

(** [if result['streampass']]: a password that is set and not empty. *)
Definition truthy_text (o : option string) : bool :=
  match o with
  | Some s => negb (Nat.eqb (Py.len s) 0)
  | None => false
  end.

(** [/settings] *)
Definition cmd_settings (env : Env) (req : Request) (me : SocketInfo)
    (command : string) (w : World) : Outcome :=
  let sid := request_sid req in
  if negb (admin me) then done w [unrecognized command sid]
  else
    let cursor := select_streamer env w (streamer me) in
    match cursor with
    | [result] =>
        done w
          [server ("Description: " +:+ opt_text (row_description result)) sid;
           if truthy_text (row_streampass result)
           then server ("Stream password: "
                        +:+ opt_text (row_streampass result)) sid
           else server "No stream password" sid]
    | _ => done w [server "Error looking up settings!" sid]
    end.

(** The test of the moderation loops over [socket_to_info.values()]. *)
Definition targets (message room : string) (sinfo : SocketInfo) : bool :=
  String.eqb (Py.lower (username sinfo)) message
  && String.eqb (streamer sinfo) room.

(** The first object of the dictionary, in its order, that passes [p]. *)
Fixpoint first_target (p : SocketInfo -> bool) (d : Dict.t)
  : option SocketInfo :=
  match d with
  | [] => None
  | (_, v) :: r => if p v then Some v else first_target p r
  end.

(** An attribute assignment on that object, in place. *)
Fixpoint update_first (p : SocketInfo -> bool)
    (f : SocketInfo -> SocketInfo) (d : Dict.t) : Dict.t :=
  match d with
  | [] => []
  | (k, v) :: r => if p v then (k, f v) :: r else (k, v) :: update_first p f r
  end.

(** The shared body of [/mute], [/unmute], [/mod] and [/demod] after the
    privilege check: [flag] is the attribute, [value] what it is set to,
    [did] and [already] end the two notices to the caller, [notice] is the
    text sent to the target. *)
Definition moderate (req : Request) (me : SocketInfo) (message : string)
    (flag : SocketInfo -> bool) (assign : bool -> SocketInfo -> SocketInfo)
    (value : bool) (did already notice : string) (w : World) : Outcome :=
  let caller := request_sid req in
  let message := Py.lower (Py.strip message) in
  let p := targets message (streamer me) in
  match first_target p (socket_to_info w) with
  | Some sinfo =>
      let changed := negb (Bool.eqb (flag sinfo) value) in
      let w := set_info (update_first p (assign value) (socket_to_info w)) w in
      if changed then
        done w [server ("User '" +:+ message +:+ "' " +:+ did) caller;
                server notice (sid sinfo)]
      else
        done w [server ("User '" +:+ message +:+ "' " +:+ already) caller]
  | None => done w [server ("Unrecognized user '" +:+ message +:+ "'") caller]
  end.

(** [/mute], [/quiet] *)
Definition cmd_mute (req : Request) (me : SocketInfo)
    (command message : string) (w : World) : Outcome :=
  if negb (admin me || moderator me)
  then done w [unrecognized command (request_sid req)]
  else moderate req me message muted with_muted true
         "has been muted." "is already muted." "You have been muted." w.

(** [/unmute], [/unquiet] *)
Definition cmd_unmute (req : Request) (me : SocketInfo)
    (command message : string) (w : World) : Outcome :=
  if negb (admin me || moderator me)
  then done w [unrecognized command (request_sid req)]
  else moderate req me message muted with_muted false
         "has been unmuted." "is not muted." "You have been unmuted." w.

(** [/mod] *)
Definition cmd_mod (req : Request) (me : SocketInfo)
    (command message : string) (w : World) : Outcome :=
  if negb (admin me) then done w [unrecognized command (request_sid req)]
  else moderate req me message moderator with_moderator true
         "has been promoted to moderator." "is already a moderator."
         "You have been promoted to moderator." w.

(** [/demod], [/unmod] *)
Definition cmd_demod (req : Request) (me : SocketInfo)
    (command message : string) (w : World) : Outcome :=
  if negb (admin me) then done w [unrecognized command (request_sid req)]
  else moderate req me message moderator with_moderator false
         "has been demoted from moderator." "is not a moderator."
         "You have been demoted from moderator." w.

Definition with_description (text : string) (r : StreamerRow) : StreamerRow :=
  mkStreamerRow (row_username r) (row_key r) (Some text) (row_streampass r).

Definition with_streampass (p : option string) (r : StreamerRow)
  : StreamerRow :=
  mkStreamerRow (row_username r) (row_key r) (row_description r) p.

(** [/desc], [/description] *)
Definition cmd_desc (env : Env) (req : Request) (me : SocketInfo)
    (command message : string) (w : World) : Outcome :=
  let sid := request_sid req in
  if negb (admin me) then done w [unrecognized command sid]
  else
    let description := emotes env (Py.strip message) in
    match update_streamer env w (streamer me) (with_description description)
    with
    | Raise e => raise w [] e
    | Ok w => done w [server "Stream description updated!" sid]
    end.

(** [/password] *)
Definition cmd_password (env : Env) (req : Request) (me : SocketInfo)
    (command message : string) (w : World) : Outcome :=
  let sid := request_sid req in
  if negb (admin me) then done w [unrecognized command sid]
  else
    let streamer := streamer me in
    if negb (Nat.eqb (Py.len message) 0) then
      match update_streamer env w streamer (with_streampass (Some message))
      with
      | Raise e => raise w [] e
      | Ok w =>
          done w
            [server ("Stream password set to " +:+ dquote +:+ message
                     +:+ dquote +:+ "!") sid;
             Emit "password set" (JObj [("password", JStr message)]) sid;
             Emit "password activated" (JObj [("username", JStr streamer)])
               streamer]
      end
    else
      match update_streamer env w streamer (with_streampass None) with
      | Raise e => raise w [] e
      | Ok w =>
          done w
            [server "Stream password removed!" sid;
             Emit "password deactivated"
               (JObj [("username", JStr streamer);
                      ("msg", JStr "Stream password has been removed.")])
               streamer]
      end.

(** The cascade of [if command in [...]] of the command branch. *)
Definition run_command (env : Env) (req : Request) (me : SocketInfo)
    (command message : string) (w : World) : Outcome :=
  if command_in command ["/say"] then cmd_say env req me message w
  else if command_in command ["/me"; "/action"; "/describe"]
  then cmd_me env req me message w
  else if command_in command ["/color"; "/setcolor"]
  then cmd_color req me message w
  else if command_in command ["/name"; "/nick"]
  then cmd_name req me message w
  else if command_in command ["/help"] then cmd_help req me w
  else if command_in command ["/users"] then cmd_users req me w
  else if command_in command ["/settings"]
  then cmd_settings env req me command w
  else if command_in command ["/mute"; "/quiet"]
  then cmd_mute req me command message w
  else if command_in command ["/unmute"; "/unquiet"]
  then cmd_unmute req me command message w
  else if command_in command ["/mod"] then cmd_mod req me command message w
  else if command_in command ["/demod"; "/unmod"]
  then cmd_demod req me command message w
  else if command_in command ["/desc"; "/description"]
  then cmd_desc env req me command message w
  else if command_in command ["/password"]
  then cmd_password env req me command message w
  else done w [unrecognized command (request_sid req)].

(** The command line: [message.split(' ', 1)] when there is a space, the
    whole text and an empty argument otherwise. *)
Definition split_command (message : string) : string * string :=
  if Py.has_space message then Py.split_space message
  else (message, EmptyString).

(** [handle_message]; the payload is the value of ['message'].  On a
    stripped text that is empty, [message[0]] raises [IndexError]. *)
Definition handle_message (env : Env) (req : Request) (json : option string)
    (w : World) : Outcome :=
  let sid := request_sid req in
  match json with
  | None => done w [error "Message mssing from JSON?" sid]
  | Some json_message =>
  if Nat.eqb (Py.len json_message) 0
  then done w [Emit "warning" (msg "Message cannot be blank") sid]
  else
  match Dict.get sid (socket_to_info w) with
  | None => done w [error "User is not authenticated?" sid]
  | Some me =>
  (* Update user presence information *)
  let w := touch req (streamer me) w in
  let message := Py.strip json_message in
  match message with
  | EmptyString => raise w [] IndexError
  | String first _ =>
      if Ascii.eqb first "/" then
        let '(command, message) := split_command message in
        run_command env req me command message w
      else cmd_say env req me message w
  end
  end
  end.

(** [return_color] *)
Definition return_color (req : Request) (w : World) : Outcome :=
  let sid := request_sid req in
  match Dict.get sid (socket_to_info w) with
  | None => done w [error "User is not authenticated?" sid]
  | Some me =>
      done w [Emit "return color" (JObj [("color", JStr (htmlcolor me))]) sid]
  end.

(** [handle_drawing]; the payload is the value of ['src']. *)
Definition handle_drawing (req : Request) (json : option string) (w : World)
  : Outcome :=
  let sid := request_sid req in
  match json with
  | None => done w [error "Image mssing from JSON?" sid]
  | Some json_src =>
  match Dict.get sid (socket_to_info w) with
  | None => done w [error "User is not authenticated?" sid]
  | Some me =>
      let w := touch req (streamer me) w in
      let src := Py.strip json_src in
      if muted me then done w [you_are_muted sid]
      else done w [Emit "drawing received"
                     (JObj (identity (username me) me ++ [("src", JStr src)]))
                     (streamer me)]
  end
  end.

(** ** The event surface *)

Inductive Event : Type :=
| EvConnect
| EvDisconnect
| EvPresence (json : option string)
| EvLogin (json : LoginJson)
| EvMessage (json : option string)
| EvGetColor
| EvDrawing (json : option string).

Definition handle (env : Env) (req : Request) (ev : Event) (w : World)
  : Outcome :=
  match ev with
  | EvConnect => connect req w
  | EvDisconnect => disconnect req w
  | EvPresence json => handle_presence req json w
  | EvLogin json => handle_login env req json w
  | EvMessage json => handle_message env req json w
  | EvGetColor => return_color req w
  | EvDrawing json => handle_drawing req json w
  end.

(** The worlds the server can be in: it starts with both dictionaries
    empty, handles events one at a time, and the settings table may be
    edited from outside between two events.  [allowed] restricts the
    events considered. *)
Inductive reachable_by (allowed : Request -> Event -> World -> Prop)
    (env : Env) : World -> Prop :=
| reach_start t : reachable_by allowed env (mkWorld [] ∅ t)
| reach_event w req ev :
    reachable_by allowed env w -> allowed req ev w ->
    reachable_by allowed env (world (handle env req ev w))
| reach_settings w t :
    reachable_by allowed env w -> reachable_by allowed env (set_settings t w).

Definition reachable : Env -> World -> Prop :=
  reachable_by (fun _ _ _ => True).

(** ** A running example

    A settings store that compares streamer names without regard to case
    and holds one streamer, whose canonical name is spelled [Bob]. *)

Module Scenario.

Definition env : Env :=
  mkEnv (fun text => text)
        (fun a b => String.eqb (Py.lower a) (Py.lower b))
        false.

Definition settings : list StreamerRow :=
  [mkStreamerRow "Bob" "s3cret" None None].

Definition start : World := mkWorld [] ∅ settings.

Definition at_time (who : string) (time : Z) : Request :=
  mkRequest who "203.0.113.7" time 0.

Definition login (name room col : string) (key : option string)
  : LoginJson :=
  mkLoginJson (Some name) (Some room) (Some col) key.

(** Connection [A] joins room [bob] as [alice]. *)
Definition alice_in : World :=
  world (handle env (at_time "A" 0)
           (EvLogin (login "alice" "Bob" "blue" None)) start).

(** Connection [B] then joins as the streamer, spelling the name [BOB]. *)
Definition bob_in : World :=
  world (handle env (at_time "B" 5)
           (EvLogin (login "BOB" "bob" "red" (Some "s3cret"))) alice_in).

(** The streamer renames themself. *)
Definition bob_renamed : World :=
  world (handle env (at_time "B" 6) (EvMessage (Some "/name zed")) bob_in).

(** The streamer mutes [alice]. *)
Definition alice_muted : World :=
  world (handle env (at_time "B" 7) (EvMessage (Some "/mute Alice"))
           bob_in).

End Scenario.

(** ** What one event can do to the session registry

    Every handler leaves [socket_to_info] in one of a few shapes; the
    invariants of the registry are proved once against this relation. *)

(** The message is a rename command: its command word is [/name] or
    [/nick]. *)
Definition is_rename (json_message : string) : bool :=
  command_in (fst (split_command (Py.strip json_message))) ["/name"; "/nick"].

(** The (room, normalised display name) of a session: the key that must
    be unique. *)
Definition room_name (entry : string * SocketInfo) : string * string :=
  (streamer (snd entry), Py.lower (username (snd entry))).

Inductive registry_step (req : Request) (ev : Event) (d : Dict.t)
  : Dict.t -> Prop :=
| step_same : registry_step req ev d d
| step_del : registry_step req ev d (Dict.del (request_sid req) d)
| step_insert room name is_admin col :
    Dict.contains (request_sid req) d = false ->
    name_taken_again d room name = false ->
    (is_admin = true -> Py.lower name = room) ->
    registry_step req ev d
      (Dict.set (request_sid req)
         (mkSocketInfo (request_sid req) (remote_addr req) room name
            is_admin false false col) d)
| step_recolor col :
    registry_step req ev d (Dict.update (request_sid req) (with_color col) d)
| step_rename me name text :
    Dict.get (request_sid req) d = Some me ->
    name_taken d (streamer me) name = false ->
    ev = EvMessage (Some text) ->
    is_rename text = true ->
    registry_step req ev d
      (Dict.update (request_sid req) (with_username name) d)
| step_muted p b : registry_step req ev d (update_first p (with_muted b) d)
| step_moderator p b :
    registry_step req ev d (update_first p (with_moderator b) d).

(** The two halves of the uniqueness invariant: the dictionary has one
    entry per connection id, and no two entries share a room and a
    normalised display name. *)
Definition registry_ok (d : Dict.t) : Prop :=
  NoDup (Dict.keys d) ∧ NoDup (map room_name d).

(** An admin session is named after its room, up to case. *)
Definition admin_named (d : Dict.t) : Prop :=
  ∀ k i, (k, i) ∈ d -> admin i = true -> Py.lower (username i) = streamer i.

(** The event is a rename command sent by an admin session. *)
Definition admin_rename (req : Request) (ev : Event) (d : Dict.t) : Prop :=
  ∃ text me, ev = EvMessage (Some text) ∧ is_rename text = true
             ∧ Dict.get (request_sid req) d = Some me ∧ admin me = true.

(** The connection ids that count as live viewers of a room at [time]. *)
Definition live_ids (time : Z) (w : World) (room : string) : gset string :=
  dom (filter (fun entry => presence_streamer (snd entry) = room
                            ∧ time - 30 <= timestamp (snd entry))
              (socket_to_presence w)).

(** ** What one event can do to a session, with its reasons

    A finer reading of the handlers than [registry_step]: each shape of
    change comes with the event that caused it and the checks the handler
    passed on the way. *)

(** A session as the handlers build it: its [sid] attribute is its key,
    its room is in lower case, its display name has 1 to 29 characters and
    its colour is a 24-bit value. *)
Definition session_ok (k : string) (i : SocketInfo) : Prop :=
  sid i = k ∧ Py.lower (streamer i) = streamer i
  ∧ (1 <= Py.len (username i) < 30)%nat ∧ 0 <= color i <= 0xFFFFFF.

Inductive session_step (env : Env) (req : Request) (ev : Event) (w : World)
  : Dict.t -> Prop :=
| sess_same : session_step env req ev w (socket_to_info w)
| sess_del :
    ev = EvConnect ∨ ev = EvDisconnect ->
    session_step env req ev w (Dict.del (request_sid req) (socket_to_info w))
| sess_insert json name room col resolved is_admin :
    ev = EvLogin json ->
    login_username json = Some name ->
    login_streamer json = Some room ->
    login_color json = Some col ->
    Dict.contains (request_sid req) (socket_to_info w) = false ->
    (1 <= Py.len name < 30)%nat ->
    name_taken (socket_to_info w) (Py.lower room) name = false ->
    get_color (rand req) (Py.lower (Py.strip col)) = Ok resolved ->
    (is_admin = true ->
     ∃ result, select_streamer env w (Py.lower room) = [result]
               ∧ login_key json = Some (row_key result)
               ∧ Py.lower name = Py.lower room) ->
    session_step env req ev w
      (Dict.set (request_sid req)
         (mkSocketInfo (request_sid req) (remote_addr req) (Py.lower room)
            name is_admin false false (or_zero resolved))
         (socket_to_info w))
| sess_recolor text me col :
    ev = EvMessage (Some text) ->
    Dict.get (request_sid req) (socket_to_info w) = Some me ->
    muted me = false ->
    0 <= col <= 0xFFFFFF ->
    session_step env req ev w
      (Dict.update (request_sid req) (with_color col) (socket_to_info w))
| sess_rename text me name :
    ev = EvMessage (Some text) ->
    Dict.get (request_sid req) (socket_to_info w) = Some me ->
    muted me = false ->
    (1 <= Py.len name < 30)%nat ->
    session_step env req ev w
      (Dict.update (request_sid req) (with_username name) (socket_to_info w))
| sess_muted text me p b :
    ev = EvMessage (Some text) ->
    Dict.get (request_sid req) (socket_to_info w) = Some me ->
    admin me || moderator me = true ->
    session_step env req ev w
      (update_first p (with_muted b) (socket_to_info w))
| sess_moderator text me p b :
    ev = EvMessage (Some text) ->
    Dict.get (request_sid req) (socket_to_info w) = Some me ->
    admin me = true ->
    session_step env req ev w
      (update_first p (with_moderator b) (socket_to_info w)).

(** The attributes of a session that no handler assigns after login. *)
Definition fixed_part (i : SocketInfo) : string * string * string * bool :=
  (sid i, ip i, streamer i, admin i).

(** The messages whose effect a mute replaces by a notice: plain speech,
    and the command lines of [/say], [/me], [/color], [/name] and their
    aliases. *)
Definition mute_gated (json_message : string) : bool :=
  match Py.strip json_message with
  | EmptyString => false
  | String first _ =>
      if Ascii.eqb first "/" then
        command_in (fst (split_command (Py.strip json_message)))
          ["/say"; "/me"; "/action"; "/describe"; "/color"; "/setcolor";
           "/name"; "/nick"]
      else true
  end.

(** The effect is an event sent to one room name. *)
Definition sent_to (room : string) (e : Effect) : Prop :=
  ∃ event payload, e = Emit event payload room.

(** The command words reserved to the streamer, and those reserved to the
    streamer and the moderators. *)
Definition admin_commands : list string :=
  ["/settings"; "/mod"; "/demod"; "/unmod"; "/desc"; "/description";
   "/password"].

Definition moderation_commands : list string :=
  ["/mute"; "/quiet"; "/unmute"; "/unquiet"].

(** The command words [run_command] knows. *)
Definition known_commands : list string :=
  ["/say"; "/me"; "/action"; "/describe"; "/color"; "/setcolor"; "/name";
   "/nick"; "/help"; "/users"] ++ admin_commands ++ moderation_commands.

(** Two more worlds of the running example: the streamer makes [alice] a
    moderator, then mutes her. *)
Module Scenario2.

Definition alice_moderator : World :=
  world (handle Scenario.env (Scenario.at_time "B" 8)
           (EvMessage (Some "/mod alice")) Scenario.bob_in).

Definition alice_moderator_muted : World :=
  world (handle Scenario.env (Scenario.at_time "B" 9)
           (EvMessage (Some "/quiet Alice")) alice_moderator).

End Scenario2.

(** The [k] low hexadecimal digits of [n], most significant first, put in
    front of [acc]: the fixed-width form that [htmlcolor] pads to. *)
Fixpoint hex_fixed (k : nat) (n : Z) (acc : string) : string :=
  match k with
  | O => acc
  | S k' => hex_fixed k' (n / 16) (String (Py.hex_digit (n mod 16)) acc)
  end.

(** ** The playlist routes

    The HTTP side of [app.py] that serves a stream: [stream_live],
    [fetch_m3u8], [first_quality], [symlink], [streaminfo],
    [streamplaylist] and [streamplaylistwithquality].  The file system is
    read through the functions of [Files]; what a route writes to it is
    recorded, in order, as [FsEffect]s. *)

Module PyStr.

(** [s.startswith(prefix)] *)
Fixpoint startswith (s prefix : string) : bool :=
  match prefix with
  | EmptyString => true
  | String p ps =>
      match s with
      | String c cs => Ascii.eqb c p && startswith cs ps
      | EmptyString => false
      end
  end.

(** [s[n:]] *)
Fixpoint drop (n : nat) (s : string) : string :=
  match n with
  | O => s
  | S k => match s with
           | String _ r => drop k r
           | EmptyString => EmptyString
           end
  end.

(** [s[-3:]] *)
Definition last3 (s : string) : string := drop (Py.len s - 3) s.

(** [sub in s] *)
Fixpoint contains (s sub : string) : bool :=
  startswith s sub
  || match s with
     | String _ r => contains r sub
     | EmptyString => false
     end.

(** The line boundaries of [str.splitlines] below code point 256. *)
Definition is_linebreak (c : ascii) : bool :=
  let n := N_of_ascii c in
  ((10 <=? n) && (n <=? 13) || (28 <=? n) && (n <=? 30) || (n =? 133))%N.

(** [s.splitlines()]: [cur] is the line being read, reversed; [after_cr]
    tells that the previous character was a carriage return, so that a
    line feed that follows belongs to the same boundary. *)
Fixpoint splitlines_from (s cur : string) (after_cr : bool) : list string :=
  match s with
  | EmptyString =>
      match cur with
      | EmptyString => []
      | _ => [Py.rev cur]
      end
  | String c r =>
      if after_cr && Ascii.eqb c "010" then splitlines_from r cur false
      else if is_linebreak c
      then Py.rev cur :: splitlines_from r EmptyString (Ascii.eqb c "013")
      else splitlines_from r (String c cur) false
  end.

Definition splitlines (s : string) : list string :=
  splitlines_from s EmptyString false.

Definition newline : string := String "010" EmptyString.

(** ["\n".join(lines)] *)
Fixpoint join_lines (lines : list string) : string :=
  match lines with
  | [] => EmptyString
  | [line] => line
  | line :: rest => line +:+ newline +:+ join_lines rest
  end.

End PyStr.

(** [os.path.join], [os.path.isfile], the modification time in whole
    seconds and the decoded content of a file. *)
Record Files : Type := mkFiles {
  path_join : string -> string -> string;
  isfile : string -> bool;
  getmtime : string -> Z;
  read_text : string -> string
}.

(** The keys of [config] the routes read; an entry of [video_qualities]
    that is not a string is [None]. *)
Record Config : Type := mkConfig {
  hls_dir : string;
  hls_playlist_length : Z;
  video_qualities : option (list (option string))
}.

(** The facts of one HTTP request: the [streampass] cookie and [now()]. *)
Record HttpRequest : Type := mkHttpRequest {
  cookie_streampass : option string;
  http_now : Z
}.

Inductive FsEffect : Type :=
| Symlink (src dst : string)
| CleanSymlinks.

(** What a route answers: [abort(code)], a text body, the JSON of
    [streaminfo], or an exception that leaves the handler. *)
Inductive Response : Type :=
| Abort (code : nat)
| Body (text : string)
| Info (live : bool) (count : nat) (description : string)
| Failed (e : Exn).

Record HttpOutcome : Type := mkHttpOutcome {
  response : Response;
  fs_effects : list FsEffect
}.

(** [if quality:] for an [Optional[str]] *)
Definition given (quality : option string) : option string :=
  match quality with
  | Some q => if Nat.eqb (Py.len q) 0 then None else Some q
  | None => None
  end.

Definition first_quality (cfg : Config) : option string :=
  match video_qualities cfg with
  | None | Some [] => None
  | Some (firstq :: _) => firstq
  end.

Definition stream_live (cfg : Config) (fs : Files) (time : Z)
    (streamkey : string) (quality : option string) : bool :=
  let filename :=
    match given quality with
    | Some q => streamkey +:+ "_" +:+ q +:+ ".m3u8"
    | None => streamkey +:+ ".m3u8"
    end in
  let m3u8 := path_join fs (hls_dir cfg) filename in
  if negb (isfile fs m3u8) then false
  else
    let delta := time - getmtime fs m3u8 in
    if hls_playlist_length cfg <=? delta then false else true.

Definition fetch_m3u8 (cfg : Config) (fs : Files) (streamkey : string)
    (quality : option string) : option string :=
  let filename :=
    match given quality with
    | Some q => streamkey +:+ "_" +:+ q
    | None => streamkey
    end in
  let m3u8 := path_join fs (hls_dir cfg) filename +:+ ".m3u8" in
  if negb (isfile fs m3u8) then None else Some (read_text fs m3u8).

(** [symlink(oldname, newname)]; an existing link is left alone. *)
Definition symlink (cfg : Config) (fs : Files) (oldname newname : string)
  : FsEffect :=
  Symlink (path_join fs (hls_dir cfg) oldname)
          (path_join fs (hls_dir cfg) newname).

(** The loop over [lines] of the two playlist routes: a line that starts
    with [old_prefix] and ends in [.ts] is linked under its new name and
    replaced by the public path; any line that then still holds the key
    raises.  [skip] is the number of characters cut from the old name. *)
Fixpoint rewrite_lines (cfg : Config) (fs : Files)
    (key old_prefix new_prefix : string) (skip : nat) (lines : list string)
  : list FsEffect * Result (list string) :=
  match lines with
  | [] => ([], Ok [])
  | line :: rest =>
      let '(linked, line) :=
        if PyStr.startswith line old_prefix
           && String.eqb (PyStr.last3 line) ".ts"
        then
          let oldname := line in
          let newname := new_prefix +:+ PyStr.drop skip line in
          ([symlink cfg fs oldname newname], "/hls/" +:+ newname)
        else ([], line) in
      if PyStr.contains line key
      then (linked, Raise (Exception "Possible stream key leak!"))
      else
        let '(later, result) :=
          rewrite_lines cfg fs key old_prefix new_prefix skip rest in
        (linked ++ later,
         match result with
         | Ok lines => Ok (line :: lines)
         | Raise e => Raise e
         end)
  end.

(** [streampass is not None and cookie != streampass] *)
Definition locked_out (streampass cookie : option string) : bool :=
  match streampass with
  | None => false
  | Some p => match cookie with
              | Some c => negb (String.eqb c p)
              | None => true
              end
  end.

(** The common body of [streamplaylist] and [streamplaylistwithquality]
    after the route has lowered [streamer]. *)
Definition serve_playlist (env : Env) (cfg : Config) (fs : Files)
    (request : HttpRequest) (w : World) (streamer : string)
    (quality : option string) (old_prefix : string -> string)
    (new_prefix : string) (skip : string -> nat) : HttpOutcome :=
  match select_streamer env w streamer with
  | [result] =>
      if locked_out (row_streampass result) (cookie_streampass request)
      then mkHttpOutcome (Abort 403) []
      else
        let key := row_key result in
        if negb (stream_live cfg fs (http_now request) key quality)
        then mkHttpOutcome (Abort 404) []
        else
          match fetch_m3u8 cfg fs key quality with
          | None => mkHttpOutcome (Abort 404) []
          | Some m3u8 =>
              let lines := PyStr.splitlines m3u8 in
              match rewrite_lines cfg fs key (old_prefix key) new_prefix
                      (skip key) lines with
              | (linked, Raise e) => mkHttpOutcome (Failed e) linked
              | (linked, Ok lines) =>
                  mkHttpOutcome (Body (PyStr.join_lines lines))
                    (linked ++ [CleanSymlinks])
              end
          end
  | _ => mkHttpOutcome (Abort 404) []
  end.

Definition streamplaylist (env : Env) (cfg : Config) (fs : Files)
    (request : HttpRequest) (w : World) (streamer : string) : HttpOutcome :=
  let streamer := Py.lower streamer in
  serve_playlist env cfg fs request w streamer None
    (fun key => key) streamer (fun key => Py.len key).

Definition streamplaylistwithquality (env : Env) (cfg : Config) (fs : Files)
    (request : HttpRequest) (w : World) (streamer quality : string)
  : HttpOutcome :=
  let streamer := Py.lower streamer in
  serve_playlist env cfg fs request w streamer (Some quality)
    (fun key => key +:+ "_" +:+ quality)
    (streamer +:+ "_" +:+ quality)
    (fun key => (Py.len key + Py.len quality + 1)%nat).

(** [if result['description']] *)
Definition shown_description (env : Env) (d : option string) : string :=
  match d with
  | Some text => if Nat.eqb (Py.len text) 0 then EmptyString
                 else emotes env text
  | None => EmptyString
  end.

Definition streaminfo (env : Env) (cfg : Config) (fs : Files)
    (request : HttpRequest) (w : World) (streamer : string) : HttpOutcome :=
  let streamer := Py.lower streamer in
  match select_streamer env w streamer with
  | [result] =>
      (* Doesn't cost us much, so let's clean up on the fly. *)
      if locked_out (row_streampass result) (cookie_streampass request)
      then mkHttpOutcome (Abort 403) [CleanSymlinks]
      else
        let live := stream_live cfg fs (http_now request) (row_key result)
                      (first_quality cfg) in
        mkHttpOutcome
          (Info live
             (if live then stream_count (http_now request) w streamer
              else 0%nat)
             (shown_description env (row_description result)))
          [CleanSymlinks]
  | _ => mkHttpOutcome (Abort 404) []
  end.

(** A stream on disk for the running example: the playlist of [Bob],
    whose key is [s3cret], written at time 100. *)
Module Disk.

Definition fs : Files :=
  mkFiles (fun dir name => dir +:+ "/" +:+ name)
          (fun path => String.eqb path "/hls/s3cret.m3u8")
          (fun _ => 100)
          (fun _ => "#EXTM3U" +:+ PyStr.newline +:+ "#EXTINF:4.0,"
                    +:+ PyStr.newline +:+ "s3cret-17.ts" +:+ PyStr.newline
                    +:+ "#EXTINF:4.0," +:+ PyStr.newline +:+ "s3cret-18.ts"
                    +:+ PyStr.newline).

Definition cfg : Config := mkConfig "/hls" 30 None.

Definition locked : World :=
  mkWorld [] ∅ [mkStreamerRow "Bob" "s3cret" None (Some "hunter2")].

End Disk.

(** ** The value a hex triplet spells *)

(** The value of one hexadecimal digit, in either case. *)
Definition hex_digit_value (c : ascii) : Z :=
  match Py.digit_value c with
  | Some d => d
  | None => 0
  end.

Fixpoint hex_value_from (acc : Z) (s : string) : Z :=
  match s with
  | EmptyString => acc
  | String c r => hex_value_from (16 * acc + hex_digit_value c) r
  end.

(** The number the hexadecimal digits of [s] spell, the most significant
    digit first. *)
Definition hex_value (s : string) : Z := hex_value_from 0 s.

(** The six digits a triplet stands for: three digits stand for each of
    them written twice, [abc] for [aabbcc]. *)
Definition six_digits (digits : string) : string :=
  if Nat.eqb (Py.len digits) 3 then webcolors.doubled digits else digits.

(** * Properties *)

(** ** Sanity checks of the embedding *)

Example lower_mixed : Py.lower "Bob The 3rd" = "bob the 3rd".
Proof. reflexivity. Qed.

Example strip_both : Py.strip "   /say  hi  " = "/say  hi".
Proof. reflexivity. Qed.

Example strip_blank : Py.strip "   " = "".
Proof. reflexivity. Qed.

Example split_first_space : Py.split_space "/mute a b" = ("/mute", "a b").
Proof. reflexivity. Qed.

Example int16_plain : Py.int16 "ff00aa" = Some 16711850.
Proof. reflexivity. Qed.

Example int16_prefix : Py.int16 "0x1234" = Some 4660.
Proof. reflexivity. Qed.

Example int16_negative : Py.int16 "-00001" = Some (-1).
Proof. reflexivity. Qed.

Example int16_not_hex : Py.int16 "gggggg" = None.
Proof. reflexivity. Qed.

(** [int] skips a tab or a no-break space before and after the number,
    but not the separator 0x1F, which [str.strip] does strip. *)
Example int16_whitespace :
  Py.int16 (String (ascii_of_nat 9) "ff ") = Some 255
  ∧ Py.int16 (String (ascii_of_nat 160) "ff") = Some 255
  ∧ Py.int16 (String (ascii_of_nat 31) "12345") = None
  ∧ Py.int16 ("12345" +:+ String (ascii_of_nat 28) "") = None
  ∧ Py.strip (String (ascii_of_nat 31) "12345") = "12345".
Proof. by vm_compute. Qed.

Example hex_255 : Py.hex 255 = "ff".
Proof. reflexivity. Qed.

Example hex_0 : Py.hex 0 = "0".
Proof. reflexivity. Qed.

Example get_color_red : get_color 0 "red" = Ok (Some 16711680).
Proof. reflexivity. Qed.

Example get_color_short_hex : get_color 0 "#abc" = Ok (Some 11189196).
Proof. reflexivity. Qed.

Example get_color_long_hex : get_color 0 " #ABCDEF " = Ok (Some 11259375).
Proof. reflexivity. Qed.

Example get_color_random : get_color 7 "Random" = Ok (Some 0).
Proof. reflexivity. Qed.

Example get_color_bad_digits : get_color 0 "#gggggg" = Raise ValueError.
Proof. reflexivity. Qed.

Example get_color_separator :
  get_color 0 (String "#" (String (ascii_of_nat 31) "12345"))
  = Raise ValueError.
Proof. by vm_compute. Qed.

Example htmlcolor_blue :
  htmlcolor (mkSocketInfo "s" "ip" "bob" "alice" false false false 255)
  = "#0000ff".
Proof. reflexivity. Qed.

Example htmlcolor_white :
  htmlcolor (mkSocketInfo "s" "ip" "bob" "alice" false false false 16777215)
  = "#ffffff".
Proof. reflexivity. Qed.

(** ** The dictionary operations *)

Section dict_facts.

Implicit Types (d : Dict.t) (k : string) (v : SocketInfo).

Lemma get_elem k v d : Dict.get k d = Some v -> (k, v) ∈ d.
Proof.
  induction d as [|[k' v'] r IH]; simpl; [done|].
  destruct (String.eqb k k') eqn:E.
  - apply String.eqb_eq in E as ->. intros [= ->]. apply elem_of_cons; auto.
  - intros H. apply elem_of_cons. right. auto.
Qed.

Lemma elem_get k v d : NoDup (Dict.keys d) -> (k, v) ∈ d -> Dict.get k d = Some v.
Proof.
  induction d as [|[k' v'] r IH]; simpl; intros Hnd Hin.
  - by apply elem_of_nil in Hin.
  - apply NoDup_cons in Hnd as [Hk Hnd].
    apply elem_of_cons in Hin as [[= -> ->]|Hin].
    + by rewrite String.eqb_refl.
    + destruct (String.eqb k k') eqn:E; [|by apply IH].
      apply String.eqb_eq in E as ->. exfalso. apply Hk.
      apply list_elem_of_fmap. by exists (k', v).
Qed.

Lemma contains_false_keys k d : Dict.contains k d = false -> k ∉ Dict.keys d.
Proof.
  unfold Dict.contains. induction d as [|[k' v'] r IH]; simpl.
  - intros _ H. by apply elem_of_nil in H.
  - destruct (String.eqb k k') eqn:E; [done|].
    intros H Hin. apply elem_of_cons in Hin as [->|Hin].
    + by rewrite String.eqb_refl in E.
    + by apply IH.
Qed.

Lemma set_fresh k v d : Dict.contains k d = false -> Dict.set k v d = d ++ [(k, v)].
Proof.
  unfold Dict.contains. induction d as [|[k' v'] r IH]; simpl; [done|].
  destruct (String.eqb k k') eqn:E; [done|]. intros H. by rewrite IH.
Qed.

Lemma del_sublist k d : sublist (Dict.del k d) d.
Proof.
  induction d as [|[k' v'] r IH]; simpl; [done|].
  destruct (String.eqb k k').
  - by apply sublist_cons.
  - by apply sublist_skip.
Qed.

Lemma keys_update k f d : Dict.keys (Dict.update k f d) = Dict.keys d.
Proof.
  induction d as [|[k' v'] r IH]; simpl; [done|].
  destruct (String.eqb k k'); simpl; by rewrite ?IH.
Qed.

Lemma keys_update_first p f d : Dict.keys (update_first p f d) = Dict.keys d.
Proof.
  induction d as [|[k' v'] r IH]; simpl; [done|].
  destruct (p v'); simpl; by rewrite ?IH.
Qed.

(** An assignment that leaves room and display name alone leaves the
    list of (room, name) keys alone. *)
Lemma names_update k f d :
  (∀ v, streamer (f v) = streamer v ∧ username (f v) = username v) ->
  map room_name (Dict.update k f d) = map room_name d.
Proof.
  intros Hf. induction d as [|[k' v'] r IH]; simpl; [done|].
  destruct (String.eqb k k'); simpl; [|by rewrite IH].
  unfold room_name at 1 3. simpl. by destruct (Hf v') as [-> ->].
Qed.

Lemma names_update_first p f d :
  (∀ v, streamer (f v) = streamer v ∧ username (f v) = username v) ->
  map room_name (update_first p f d) = map room_name d.
Proof.
  intros Hf. induction d as [|[k' v'] r IH]; simpl; [done|].
  destruct (p v'); simpl; [|by rewrite IH].
  unfold room_name at 1 3. simpl. by destruct (Hf v') as [-> ->].
Qed.

Lemma name_taken_again_elem d room name :
  name_taken_again d room name = false ->
  (room, Py.lower name) ∉ map room_name d.
Proof.
  unfold name_taken_again, Dict.values.
  induction d as [|[k' v'] r IH]; simpl; intros H Hin.
  - by apply elem_of_nil in Hin.
  - apply orb_false_iff in H as [Hv Hr].
    apply elem_of_cons in Hin as [Heq|Hin]; [|by apply IH].
    unfold room_name in Heq. simpl in Heq. injection Heq as -> Hn.
    unfold in_room in Hv. rewrite String.eqb_refl, <- Hn, String.eqb_refl in Hv.
    done.
Qed.

Lemma name_taken_elem d room name :
  name_taken d room name = false ->
  (room, Py.lower name) ∉ map room_name d.
Proof.
  unfold name_taken, users_in_room, Dict.values.
  induction d as [|[k' v'] r IH]; simpl; intros H Hin.
  - by apply elem_of_nil in Hin.
  - apply elem_of_cons in Hin as [Heq|Hin].
    + unfold room_name in Heq. simpl in Heq. injection Heq as -> Hn.
      unfold in_room in H. rewrite String.eqb_refl in H. simpl in H.
      rewrite <- Hn, String.eqb_refl in H. done.
    + apply IH; [|done]. destruct (in_room room v'); [|done].
      simpl in H. by apply orb_false_iff in H as [_ ?].
Qed.

End dict_facts.

(** ** Each handler moves the registry by one [registry_step] *)

Create HintDb steps.

Section steps.

Variables (env : Env) (req : Request).

Local Abbreviation info_after o := (socket_to_info (world o)).

Local Hint Constructors registry_step : steps.

Ltac branch :=
  repeat match goal with
         | |- context [match ?x with _ => _ end] => destruct x eqn:?
         end;
  simpl; eauto with steps.

Lemma connect_step ev w :
  registry_step req ev (socket_to_info w) (info_after (connect req w)).
Proof. unfold connect. branch. Qed.

Lemma disconnect_step ev w :
  registry_step req ev (socket_to_info w) (info_after (disconnect req w)).
Proof.
  unfold disconnect. destruct (Dict.get _ _); simpl; eauto with steps.
Qed.

Lemma presence_step ev json w :
  registry_step req ev (socket_to_info w)
    (info_after (handle_presence req json w)).
Proof. unfold handle_presence. branch. Qed.

Lemma login_insert_step ev room name is_admin col w :
  Dict.contains (request_sid req) (socket_to_info w) = false ->
  (is_admin = true -> Py.lower name = room) ->
  registry_step req ev (socket_to_info w)
    (info_after (login_insert req room name is_admin col w)).
Proof.
  intros Hfree Hadm. unfold login_insert.
  destruct (name_taken_again _ _ _) eqn:E; simpl; eauto with steps.
Qed.

Lemma login_step ev json w :
  registry_step req ev (socket_to_info w)
    (info_after (handle_login env req json w)).
Proof.
  unfold handle_login.
  destruct (Dict.contains _ _) eqn:Hfree; [apply step_same|].
  destruct (login_username json) as [u|]; [|apply step_same].
  destruct (login_streamer json) as [s|]; [|apply step_same].
  destruct (Nat.eqb _ 0); [apply step_same|].
  destruct (30 <=? _)%nat; [apply step_same|].
  destruct (name_taken _ _ _); [apply step_same|].
  destruct (login_color json) as [c|]; [|apply step_same].
  destruct (get_color _ _) as [resolved|]; [|apply step_same].
  destruct (select_streamer _ _ _) as [|result [|]]; try apply step_same.
  destruct (String.eqb (Py.lower u) _) eqn:Hname.
  - destruct (login_key json) as [key|]; [|apply step_same].
    destruct (negb _); [apply step_same|].
    apply (login_insert_step ev _ _ _ _ (touch req (Py.lower s) w)); [done|].
    intros _. by apply String.eqb_eq.
  - apply (login_insert_step ev _ _ _ _ (touch req (Py.lower s) w)); done.
Qed.

Lemma moderate_muted_step ev me message b did already notice w :
  registry_step req ev (socket_to_info w)
    (info_after (moderate req me message muted with_muted b
                   did already notice w)).
Proof. unfold moderate. branch. Qed.

Lemma moderate_moderator_step ev me message b did already notice w :
  registry_step req ev (socket_to_info w)
    (info_after (moderate req me message moderator with_moderator b
                   did already notice w)).
Proof. unfold moderate. branch. Qed.

Lemma update_streamer_info w w' name f :
  update_streamer env w name f = Ok w' -> socket_to_info w' = socket_to_info w.
Proof.
  unfold update_streamer. destruct (read_only env); [done|]. by intros [= <-].
Qed.

Lemma run_command_step text me command message w :
  Dict.get (request_sid req) (socket_to_info w) = Some me ->
  command_in command ["/name"; "/nick"] = is_rename text ->
  registry_step req (EvMessage (Some text)) (socket_to_info w)
    (info_after (run_command env req me command message w)).
Proof.
  intros Hme Hcmd. unfold run_command.
  destruct (command_in command ["/say"]);
    [unfold cmd_say; branch|].
  destruct (command_in command ["/me"; "/action"; "/describe"]);
    [unfold cmd_me; branch|].
  destruct (command_in command ["/color"; "/setcolor"]);
    [unfold cmd_color; branch|].
  destruct (command_in command ["/name"; "/nick"]).
  { unfold cmd_name.
    destruct (muted me); [apply step_same|].
    destruct (30 <=? _)%nat; [apply step_same|].
    destruct (name_taken _ _ _) eqn:Hfree; [apply step_same|].
    destruct (Nat.eqb _ 0); [apply step_same|].
    simpl. by eapply step_rename. }
  destruct (command_in command ["/help"]); [apply step_same|].
  destruct (command_in command ["/users"]); [apply step_same|].
  destruct (command_in command ["/settings"]);
    [unfold cmd_settings; branch|].
  destruct (command_in command ["/mute"; "/quiet"]).
  { unfold cmd_mute. destruct (negb _); [apply step_same|].
    apply moderate_muted_step. }
  destruct (command_in command ["/unmute"; "/unquiet"]).
  { unfold cmd_unmute. destruct (negb _); [apply step_same|].
    apply moderate_muted_step. }
  destruct (command_in command ["/mod"]).
  { unfold cmd_mod. destruct (negb _); [apply step_same|].
    apply moderate_moderator_step. }
  destruct (command_in command ["/demod"; "/unmod"]).
  { unfold cmd_demod. destruct (negb _); [apply step_same|].
    apply moderate_moderator_step. }
  destruct (command_in command ["/desc"; "/description"]).
  { unfold cmd_desc. destruct (negb _); [apply step_same|].
    destruct (update_streamer _ _ _ _) eqn:E; simpl; [|apply step_same].
    rewrite (update_streamer_info _ _ _ _ E). apply step_same. }
  destruct (command_in command ["/password"]); [|apply step_same].
  unfold cmd_password. destruct (negb (admin me)); [apply step_same|].
  destruct (negb _);
    destruct (update_streamer _ _ _ _) eqn:E; simpl; try apply step_same;
    rewrite (update_streamer_info _ _ _ _ E); apply step_same.
Qed.

Lemma message_step json w :
  registry_step req (EvMessage json) (socket_to_info w)
    (info_after (handle_message env req json w)).
Proof.
  unfold handle_message.
  destruct json as [text|]; [|apply step_same].
  destruct (Nat.eqb _ 0); [apply step_same|].
  destruct (Dict.get _ _) as [me|] eqn:Hme; [|apply step_same].
  destruct (Py.strip text) as [|first rest] eqn:Hstrip; [apply step_same|].
  destruct (Ascii.eqb first "/").
  - destruct (split_command _) as [command message] eqn:Hsplit.
    apply (run_command_step text me command message
             (touch req (streamer me) w)); [done|].
    unfold is_rename. by rewrite Hstrip, Hsplit.
  - unfold cmd_say. destruct (muted me); apply step_same.
Qed.

Lemma return_color_step ev w :
  registry_step req ev (socket_to_info w) (info_after (return_color req w)).
Proof. unfold return_color. branch. Qed.

Lemma drawing_step ev json w :
  registry_step req ev (socket_to_info w)
    (info_after (handle_drawing req json w)).
Proof. unfold handle_drawing. branch. Qed.

Lemma handle_step ev w :
  registry_step req ev (socket_to_info w) (info_after (handle env req ev w)).
Proof.
  destruct ev; simpl;
    auto using connect_step, disconnect_step, presence_step, login_step,
      message_step, return_color_step, drawing_step.
Qed.

End steps.

(** ** The uniqueness invariant *)

Section uniqueness.

Implicit Types (d : Dict.t) (k : string) (v : SocketInfo).

Lemma update_names_elem k f d x :
  x ∈ map room_name (Dict.update k f d) ->
  x ∈ map room_name d
  ∨ ∃ v, Dict.get k d = Some v ∧ x = room_name (k, f v).
Proof.
  induction d as [|[k' v'] r IH]; simpl; [auto|].
  destruct (String.eqb k k') eqn:E; simpl.
  - apply String.eqb_eq in E as ->.
    intros [->|H]%elem_of_cons.
    + right. by exists v'.
    + left. apply elem_of_cons. auto.
  - intros [->|H]%elem_of_cons.
    + left. apply elem_of_cons. auto.
    + destruct (IH H) as [?|?]; [left; apply elem_of_cons|]; auto.
Qed.

Lemma rename_names_nodup k me name d :
  Dict.get k d = Some me ->
  (streamer me, Py.lower name) ∉ map room_name d ->
  NoDup (map room_name d) ->
  NoDup (map room_name (Dict.update k (with_username name) d)).
Proof.
  induction d as [|[k' v'] r IH]; simpl; [done|].
  intros Hget Hfree [Hhd Hnd]%NoDup_cons.
  apply not_elem_of_cons in Hfree as [Hne Hfree].
  destruct (String.eqb k k') eqn:E; simpl.
  - injection Hget as ->. apply NoDup_cons. split; [|done].
    by unfold room_name.
  - apply NoDup_cons. split; [|by apply IH].
    intros [Hin|(v & Hv & Heq)]%update_names_elem; [done|].
    rewrite Hv in Hget. injection Hget as ->. apply Hne.
    by rewrite Heq.
Qed.

Lemma registry_step_ok req ev d d' :
  registry_step req ev d d' -> registry_ok d -> registry_ok d'.
Proof.
  intros Hstep [Hkeys Hnames].
  destruct Hstep as [| |room name is_admin col Hfree Hname _|col
                    |me name text Hme Hname _ _|p b|p b].
  - done.
  - split.
    + eapply sublist_NoDup; [exact Hkeys|].
      apply (fmap_sublist fst), del_sublist.
    + eapply sublist_NoDup; [exact Hnames|].
      apply (fmap_sublist room_name), del_sublist.
  - rewrite (set_fresh _ _ _ Hfree). unfold registry_ok, Dict.keys.
    rewrite !map_app. simpl. split; apply NoDup_app.
    + split; [done|]. split; [|apply NoDup_singleton].
      intros x Hx ->%list_elem_of_singleton.
      by apply (contains_false_keys _ _ Hfree).
    + split; [done|]. split; [|apply NoDup_singleton].
      intros x Hx ->%list_elem_of_singleton.
      by apply (name_taken_again_elem _ _ _ Hname).
  - split; [by rewrite keys_update|]. by rewrite names_update.
  - split; [by rewrite keys_update|].
    eapply rename_names_nodup; eauto using name_taken_elem.
  - split; [by rewrite keys_update_first|]. by rewrite names_update_first.
  - split; [by rewrite keys_update_first|]. by rewrite names_update_first.
Qed.

Lemma handle_ok env req ev w :
  registry_ok (socket_to_info w) ->
  registry_ok (socket_to_info (world (handle env req ev w))).
Proof. apply registry_step_ok with req ev, handle_step. Qed.

Lemma reachable_by_ok allowed env w :
  reachable_by allowed env w -> registry_ok (socket_to_info w).
Proof.
  induction 1 as [t|w req ev _ IH _|w t _ IH]; simpl.
  - split; apply NoDup_nil_2.
  - by apply handle_ok.
  - exact IH.
Qed.

Lemma nodup_map_inj {A B} (f : A -> B) (l : list A) x y :
  NoDup (map f l) -> x ∈ l -> y ∈ l -> f x = f y -> x = y.
Proof.
  induction l as [|a l IH]; simpl.
  - intros _ H. by apply elem_of_nil in H.
  - intros [Ha Hl]%NoDup_cons [->|Hx]%elem_of_cons [->|Hy]%elem_of_cons Hf;
      [done| | |by apply IH].
    + exfalso. apply Ha. rewrite Hf. by apply (list_elem_of_fmap_2 f).
    + exfalso. apply Ha. rewrite <- Hf. by apply (list_elem_of_fmap_2 f).
Qed.

End uniqueness.

(** C3. In every reachable world the registry holds one session per
    connection id, and two sessions of distinct connections in the same
    room never have display names that are equal after case
    normalisation.  Login's insert and the rename command are among the
    events of [reachable]. *)
Theorem C3_names_unique_in_room env w :
  reachable env w ->
  NoDup (Dict.keys (socket_to_info w))
  ∧ ∀ sid1 sid2 i1 i2,
      (sid1, i1) ∈ socket_to_info w -> (sid2, i2) ∈ socket_to_info w ->
      sid1 ≠ sid2 -> streamer i1 = streamer i2 ->
      Py.lower (username i1) ≠ Py.lower (username i2).
Proof.
  intros [Hkeys Hnames]%reachable_by_ok. split; [done|].
  intros sid1 sid2 i1 i2 H1 H2 Hne Hroom Hname.
  apply Hne.
  assert ((sid1, i1) = (sid2, i2)) as [= -> _]; [|done].
  apply (nodup_map_inj room_name (socket_to_info w)); [done..|].
  unfold room_name. simpl. by rewrite Hroom, Hname.
Qed.

Lemma scenario_bob_in_reachable : reachable Scenario.env Scenario.bob_in.
Proof.
  unfold Scenario.bob_in, Scenario.alice_in.
  repeat (apply reach_event; [|exact I]). apply reach_start.
Qed.

Lemma C3_names_unique_in_room_witness :
  Dict.keys (socket_to_info Scenario.bob_in) = ["A"; "B"]
  ∧ NoDup (Dict.keys (socket_to_info Scenario.bob_in))
  ∧ Py.lower "alice" ≠ Py.lower "BOB".
Proof.
  destruct (C3_names_unique_in_room Scenario.env Scenario.bob_in
              scenario_bob_in_reachable) as [Hkeys Hnames].
  split; [reflexivity|]. split; [exact Hkeys|].
  apply (Hnames "A" "B"
           (mkSocketInfo "A" "203.0.113.7" "bob" "alice" false false false 255)
           (mkSocketInfo "B" "203.0.113.7" "bob" "BOB" true false false
              0xFF0000));
    [by apply get_elem|by apply get_elem|discriminate|reflexivity].
Defined.

(** ** The admin flag and the display name *)

Section admin_flag.

Implicit Types (d : Dict.t) (k : string) (v : SocketInfo).

Lemma update_elem k f d x i :
  (x, i) ∈ Dict.update k f d ->
  (x, i) ∈ d ∨ ∃ v, Dict.get k d = Some v ∧ i = f v.
Proof.
  induction d as [|[k' v'] r IH]; simpl; [auto|].
  destruct (String.eqb k k') eqn:E; simpl.
  - intros [[= -> ->]|H]%elem_of_cons.
    + right. by exists v'.
    + left. apply elem_of_cons. auto.
  - intros [[= -> ->]|H]%elem_of_cons.
    + left. apply elem_of_cons. auto.
    + destruct (IH H) as [?|?]; [left; apply elem_of_cons|]; auto.
Qed.

Lemma update_first_elem p f d x i :
  (x, i) ∈ update_first p f d -> (x, i) ∈ d ∨ ∃ v, (x, v) ∈ d ∧ i = f v.
Proof.
  induction d as [|[k' v'] r IH]; simpl; [auto|].
  destruct (p v') eqn:E; simpl.
  - intros [[= -> ->]|H]%elem_of_cons.
    + right. exists v'. split; [apply elem_of_cons|]; auto.
    + left. apply elem_of_cons. auto.
  - intros [[= -> ->]|H]%elem_of_cons.
    + left. apply elem_of_cons. auto.
    + destruct (IH H) as [?|(v & ? & ?)].
      * left. apply elem_of_cons. auto.
      * right. exists v. split; [apply elem_of_cons|]; auto.
Qed.

Lemma registry_step_admin req ev d d' :
  registry_step req ev d d' -> ¬ admin_rename req ev d ->
  admin_named d -> admin_named d'.
Proof.
  intros Hstep Hplain Hd.
  destruct Hstep as [| |room name is_admin col Hfree _ Hadm|col
                    |me name text Hme _ Hev Hren|p b|p b];
    intros k i Hin Hi.
  - by apply (Hd k).
  - apply (Hd k); [|done].
    eapply elem_of_sublist; [exact Hin|apply del_sublist].
  - rewrite (set_fresh _ _ _ Hfree) in Hin.
    apply elem_of_app in Hin as [Hin|[= -> ->]%list_elem_of_singleton].
    + by apply (Hd k).
    + simpl in *. auto.
  - apply update_elem in Hin as [Hin|(v & Hv & ->)]; [by apply (Hd k)|].
    apply get_elem in Hv. simpl in *. by apply (Hd (request_sid req) v).
  - apply update_elem in Hin as [Hin|(v & Hv & ->)]; [by apply (Hd k)|].
    exfalso. apply Hplain. exists text, me.
    rewrite Hv in Hme. injection Hme as <-. done.
  - apply update_first_elem in Hin as [Hin|(v & Hv & ->)];
      [by apply (Hd k)|]. simpl in *. by apply (Hd k v).
  - apply update_first_elem in Hin as [Hin|(v & Hv & ->)];
      [by apply (Hd k)|]. simpl in *. by apply (Hd k v).
Qed.

End admin_flag.

(** C1, as the code has it.  In every world reached through events none
    of which is a [/name] or [/nick] command sent by an admin session,
    a session whose admin flag is true has a display name equal to its
    room name up to case.  (Login compares the lowered claimed name with
    the room and stores the claimed spelling; no handler clears or checks
    the flag afterwards.) *)
Theorem C1_admin_named_until_renamed env w :
  reachable_by
    (fun req ev w => ¬ admin_rename req ev (socket_to_info w)) env w ->
  ∀ k i, (k, i) ∈ socket_to_info w -> admin i = true ->
         Py.lower (username i) = streamer i.
Proof.
  induction 1 as [t|w req ev _ IH Hplain|w t _ IH]; simpl.
  - intros k i Hin. by apply elem_of_nil in Hin.
  - eapply registry_step_admin; [apply handle_step|exact Hplain|exact IH].
  - exact IH.
Qed.

Lemma C1_admin_named_until_renamed_witness :
  Dict.get "B" (socket_to_info Scenario.bob_in)
  = Some (mkSocketInfo "B" "203.0.113.7" "bob" "BOB" true false false 0xFF0000)
  ∧ Py.lower "BOB" = "bob".
Proof.
  split; [reflexivity|].
  apply (C1_admin_named_until_renamed Scenario.env Scenario.bob_in) with
    (k := "B")
    (i := mkSocketInfo "B" "203.0.113.7" "bob" "BOB" true false false 0xFF0000);
    [|by apply get_elem|reflexivity].
  unfold Scenario.bob_in, Scenario.alice_in.
  repeat (apply reach_event;
          [|intros (text & me & Hev & _); discriminate Hev]).
  apply reach_start.
Defined.

(** C1, as stated, fails: after the streamer of the running example has
    logged in with the right key and sent [/name zed], the world is
    reachable and holds an admin session whose display name is not the
    room name, with or without regard to case. *)
Lemma C1_admin_rename_breaks_invariant :
  reachable Scenario.env Scenario.bob_renamed
  ∧ ∃ i, Dict.get "B" (socket_to_info Scenario.bob_renamed) = Some i
         ∧ admin i = true
         ∧ username i = "zed" ∧ streamer i = "bob"
         ∧ username i ≠ streamer i
         ∧ Py.lower (username i) ≠ Py.lower (streamer i).
Proof.
  split.
  - unfold Scenario.bob_renamed, Scenario.bob_in, Scenario.alice_in.
    repeat (apply reach_event; [|exact I]). apply reach_start.
  - eexists. split; [vm_compute; reflexivity|]. by vm_compute.
Qed.

(** ** The viewer count *)

Section viewers.

Lemma count_values_size (P : PresenceInfo -> Prop) `{∀ x, Decision (P x)}
    (m : gmap string PresenceInfo) :
  length (filter P (map snd (map_to_list m)))
  = size (filter (fun entry => P (snd entry)) m).
Proof.
  induction m as [|i x m Hi IH] using map_ind.
  - by rewrite map_to_list_empty, map_filter_empty, map_size_empty.
  - pose proof (map_to_list_insert m i x Hi) as Hperm.
    apply (Permutation_map snd), (filter_Permutation P),
      Permutation_length in Hperm.
    rewrite Hperm. simpl. destruct (decide (P x)) as [Hx|Hx].
    + rewrite filter_cons_True by done.
      rewrite map_filter_insert_True by done.
      rewrite map_size_insert_None; [simpl; by rewrite IH|].
      apply map_lookup_filter_None. left. done.
    + rewrite filter_cons_False by done.
      rewrite map_filter_insert_not'; [done|done|].
      intros y Hy. by rewrite Hi in Hy.
Qed.

Lemma live_ids_spec time w room k :
  k ∈ live_ids time w room
  ↔ ∃ x, socket_to_presence w !! k = Some x
         ∧ presence_streamer x = room ∧ time - 30 <= timestamp x.
Proof.
  unfold live_ids. rewrite elem_of_dom. split.
  - intros [x Hx]. apply map_lookup_filter_Some in Hx as [Hx Hp].
    by exists x.
  - intros (x & Hx & Hp). exists x. by apply map_lookup_filter_Some.
Qed.

End viewers.

(** C8. [stream_count] is the number of distinct connection ids that hold
    a presence record for the room stamped no earlier than thirty seconds
    before the observation.  It does not look at the session registry, and
    a presence ping handled at time 0 makes its connection one of the
    counted ids at time 29 and not at time 31. *)
Theorem C8_stream_count_live_ids time w room :
  stream_count time w room = size (live_ids time w room)
  ∧ (∀ k, k ∈ live_ids time w room
          ↔ ∃ x, socket_to_presence w !! k = Some x
                 ∧ presence_streamer x = room ∧ time - 30 <= timestamp x)
  ∧ (∀ d, stream_count time (set_info d w) room = stream_count time w room)
  ∧ (∀ who addr rnd json_room,
       let pinged :=
         world (handle_presence (mkRequest who addr 0 rnd) (Some json_room) w)
       in who ∈ live_ids 29 pinged (Py.lower json_room)
          ∧ who ∉ live_ids 31 pinged (Py.lower json_room)).
Proof.
  split; [|split; [|split]].
  - unfold stream_count, live_ids. rewrite size_dom. cbv zeta.
    by rewrite count_values_size.
  - apply live_ids_spec.
  - done.
  - intros who addr rnd json_room. simpl. rewrite !live_ids_spec. simpl.
    rewrite lookup_insert_eq. split.
    + eexists. split; [done|]. simpl. split; [done|lia].
    + intros (x & [= <-] & _ & Hle). simpl in Hle. lia.
Qed.

Example stream_count_window :
  let ping := world (handle_presence (Scenario.at_time "V" 0) (Some "Bob")
                       Scenario.start) in
  socket_to_info ping = []
  ∧ stream_count 29 ping "bob" = 1%nat
  ∧ stream_count 30 ping "bob" = 1%nat
  ∧ stream_count 31 ping "bob" = 0%nat.
Proof. by vm_compute. Qed.

(** ** Colour resolution *)

Lemma normalize_hex_needs_hash c0 rest :
  Ascii.eqb c0 "#" = false -> webcolors.normalize_hex (String c0 rest) = None.
Proof. by destruct c0 as [[] [] [] [] [] [] [] []]. Qed.

(** A text that is neither [random] nor a CSS3 colour name and does not
    start with [#] never resolves, whatever its digits. *)
Lemma get_color_needs_hash rand text :
  Py.lower (Py.strip text) ≠ "random" ->
  webcolors.name_to_hex (Py.lower (Py.strip text)) = None ->
  (∀ rest, Py.lower (Py.strip text) ≠ String "#" rest) ->
  get_color rand text = Ok None.
Proof.
  intros Hrandom Hname Hhash. unfold get_color.
  destruct (String.eqb _ "random") eqn:E;
    [by apply String.eqb_eq in E|clear E].
  rewrite Hname.
  destruct (Py.lower (Py.strip text)) as [|c0 rest] eqn:Hc; [done|].
  destruct (Ascii.eqb c0 "#") eqn:E.
  - apply Ascii.eqb_eq in E as ->. by destruct (Hhash rest).
  - rewrite (normalize_hex_needs_hash _ _ E), E.
    by rewrite orb_true_r.
Qed.

(** *** Hex triplets in general *)

Section hex_triplets.

Ltac each_char x := destruct x as [[] [] [] [] [] [] [] []].

Lemma hex_char_facts x :
  webcolors.is_hex_digit x = true ->
  Py.isspace x = false
  ∧ webcolors.is_hex_digit (Py.lower_char x) = true
  ∧ Py.lower_char (Py.lower_char x) = Py.lower_char x
  ∧ hex_digit_value (Py.lower_char x) = hex_digit_value x
  ∧ Ascii.eqb (Py.lower_char x) "#" = false
  ∧ Ascii.eqb (Py.lower_char x) "r" = false
  ∧ 0 <= hex_digit_value x < 16.
Proof.
  intros H. each_char x; vm_compute in H; try discriminate H;
    by vm_compute.
Qed.

Lemma int16_digits_hex_char x r acc prev_us seen :
  webcolors.is_hex_digit x = true ->
  Py.int16_digits (String x r) acc prev_us seen
  = Py.int16_digits r (16 * acc + hex_digit_value x) false true.
Proof.
  intros H. each_char x; vm_compute in H; try discriminate H; reflexivity.
Qed.

(** Two hexadecimal digits at the head: no whitespace, no sign, and no
    [0x] prefix, since [x] is no hexadecimal digit. *)
Lemma int16_hex_chars x y r :
  webcolors.is_hex_digit x = true -> webcolors.is_hex_digit y = true ->
  Py.int16 (String x (String y r))
  = Py.int16_digits (String x (String y r)) 0 false false.
Proof.
  intros Hx Hy. each_char x; vm_compute in Hx; try discriminate Hx;
    try reflexivity.
  each_char y; vm_compute in Hy; try discriminate Hy; reflexivity.
Qed.

(** [int(_, 16)] on six hexadecimal digits: the 24-bit value they
    spell. *)
Lemma int16_six x1 x2 x3 x4 x5 x6 :
  webcolors.is_hex_digit x1 = true -> webcolors.is_hex_digit x2 = true ->
  webcolors.is_hex_digit x3 = true -> webcolors.is_hex_digit x4 = true ->
  webcolors.is_hex_digit x5 = true -> webcolors.is_hex_digit x6 = true ->
  let digits := String x1 (String x2 (String x3 (String x4 (String x5
                  (String x6 ""))))) in
  Py.int16 digits = Some (hex_value digits)
  ∧ 0 <= hex_value digits <= 0xFFFFFF.
Proof.
  intros H1 H2 H3 H4 H5 H6. cbv zeta. split.
  - rewrite int16_hex_chars by done.
    by rewrite !int16_digits_hex_char by done.
  - unfold hex_value. cbn [hex_value_from].
    destruct (hex_char_facts x1 H1) as (_ & _ & _ & _ & _ & _ & ?).
    destruct (hex_char_facts x2 H2) as (_ & _ & _ & _ & _ & _ & ?).
    destruct (hex_char_facts x3 H3) as (_ & _ & _ & _ & _ & _ & ?).
    destruct (hex_char_facts x4 H4) as (_ & _ & _ & _ & _ & _ & ?).
    destruct (hex_char_facts x5 H5) as (_ & _ & _ & _ & _ & _ & ?).
    destruct (hex_char_facts x6 H6) as (_ & _ & _ & _ & _ & _ & ?).
    lia.
Qed.

(** What [get_color] does with a text in its normal form, [#] and six
    hexadecimal digits. *)
Lemma resolve_six x1 x2 x3 x4 x5 x6 :
  webcolors.is_hex_digit x1 = true -> webcolors.is_hex_digit x2 = true ->
  webcolors.is_hex_digit x3 = true -> webcolors.is_hex_digit x4 = true ->
  webcolors.is_hex_digit x5 = true -> webcolors.is_hex_digit x6 = true ->
  let digits := String x1 (String x2 (String x3 (String x4 (String x5
                  (String x6 ""))))) in
  (if negb (Nat.eqb (Py.len (String "#" digits)) 7)
      || negb (Ascii.eqb "#" "#")
   then Ok None
   else match Py.int16 digits with
        | None => Raise ValueError
        | Some intval =>
            if (intval <? 0) || (16777215 <? intval) then Ok None
            else Ok (Some intval)
        end)
  = Ok (Some (hex_value digits)).
Proof.
  intros H1 H2 H3 H4 H5 H6 digits.
  destruct (int16_six x1 x2 x3 x4 x5 x6 H1 H2 H3 H4 H5 H6) as [Hint Hrange].
  fold digits in Hint, Hrange. rewrite Hint.
  change (Nat.eqb (Py.len (String "#" digits)) 7) with true.
  change (Ascii.eqb "#" "#") with true. cbn [negb orb].
  destruct (hex_value digits <? 0) eqn:E1; [apply Z.ltb_lt in E1; lia|].
  destruct (16777215 <? hex_value digits) eqn:E2;
    [apply Z.ltb_lt in E2; lia|].
  done.
Qed.

(** No name of the CSS3 table is made of hexadecimal digits only. *)
Lemma assoc_all_hex k l :
  forallb (fun entry => negb (webcolors.all_hex (fst entry))) l = true ->
  webcolors.all_hex k = true ->
  webcolors.assoc k l = None.
Proof.
  induction l as [|[k' v] l IH]; intros Hl Hk; [done|].
  simpl in Hl. apply andb_true_iff in Hl as [Hk' Hl]. simpl.
  destruct (String.eqb k k') eqn:E; [|by apply IH].
  apply String.eqb_eq in E as <-. by rewrite Hk in Hk'.
Qed.

Lemma no_hex_names k :
  webcolors.all_hex k = true ->
  webcolors.assoc k webcolors.CSS3_NAMES_TO_HEX = None.
Proof. apply assoc_all_hex. by vm_compute. Qed.

(** [#] and six hexadecimal digits, in either case. *)
Lemma get_color_hash_six rand a b c d e f :
  webcolors.is_hex_digit a = true -> webcolors.is_hex_digit b = true ->
  webcolors.is_hex_digit c = true -> webcolors.is_hex_digit d = true ->
  webcolors.is_hex_digit e = true -> webcolors.is_hex_digit f = true ->
  let digits := String a (String b (String c (String d (String e
                  (String f ""))))) in
  get_color rand (String "#" digits) = Ok (Some (hex_value digits)).
Proof.
  intros Ha Hb Hc Hd He Hf digits.
  destruct (hex_char_facts a Ha) as (Sa & Xa & La & Va & _).
  destruct (hex_char_facts b Hb) as (Sb & Xb & Lb & Vb & _).
  destruct (hex_char_facts c Hc) as (Sc & Xc & Lc & Vc & _).
  destruct (hex_char_facts d Hd) as (Sd & Xd & Ld & Vd & _).
  destruct (hex_char_facts e He) as (Se & Xe & Le & Ve & _).
  destruct (hex_char_facts f Hf) as (Sf & Xf & Lf & Vf & _).
  set (lowered := String (Py.lower_char a) (String (Py.lower_char b)
                    (String (Py.lower_char c) (String (Py.lower_char d)
                    (String (Py.lower_char e)
                    (String (Py.lower_char f) "")))))).
  assert (Py.lower (Py.strip (String "#" digits)) = String "#" lowered)
    as Hread.
  { unfold Py.strip, Py.rstrip, digits. cbn [Py.lstrip].
    change (Py.isspace "#") with false. cbv iota.
    cbn [Py.rev Py.rev_onto Py.lstrip]. rewrite Sf. cbv iota.
    reflexivity. }
  assert (Py.lower lowered = lowered) as Hlower.
  { unfold lowered. cbn [Py.lower]. by rewrite La, Lb, Lc, Ld, Le, Lf. }
  assert (webcolors.normalize_hex (String "#" lowered)
          = Some (String "#" lowered)) as Hnorm.
  { unfold webcolors.normalize_hex.
    assert (webcolors.all_hex lowered = true) as ->.
    { unfold lowered. cbn [webcolors.all_hex].
      by rewrite Xa, Xb, Xc, Xd, Xe, Xf. }
    change (Nat.eqb (Py.len lowered) 3) with false.
    change (Nat.eqb (Py.len lowered) 6) with true. cbv iota.
    by rewrite Hlower. }
  assert (hex_value lowered = hex_value digits) as Hvalue.
  { unfold hex_value, lowered, digits. cbn [hex_value_from].
    by rewrite Va, Vb, Vc, Vd, Ve, Vf. }
  unfold get_color. rewrite Hread.
  change (String.eqb (String "#" lowered) "random") with false. cbv iota.
  unfold webcolors.name_to_hex.
  change (Py.lower (String "#" lowered)) with (String "#" (Py.lower lowered)).
  rewrite Hlower.
  change (webcolors.assoc (String "#" lowered) webcolors.CSS3_NAMES_TO_HEX)
    with (@None string).
  cbv iota. rewrite Hnorm, <- Hvalue. by apply resolve_six.
Qed.

(** [#] and three hexadecimal digits: each digit counts twice. *)
Lemma get_color_hash_three rand a b c :
  webcolors.is_hex_digit a = true -> webcolors.is_hex_digit b = true ->
  webcolors.is_hex_digit c = true ->
  let digits := String a (String b (String c "")) in
  get_color rand (String "#" digits)
  = Ok (Some (hex_value (webcolors.doubled digits))).
Proof.
  intros Ha Hb Hc digits.
  destruct (hex_char_facts a Ha) as (Sa & Xa & La & Va & _).
  destruct (hex_char_facts b Hb) as (Sb & Xb & Lb & Vb & _).
  destruct (hex_char_facts c Hc) as (Sc & Xc & Lc & Vc & _).
  set (lowered := String (Py.lower_char a) (String (Py.lower_char b)
                    (String (Py.lower_char c) ""))).
  assert (Py.lower (Py.strip (String "#" digits)) = String "#" lowered)
    as Hread.
  { unfold Py.strip, Py.rstrip, digits. cbn [Py.lstrip].
    change (Py.isspace "#") with false. cbv iota.
    cbn [Py.rev Py.rev_onto Py.lstrip]. rewrite Sc. cbv iota.
    reflexivity. }
  assert (Py.lower lowered = lowered) as Hlower.
  { unfold lowered. cbn [Py.lower]. by rewrite La, Lb, Lc. }
  assert (webcolors.normalize_hex (String "#" lowered)
          = Some (String "#" (webcolors.doubled lowered))) as Hnorm.
  { unfold webcolors.normalize_hex.
    assert (webcolors.all_hex lowered = true) as ->.
    { unfold lowered. cbn [webcolors.all_hex]. by rewrite Xa, Xb, Xc. }
    change (Nat.eqb (Py.len lowered) 3) with true. cbv iota.
    unfold lowered. cbn [webcolors.doubled Py.lower].
    by rewrite La, Lb, Lc. }
  assert (hex_value (webcolors.doubled lowered)
          = hex_value (webcolors.doubled digits)) as Hvalue.
  { unfold hex_value, lowered, digits.
    cbn [webcolors.doubled hex_value_from]. by rewrite Va, Vb, Vc. }
  unfold get_color. rewrite Hread.
  change (String.eqb (String "#" lowered) "random") with false. cbv iota.
  unfold webcolors.name_to_hex.
  change (Py.lower (String "#" lowered)) with (String "#" (Py.lower lowered)).
  rewrite Hlower.
  change (webcolors.assoc (String "#" lowered) webcolors.CSS3_NAMES_TO_HEX)
    with (@None string).
  cbv iota. rewrite Hnorm, <- Hvalue. by apply resolve_six.
Qed.

Lemma lower_all_hex s :
  webcolors.all_hex s = true ->
  webcolors.all_hex (Py.lower s) = true
  ∧ Py.lower (Py.lower s) = Py.lower s.
Proof.
  induction s as [|x s IH]; [done|]. simpl.
  intros [Hx Hs]%andb_true_iff.
  destruct (hex_char_facts x Hx) as (_ & -> & -> & _).
  destruct (IH Hs) as [-> ->]. done.
Qed.

(** Hexadecimal digits without the [#] are read as a colour name, and no
    colour name is made of them. *)
Lemma get_color_bare_hex rand x rest :
  webcolors.all_hex (String x rest) = true ->
  Py.strip (String x rest) = String x rest ->
  get_color rand (String x rest) = Ok None.
Proof.
  intros Hhex Hstrip.
  destruct (lower_all_hex _ Hhex) as [Hall Hlower].
  pose proof Hhex as [Hx _]%andb_true_iff.
  destruct (hex_char_facts x Hx) as (_ & _ & _ & _ & Hhash & Hr & _).
  apply get_color_needs_hash; rewrite Hstrip.
  - cbn [Py.lower]. intros [= E _]. by rewrite E in Hr.
  - unfold webcolors.name_to_hex. rewrite Hlower. by apply no_hex_names.
  - cbn [Py.lower]. intros rest' [= E _]. by rewrite E in Hhash.
Qed.

(** A text of three or six hexadecimal digits, cut into its digits. *)
Lemma triplet_digits digits :
  webcolors.all_hex digits = true ->
  Py.len digits = 3%nat ∨ Py.len digits = 6%nat ->
  (∃ a b c,
     digits = String a (String b (String c ""))
     ∧ webcolors.is_hex_digit a = true ∧ webcolors.is_hex_digit b = true
     ∧ webcolors.is_hex_digit c = true)
  ∨ (∃ a b c d e f,
       digits = String a (String b (String c (String d (String e
                  (String f "")))))
       ∧ webcolors.is_hex_digit a = true ∧ webcolors.is_hex_digit b = true
       ∧ webcolors.is_hex_digit c = true ∧ webcolors.is_hex_digit d = true
       ∧ webcolors.is_hex_digit e = true ∧ webcolors.is_hex_digit f = true).
Proof.
  intros Hhex [Hlen|Hlen].
  - left.
    destruct digits as [|a [|b [|c [|]]]]; try discriminate Hlen.
    simpl in Hhex. rewrite !andb_true_iff in Hhex.
    destruct Hhex as (Ha & Hb & Hc & _). by exists a, b, c.
  - right.
    destruct digits as [|a [|b [|c [|d [|e [|f [|]]]]]]];
      try discriminate Hlen.
    simpl in Hhex. rewrite !andb_true_iff in Hhex.
    destruct Hhex as (Ha & Hb & Hc & Hd & He & Hf & _).
    by exists a, b, c, d, e, f.
Qed.

End hex_triplets.

(** C7, as the code has it.  A hex triplet is accepted only with its
    leading [#]: for every text [digits] of three or six hexadecimal
    digits, in either case, [#digits] resolves to the 24-bit value that
    its six digits spell, three digits standing for each of them written
    twice, and [digits] alone is rejected.  So [red] resolves to
    0xFF0000, [#abc] to 0xAABBCC and [#abcdef] to 0xABCDEF, while
    [abcdef], [abc] and [not-a-color] are rejected.  More generally a text
    that, stripped and lowered, is not [random], is no CSS3 colour name
    and does not start with [#] is rejected. *)
Theorem C7_color_resolution rand digits :
  webcolors.all_hex digits = true ->
  Py.len digits = 3%nat ∨ Py.len digits = 6%nat ->
  get_color rand (String "#" digits) = Ok (Some (hex_value (six_digits digits)))
  ∧ 0 <= hex_value (six_digits digits) <= 0xFFFFFF
  ∧ get_color rand digits = Ok None
  ∧ get_color rand "red" = Ok (Some 0xFF0000)
  ∧ get_color rand "#abc" = Ok (Some 0xAABBCC)
  ∧ get_color rand "#abcdef" = Ok (Some 0xABCDEF)
  ∧ get_color rand "abcdef" = Ok None
  ∧ get_color rand "abc" = Ok None
  ∧ get_color rand "not-a-color" = Ok None
  ∧ (∀ text,
       Py.lower (Py.strip text) ≠ "random" ->
       webcolors.name_to_hex (Py.lower (Py.strip text)) = None ->
       (∀ rest, Py.lower (Py.strip text) ≠ String "#" rest) ->
       get_color rand text = Ok None).
Proof.
  intros Hhex Hlen.
  assert (get_color rand (String "#" digits)
          = Ok (Some (hex_value (six_digits digits)))
          ∧ 0 <= hex_value (six_digits digits) <= 0xFFFFFF
          ∧ get_color rand digits = Ok None) as (Hwith & Hrange & Hbare).
  { destruct (triplet_digits digits Hhex Hlen)
      as [(a & b & c & -> & Ha & Hb & Hc)
         |(a & b & c & d & e & f & -> & Ha & Hb & Hc & Hd & He & Hf)].
    - change (six_digits (String a (String b (String c ""))))
        with (String a (String a (String b (String b (String c
                (String c "")))))).
      split; [exact (get_color_hash_three rand a b c Ha Hb Hc)|].
      split; [apply (int16_six a a b b c c); done|].
      apply get_color_bare_hex; [done|].
      destruct (hex_char_facts a Ha) as (Sa & _).
      destruct (hex_char_facts c Hc) as (Sc & _).
      unfold Py.strip, Py.rstrip. cbn [Py.lstrip]. rewrite Sa.
      cbn [Py.rev Py.rev_onto Py.lstrip]. by rewrite Sc.
    - change (six_digits (String a (String b (String c (String d (String e
                (String f "")))))))
        with (String a (String b (String c (String d (String e
                (String f "")))))).
      split; [exact (get_color_hash_six rand a b c d e f Ha Hb Hc Hd He Hf)|].
      split; [apply (int16_six a b c d e f); done|].
      apply get_color_bare_hex; [done|].
      destruct (hex_char_facts a Ha) as (Sa & _).
      destruct (hex_char_facts f Hf) as (Sf & _).
      unfold Py.strip, Py.rstrip. cbn [Py.lstrip]. rewrite Sa.
      cbn [Py.rev Py.rev_onto Py.lstrip]. by rewrite Sf. }
  repeat split; try done; try apply Hrange.
  intros text. apply get_color_needs_hash.
Qed.

Lemma C7_color_resolution_witness :
  get_color 0 "#AbC" = Ok (Some 0xAABBCC) ∧ get_color 0 "AbC" = Ok None.
Proof.
  destruct (C7_color_resolution 0 "AbC") as (Hwith & _ & Hbare & _).
  - reflexivity.
  - left. reflexivity.
  - split; [exact Hwith|exact Hbare].
Defined.

(** C7, as stated, fails: six hex digits without the leading [#] do not
    resolve to any value. *)
Lemma C7_bare_hex_is_rejected :
  get_color 0 "abcdef" = Ok None ∧ get_color 0 "#abcdef" = Ok (Some 0xABCDEF).
Proof. split; reflexivity. Qed.

(** Every name of the CSS3 table resolves to a 24-bit value. *)
Lemma css3_names_resolve :
  forallb (fun entry =>
             match get_color 0 (fst entry) with
             | Ok (Some n) => (0 <=? n) && (n <=? 0xFFFFFF)
             | _ => false
             end)
          webcolors.CSS3_NAMES_TO_HEX = true.
Proof. by vm_compute. Qed.

(** ** The recolor command *)

Lemma cmd_color_resolved req me message w n :
  muted me = false ->
  get_color (rand req) (Py.lower (Py.strip message)) = Ok (Some n) ->
  n ≠ 0 ->
  cmd_color req me message w
  = done (set_info (Dict.update (request_sid req) (with_color n)
                      (socket_to_info w)) w)
      [Emit "action received"
         (spoken (with_color n me) "changed their color!") (streamer me);
       Emit "return color"
         (JObj [("color", JStr (htmlcolor (with_color n me)))])
         (request_sid req)].
Proof.
  intros Hmuted Hcolor Hn. unfold cmd_color. rewrite Hmuted, Hcolor. simpl.
  by destruct (n =? 0) eqn:E; [apply Z.eqb_eq in E|].
Qed.

Lemma cmd_color_zero req me message w :
  muted me = false ->
  get_color (rand req) (Py.lower (Py.strip message)) = Ok (Some 0) ->
  world (cmd_color req me message w) = w
  ∧ ∃ notice, effects (cmd_color req me message w)
              = [server notice (request_sid req)].
Proof.
  intros Hmuted Hcolor. unfold cmd_color. rewrite Hmuted, Hcolor. simpl.
  split; [done|]. by eexists.
Qed.

(** C6, on the code.  [/color black] from an unmuted session resolves to
    the value 0, which [if not color] takes for a failure: the handler
    sends the invalid-colour notice to the caller, broadcasts nothing and
    leaves the session's colour as it was. *)
Theorem C6_color_black_is_refused env req me w :
  Dict.get (request_sid req) (socket_to_info w) = Some me ->
  muted me = false ->
  get_color (rand req) "black" = Ok (Some 0)
  ∧ handle_message env req (Some "/color black") w
    = done (touch req (streamer me) w)
        [server ("Invalid color black specified, try a color name, an HTML color like #ff00ff or "
                 +:+ dquote +:+ "random" +:+ dquote
                 +:+ " for a random color.") (request_sid req)].
Proof.
  intros Hme Hmuted. split; [reflexivity|].
  unfold handle_message. rewrite Hme. simpl.
  unfold run_command, cmd_color. simpl. by rewrite Hmuted.
Qed.

Lemma C6_color_black_is_refused_witness :
  Dict.get "A" (socket_to_info Scenario.bob_in)
  = Some (mkSocketInfo "A" "203.0.113.7" "bob" "alice" false false false 255)
  ∧ socket_to_info
      (world (handle_message Scenario.env (Scenario.at_time "A" 9)
                (Some "/color black") Scenario.bob_in))
    = socket_to_info Scenario.bob_in.
Proof.
  split; [reflexivity|].
  destruct (C6_color_black_is_refused Scenario.env (Scenario.at_time "A" 9)
              (mkSocketInfo "A" "203.0.113.7" "bob" "alice" false false false
                 255)
              Scenario.bob_in) as [_ ->]; reflexivity.
Defined.

(** ** Blank messages *)

(** C2, on the code.  A message that is not empty but is empty once
    stripped passes the blank-message check, refreshes the caller's
    presence record and then makes [message[0]] raise [IndexError]: the
    handler ends with an exception and emits nothing. *)
Theorem C2_whitespace_message_raises env req me w text :
  Dict.get (request_sid req) (socket_to_info w) = Some me ->
  Py.len text ≠ 0%nat ->
  Py.strip text = "" ->
  handle_message env req (Some text) w
  = raise (touch req (streamer me) w) [] IndexError.
Proof.
  intros Hme Hlen Hstrip. unfold handle_message.
  apply Nat.eqb_neq in Hlen. by rewrite Hlen, Hme, Hstrip.
Qed.

Lemma C2_whitespace_message_raises_witness :
  raised (handle_message Scenario.env (Scenario.at_time "A" 9) (Some "   ")
            Scenario.bob_in) = Some IndexError
  ∧ effects (handle_message Scenario.env (Scenario.at_time "A" 9)
               (Some "   ") Scenario.bob_in) = [].
Proof.
  rewrite (C2_whitespace_message_raises Scenario.env (Scenario.at_time "A" 9)
             (mkSocketInfo "A" "203.0.113.7" "bob" "alice" false false false
                255)
             Scenario.bob_in "   ");
    [split; reflexivity|reflexivity|simpl; lia|reflexivity].
Defined.

(** The same handler also ends with an exception on a recolor whose
    argument has the shape of [#] and six characters that are not
    hexadecimal digits: [int(color[1:], 16)] raises [ValueError]. *)
Example recolor_bad_digits_raises :
  raised (handle_message Scenario.env (Scenario.at_time "A" 9)
            (Some "/color #gggggg") Scenario.bob_in) = Some ValueError.
Proof. reflexivity. Qed.

(** So does a colour whose digits start with the separator 0x1F, which
    [int] does not skip. *)
Example recolor_separator_raises :
  let o := handle_message Scenario.env (Scenario.at_time "A" 9)
             (Some ("/color #" +:+ String (ascii_of_nat 31) "12345"))
             Scenario.bob_in in
  raised o = Some ValueError
  ∧ socket_to_info (world o) = socket_to_info Scenario.bob_in.
Proof. by vm_compute. Qed.

(** ** Login *)

Lemma name_taken_again_eq d room name :
  name_taken_again d room name = name_taken d room name.
Proof.
  unfold name_taken_again, name_taken, users_in_room, Dict.values.
  induction d as [|[k v] r IH]; simpl; [done|].
  destruct (in_room room v); simpl; by rewrite IH.
Qed.

Lemma get_set_fresh k v d :
  Dict.contains k d = false -> Dict.get k (Dict.set k v d) = Some v.
Proof.
  unfold Dict.contains. induction d as [|[k' v'] r IH]; simpl.
  - by rewrite String.eqb_refl.
  - destruct (String.eqb k k') eqn:E; [done|]. simpl. by rewrite E.
Qed.

(** C10, as the code has it.  A login from a connection that has no
    session, with a display name of 1 to 29 characters that is free in the
    room and a streamer field, but without a ['color'] key, ends with
    [KeyError] before anything is emitted or changed.  The same payload
    without its ['username'], or without its ['streamer'], is answered
    with a private ['error'] event instead. *)
Theorem C10_login_without_color_raises env req w name room key :
  Dict.contains (request_sid req) (socket_to_info w) = false ->
  Py.len name ≠ 0%nat ->
  (Py.len name < 30)%nat ->
  name_taken (socket_to_info w) (Py.lower room) name = false ->
  handle_login env req (mkLoginJson (Some name) (Some room) None key) w
  = raise w [] (KeyError "color")
  ∧ handle_login env req (mkLoginJson None (Some room) None key) w
    = done w [error "Username mssing from JSON?" (request_sid req)]
  ∧ handle_login env req (mkLoginJson (Some name) None None key) w
    = done w [error "Streamer mssing from JSON?" (request_sid req)].
Proof.
  intros Hfree Hlen Hshort Htaken. unfold handle_login.
  cbn [login_username login_streamer login_color login_key].
  rewrite Hfree, Htaken.
  apply Nat.eqb_neq in Hlen. rewrite Hlen.
  apply Nat.leb_gt in Hshort. by rewrite Hshort.
Qed.

Lemma C10_login_without_color_raises_witness :
  handle_login Scenario.env (Scenario.at_time "C" 9)
    (mkLoginJson (Some "carol") (Some "Bob") None None) Scenario.bob_in
  = raise Scenario.bob_in [] (KeyError "color").
Proof.
  apply (C10_login_without_color_raises Scenario.env (Scenario.at_time "C" 9)
           Scenario.bob_in "carol" "Bob" None);
    [reflexivity|simpl; lia|simpl; lia|reflexivity].
Defined.

(** C10, as stated, fails for a connection that has a session: the
    session test comes first, so a payload with ['username'] and
    ['streamer'] and without ['color'] is answered with the private error
    ['SID already taken?'], and nothing is raised. *)
Lemma C10_session_holder_is_answered :
  handle_login Scenario.env (Scenario.at_time "A" 9)
    (mkLoginJson (Some "carol") (Some "Bob") None None) Scenario.bob_in
  = done Scenario.bob_in [error "SID already taken?" "A"]
  ∧ raised (handle_login Scenario.env (Scenario.at_time "A" 9)
              (mkLoginJson (Some "carol") (Some "Bob") None None)
              Scenario.bob_in) = None
  ∧ name_taken (socket_to_info Scenario.bob_in) "bob" "carol" = false.
Proof. repeat split; reflexivity. Qed.

Section admin_login.

Variables (env : Env) (req : Request) (w : World).
Variables (name room col : string) (resolved : option Z).
Variable (result : StreamerRow).

Hypothesis Hfree : Dict.contains (request_sid req) (socket_to_info w) = false.
Hypothesis Hlen : Py.len name ≠ 0%nat.
Hypothesis Hshort : (Py.len name < 30)%nat.
Hypothesis Htaken :
  name_taken (socket_to_info w) (Py.lower room) name = false.
Hypothesis Hcolor :
  get_color (rand req) (Py.lower (Py.strip col)) = Ok resolved.
Hypothesis Hrow : select_streamer env w (Py.lower room) = [result].
Hypothesis Hclaim : Py.lower name = Py.lower room.

(** The common prefix of a login that claims the streamer's name. *)
Lemma admin_claim key :
  handle_login env req (mkLoginJson (Some name) (Some room) (Some col) key) w
  = let w' := touch req (Py.lower room) w in
    match key with
    | None =>
        done w' [Emit "login key required"
                   (JObj [("username", JStr (row_username result))])
                   (request_sid req)]
    | Some key =>
        if negb (String.eqb key (row_key result))
        then done w' [error "Invalid password!" (request_sid req)]
        else login_insert req (Py.lower room) name true (or_zero resolved) w'
    end.
Proof.
  unfold handle_login.
  cbn [login_username login_streamer login_color login_key].
  rewrite Hfree, Htaken, Hcolor.
  apply Nat.eqb_neq in Hlen. rewrite Hlen.
  apply Nat.leb_gt in Hshort. rewrite Hshort.
  change (select_streamer env (touch req (Py.lower room) w) (Py.lower room))
    with (select_streamer env w (Py.lower room)).
  rewrite Hrow, Hclaim, String.eqb_refl. done.
Qed.

End admin_login.

(** C5, on the code.  A login that claims the streamer's name with the
    matching key creates an admin session whose display name is the
    spelling the caller sent: the canonical spelling read from the
    settings row is assigned to a local variable and not used. *)
Theorem C5_admin_login_keeps_claimed_spelling
    env req w name room col resolved result :
  Dict.contains (request_sid req) (socket_to_info w) = false ->
  Py.len name ≠ 0%nat ->
  (Py.len name < 30)%nat ->
  name_taken (socket_to_info w) (Py.lower room) name = false ->
  get_color (rand req) (Py.lower (Py.strip col)) = Ok resolved ->
  select_streamer env w (Py.lower room) = [result] ->
  Py.lower name = Py.lower room ->
  let o := handle_login env req
             (mkLoginJson (Some name) (Some room) (Some col)
                (Some (row_key result))) w in
  raised o = None
  ∧ Dict.get (request_sid req) (socket_to_info (world o))
    = Some (mkSocketInfo (request_sid req) (remote_addr req) (Py.lower room)
              name true false false (or_zero resolved)).
Proof.
  intros Hfree Hlen Hshort Htaken Hcolor Hrow Hclaim o. subst o.
  rewrite (admin_claim env req w name room col resolved result) by done.
  cbv zeta. rewrite String.eqb_refl. simpl. unfold login_insert.
  change (socket_to_info (touch req (Py.lower room) w))
    with (socket_to_info w).
  rewrite name_taken_again_eq, Htaken. simpl.
  split; [done|]. by apply get_set_fresh.
Qed.

Lemma C5_admin_login_keeps_claimed_spelling_witness :
  Dict.get "B" (socket_to_info Scenario.bob_in)
  = Some (mkSocketInfo "B" "203.0.113.7" "bob" "BOB" true false false 0xFF0000)
  ∧ map row_username (select_streamer Scenario.env Scenario.alice_in "bob")
    = ["Bob"].
Proof.
  split; [|reflexivity].
  apply (C5_admin_login_keeps_claimed_spelling Scenario.env
           (Scenario.at_time "B" 5) Scenario.alice_in "BOB" "bob" "red"
           (Some 0xFF0000) (mkStreamerRow "Bob" "s3cret" None None));
    [reflexivity|simpl; lia|simpl; lia|reflexivity..].
Defined.

(** The same happens with a store that compares names exactly and
    spells the streamer in lower case: the session is named as claimed. *)
Example admin_login_spelling_exact_store :
  let exact := mkEnv (fun text => text) String.eqb false in
  let w := mkWorld [] ∅ [mkStreamerRow "bob" "s3cret" None None] in
  Dict.get "B"
    (socket_to_info
       (world (handle_login exact (Scenario.at_time "B" 5)
                 (Scenario.login "BOB" "bob" "red" (Some "s3cret")) w)))
  = Some (mkSocketInfo "B" "203.0.113.7" "bob" "BOB" true false false 0xFF0000).
Proof. reflexivity. Qed.

(** C4, as the code has it.  A login from a connection without a session,
    with a valid and free display name that equals the room name up to
    case, a colour that resolves or is rejected, a room found in the
    settings store and no key, emits only ['login key required'] to the
    caller and creates no session; it has already written the caller's
    presence record for the room, stamped with the time of the event. *)
Theorem C4_key_required_creates_no_session
    env req w name room col resolved result :
  Dict.contains (request_sid req) (socket_to_info w) = false ->
  Py.len name ≠ 0%nat ->
  (Py.len name < 30)%nat ->
  name_taken (socket_to_info w) (Py.lower room) name = false ->
  get_color (rand req) (Py.lower (Py.strip col)) = Ok resolved ->
  select_streamer env w (Py.lower room) = [result] ->
  Py.lower name = Py.lower room ->
  let o := handle_login env req
             (mkLoginJson (Some name) (Some room) (Some col) None) w in
  raised o = None
  ∧ effects o = [Emit "login key required"
                   (JObj [("username", JStr (row_username result))])
                   (request_sid req)]
  ∧ socket_to_info (world o) = socket_to_info w
  ∧ streamersettings (world o) = streamersettings w
  ∧ socket_to_presence (world o)
    = <[request_sid req :=
          mkPresenceInfo (request_sid req) (Py.lower room) (now req)]>
        (socket_to_presence w).
Proof.
  intros Hfree Hlen Hshort Htaken Hcolor Hrow Hclaim o. subst o.
  by rewrite (admin_claim env req w name room col resolved result).
Qed.

Lemma C4_key_required_creates_no_session_witness :
  let o := handle_login Scenario.env (Scenario.at_time "B" 5)
             (Scenario.login "Bob" "bob" "red" None) Scenario.alice_in in
  effects o = [Emit "login key required" (JObj [("username", JStr "Bob")]) "B"]
  ∧ socket_to_info (world o) = socket_to_info Scenario.alice_in.
Proof.
  destruct (C4_key_required_creates_no_session Scenario.env
              (Scenario.at_time "B" 5) Scenario.alice_in "Bob" "bob" "red"
              (Some 0xFF0000) (mkStreamerRow "Bob" "s3cret" None None))
    as (_ & Heff & Hinfo & _);
    [reflexivity|simpl; lia|simpl; lia|reflexivity..|].
  split; [exact Heff|exact Hinfo].
Defined.

(** C4, as stated, fails: the key-required answer leaves the presence
    store changed.  Connection [B] had no presence record before the
    login and has one after it. *)
Lemma C4_key_required_changes_presence :
  let o := handle_login Scenario.env (Scenario.at_time "B" 5)
             (Scenario.login "Bob" "bob" "red" None) Scenario.alice_in in
  effects o = [Emit "login key required" (JObj [("username", JStr "Bob")]) "B"]
  ∧ socket_to_presence Scenario.alice_in !! "B" = None
  ∧ socket_to_presence (world o) !! "B" = Some (mkPresenceInfo "B" "bob" 5)
  ∧ socket_to_presence (world o) ≠ socket_to_presence Scenario.alice_in.
Proof.
  cbv zeta. split; [reflexivity|]. split; [reflexivity|].
  split; [reflexivity|].
  intros H. apply (f_equal (fun m => m !! "B")) in H. vm_compute in H.
  discriminate H.
Qed.

(** ** The mute command *)

Section mute.

Implicit Types (d : Dict.t) (k : string) (v : SocketInfo).

Lemma with_muted_id b v : muted v = b -> with_muted b v = v.
Proof. destruct v. simpl. by intros ->. Qed.

Lemma set_info_id w : set_info (socket_to_info w) w = w.
Proof. by destruct w. Qed.

Lemma update_first_id p f d v :
  first_target p d = Some v -> f v = v -> update_first p f d = d.
Proof.
  intros Hfirst Hf. induction d as [|[k' v'] r IH]; simpl in *; [done|].
  destruct (p v').
  - injection Hfirst as ->. by rewrite Hf.
  - by rewrite IH.
Qed.

Lemma first_target_update p f d v :
  first_target p d = Some v -> p (f v) = true ->
  first_target p (update_first p f d) = Some (f v).
Proof.
  intros Hfirst Hp. induction d as [|[k' v'] r IH]; simpl in *; [done|].
  destruct (p v') eqn:E; simpl.
  - injection Hfirst as ->. by rewrite Hp.
  - rewrite E. by apply IH.
Qed.

Lemma get_update_first k p f d v :
  Dict.get k d = Some v ->
  Dict.get k (update_first p f d) = Some v
  ∨ Dict.get k (update_first p f d) = Some (f v).
Proof.
  induction d as [|[k' v'] r IH]; simpl; [done|].
  destruct (p v'); simpl; destruct (String.eqb k k'); auto.
  intros [= ->]. auto.
Qed.

Lemma split_command_first message c command arg :
  split_command message = (String c command, arg) ->
  ∃ rest, message = String c rest.
Proof.
  unfold split_command. destruct (Py.has_space message).
  - destruct message as [|c' rest]; simpl; [done|].
    destruct (Ascii.eqb c' " "); [done|].
    destruct (Py.split_space rest). intros [= -> _ _]. by eexists.
  - intros [= -> _]. by eexists.
Qed.

Lemma strip_empty : Py.strip "" = "".
Proof. reflexivity. Qed.

Variables (env : Env).

(** One [/mute] call by a privileged session whose argument names a
    session of its room. *)
Lemma mute_call req me w text command arg target :
  Dict.get (request_sid req) (socket_to_info w) = Some me ->
  admin me || moderator me = true ->
  split_command (Py.strip text) = (command, arg) ->
  command_in command ["/mute"; "/quiet"] = true ->
  first_target (targets (Py.lower (Py.strip arg)) (streamer me))
    (socket_to_info w) = Some target ->
  handle_message env req (Some text) w
  = let name := Py.lower (Py.strip arg) in
    let w' :=
      set_info (update_first (targets name (streamer me)) (with_muted true)
                  (socket_to_info w))
        (touch req (streamer me) w) in
    if muted target then
      done w' [server ("User '" +:+ name +:+ "' is already muted.")
                 (request_sid req)]
    else
      done w' [server ("User '" +:+ name +:+ "' has been muted.")
                 (request_sid req);
               server "You have been muted." (sid target)].
Proof.
  intros Hme Hpriv Hsplit Hcmd Htarget.
  assert (∃ word, command = String "/" word
                  ∧ run_command env req me command arg
                    = cmd_mute req me command arg) as (word & Hword & Hrun).
  { simpl in Hcmd. apply orb_true_iff in Hcmd as [E|E].
    - apply String.eqb_eq in E as ->. by eexists.
    - apply orb_true_iff in E as [E|E]; [|done].
      apply String.eqb_eq in E as ->. by eexists. }
  rewrite Hword in Hsplit.
  destruct (split_command_first _ _ _ _ Hsplit) as [rest Hstrip].
  unfold handle_message.
  destruct (Nat.eqb (Py.len text) 0) eqn:Hlen.
  { destruct text; [|done]. by rewrite strip_empty in Hstrip. }
  rewrite Hme, Hstrip. rewrite Hstrip in Hsplit.
  change (Ascii.eqb "/" "/") with true. cbv iota. rewrite Hsplit.
  rewrite <- Hword, Hrun. unfold cmd_mute. rewrite Hpriv. simpl.
  unfold moderate.
  change (socket_to_info (touch req (streamer me) w))
    with (socket_to_info w).
  rewrite Htarget. by destruct (muted target).
Qed.

End mute.

(** C9, as the code has it.  A [/mute] (or [/quiet]) from a moderator or
    admin whose argument, stripped and lowered, names a session of the
    caller's room that is not muted: the first call sets that session's
    muted flag, tells the caller and tells the target.  A second identical
    call from the same connection then finds the target muted, reports
    ['is already muted'] to the caller only, and leaves the session
    registry and the settings as they were; like every message it still
    refreshes the caller's presence record. *)
Theorem C9_mute_then_mute_again
    env req req2 me w text command arg target :
  Dict.get (request_sid req) (socket_to_info w) = Some me ->
  admin me || moderator me = true ->
  split_command (Py.strip text) = (command, arg) ->
  command_in command ["/mute"; "/quiet"] = true ->
  first_target (targets (Py.lower (Py.strip arg)) (streamer me))
    (socket_to_info w) = Some target ->
  muted target = false ->
  request_sid req2 = request_sid req ->
  let name := Py.lower (Py.strip arg) in
  let p := targets name (streamer me) in
  let first := handle_message env req (Some text) w in
  let second := handle_message env req2 (Some text) (world first) in
  first = done (set_info (update_first p (with_muted true) (socket_to_info w))
                  (touch req (streamer me) w))
            [server ("User '" +:+ name +:+ "' has been muted.")
               (request_sid req);
             server "You have been muted." (sid target)]
  ∧ first_target p (socket_to_info (world first))
    = Some (with_muted true target)
  ∧ second = done (touch req2 (streamer me) (world first))
               [server ("User '" +:+ name +:+ "' is already muted.")
                  (request_sid req)]
  ∧ socket_to_info (world second) = socket_to_info (world first)
  ∧ streamersettings (world second) = streamersettings (world first).
Proof.
  intros Hme Hpriv Hsplit Hcmd Htarget Hunmuted Hsid name p first second.
  assert (p (with_muted true target) = true) as Hp.
  { clear -Htarget. subst p name.
    induction (socket_to_info w) as [|[k v] r IH]; simpl in *; [done|].
    destruct (targets _ _ v) eqn:E; [by injection Htarget as <-|auto]. }
  assert (first = done (set_info (update_first p (with_muted true)
                                    (socket_to_info w))
                          (touch req (streamer me) w))
                    [server ("User '" +:+ name +:+ "' has been muted.")
                       (request_sid req);
                     server "You have been muted." (sid target)]) as Hfirst.
  { subst first.
    rewrite (mute_call env req me w text command arg target) by done.
    cbv zeta. by rewrite Hunmuted. }
  assert (first_target p (socket_to_info (world first))
          = Some (with_muted true target)) as Hafter.
  { rewrite Hfirst. simpl. by apply first_target_update. }
  assert (∃ me2, Dict.get (request_sid req2) (socket_to_info (world first))
                 = Some me2
                 ∧ streamer me2 = streamer me
                 ∧ admin me2 || moderator me2 = true) as (me2 & Hme2 & Hroom & Hpriv2).
  { rewrite Hsid, Hfirst. simpl.
    destruct (get_update_first (request_sid req) p (with_muted true)
                (socket_to_info w) me Hme) as [->| ->]; eauto. }
  assert (second = done (touch req2 (streamer me) (world first))
                     [server ("User '" +:+ name +:+ "' is already muted.")
                        (request_sid req)]) as Hsecond.
  { subst second.
    rewrite (mute_call env req2 me2 (world first) text command arg
               (with_muted true target)); [|done..|by rewrite Hroom].
    cbv zeta. simpl. rewrite Hroom, Hsid. fold name. fold p.
    rewrite (update_first_id p _ _ _ Hafter) by done.
    change (socket_to_info (world first))
      with (socket_to_info (touch req2 (streamer me) (world first))).
    by rewrite set_info_id. }
  split; [done|]. split; [done|]. split; [done|].
  by rewrite Hsecond.
Qed.

Lemma C9_mute_then_mute_again_witness :
  let first := handle_message Scenario.env (Scenario.at_time "B" 7)
                 (Some "/mute Alice") Scenario.bob_in in
  let second := handle_message Scenario.env (Scenario.at_time "B" 100)
                  (Some "/mute Alice") (world first) in
  effects first = [server "User 'alice' has been muted." "B";
                   server "You have been muted." "A"]
  ∧ effects second = [server "User 'alice' is already muted." "B"]
  ∧ socket_to_info (world second) = socket_to_info (world first).
Proof.
  destruct (C9_mute_then_mute_again Scenario.env (Scenario.at_time "B" 7)
              (Scenario.at_time "B" 100)
              (mkSocketInfo "B" "203.0.113.7" "bob" "BOB" true false false
                 0xFF0000)
              Scenario.bob_in "/mute Alice" "/mute" "Alice"
              (mkSocketInfo "A" "203.0.113.7" "bob" "alice" false false false
                 255))
    as (Hfirst & _ & Hsecond & Hinfo & _); [reflexivity..|].
  cbv zeta. rewrite Hsecond, Hfirst. split; [reflexivity|].
  split; reflexivity.
Defined.

(** C9, as stated, fails on "leaves all state unchanged": the second
    identical call, sent later, reports ['is already muted'] and leaves
    every session as it was, but it moves the caller's presence record
    from time 7 to time 100. *)
Lemma C9_second_mute_changes_presence :
  let first := world (handle_message Scenario.env (Scenario.at_time "B" 7)
                        (Some "/mute Alice") Scenario.bob_in) in
  let second := handle_message Scenario.env (Scenario.at_time "B" 100)
                  (Some "/mute Alice") first in
  effects second = [server "User 'alice' is already muted." "B"]
  ∧ socket_to_info (world second) = socket_to_info first
  ∧ socket_to_presence first !! "B" = Some (mkPresenceInfo "B" "bob" 7)
  ∧ socket_to_presence (world second) !! "B"
    = Some (mkPresenceInfo "B" "bob" 100)
  ∧ world second ≠ first.
Proof.
  cbv zeta. split; [reflexivity|]. split; [reflexivity|].
  split; [reflexivity|]. split; [reflexivity|].
  intros H. apply (f_equal (fun w => socket_to_presence w !! "B")) in H.
  vm_compute in H. discriminate H.
Qed.

(** * Further properties of the handlers *)

(** ** Each handler moves the registry by one [session_step] *)

Lemma get_color_range rand text n :
  get_color rand text = Ok (Some n) -> 0 <= n <= 0xFFFFFF.
Proof.
  unfold get_color. cbv zeta.
  repeat case_match; try discriminate; intros [= <-];
    match goal with
    | H : _ || _ = false |- _ =>
        apply orb_false_iff in H as [?%Z.ltb_ge ?%Z.ltb_ge]
    end;
    lia.
Qed.

Section session_steps.

Variables (env : Env) (req : Request).

Local Abbreviation info_of o := (socket_to_info (world o)).

Ltac same := exact (sess_same _ _ _ _).

Lemma login_session_step json w :
  session_step env req (EvLogin json) w
    (info_of (handle_login env req json w)).
Proof.
  unfold handle_login.
  destruct (Dict.contains _ _) eqn:Hfree; [same|].
  destruct (login_username json) as [u|] eqn:Hu; [|same].
  destruct (login_streamer json) as [s|] eqn:Hs; [|same].
  destruct (Nat.eqb _ 0) eqn:Hlen; [same|].
  destruct (30 <=? _)%nat eqn:Hshort; [same|].
  destruct (name_taken _ _ _) eqn:Htaken; [same|].
  destruct (login_color json) as [c|] eqn:Hc; [|same].
  destruct (get_color _ _) as [resolved|] eqn:Hcol; [|same].
  apply Nat.eqb_neq in Hlen. apply Nat.leb_gt in Hshort.
  destruct (select_streamer _ _ _) as [|result [|]] eqn:Hrow;
    try same.
  assert (∀ is_admin,
            (is_admin = true ->
             ∃ result, select_streamer env w (Py.lower s) = [result]
                       ∧ login_key json = Some (row_key result)
                       ∧ Py.lower u = Py.lower s) ->
            session_step env req (EvLogin json) w
              (info_of (login_insert req (Py.lower s) u is_admin
                          (or_zero resolved) (touch req (Py.lower s) w))))
    as Hinsert.
  { intros is_admin Hadm. unfold login_insert.
    destruct (name_taken_again _ _ _); [same|].
    simpl. eapply sess_insert; eauto. lia. }
  destruct (String.eqb (Py.lower u) _) eqn:Hname.
  - destruct (login_key json) as [key|] eqn:Hkey; [|same].
    destruct (negb _) eqn:Hmatch; [same|].
    apply Hinsert. intros _. exists result.
    apply negb_false_iff, String.eqb_eq in Hmatch as ->.
    apply String.eqb_eq in Hname. done.
  - apply Hinsert. done.
Qed.

Lemma moderate_muted_session_step text me message b did already notice w w' :
  socket_to_info w' = socket_to_info w ->
  Dict.get (request_sid req) (socket_to_info w) = Some me ->
  admin me || moderator me = true ->
  session_step env req (EvMessage (Some text)) w
    (info_of (moderate req me message muted with_muted b
                did already notice w')).
Proof.
  intros Hw Hme Hpriv. unfold moderate. rewrite Hw.
  destruct (first_target _ _); [|simpl; rewrite Hw; same].
  destruct (negb _); simpl; by eapply sess_muted.
Qed.

Lemma moderate_moderator_session_step
    text me message b did already notice w w' :
  socket_to_info w' = socket_to_info w ->
  Dict.get (request_sid req) (socket_to_info w) = Some me ->
  admin me = true ->
  session_step env req (EvMessage (Some text)) w
    (info_of (moderate req me message moderator with_moderator b
                did already notice w')).
Proof.
  intros Hw Hme Hadm. unfold moderate. rewrite Hw.
  destruct (first_target _ _); [|simpl; rewrite Hw; same].
  destruct (negb _); simpl; by eapply sess_moderator.
Qed.

Lemma run_command_session_step text me command message w w' :
  socket_to_info w' = socket_to_info w ->
  Dict.get (request_sid req) (socket_to_info w) = Some me ->
  session_step env req (EvMessage (Some text)) w
    (info_of (run_command env req me command message w')).
Proof.
  intros Hw Hme.
  assert (session_step env req (EvMessage (Some text)) w (socket_to_info w'))
    as Hsame by (rewrite Hw; same).
  unfold run_command.
  destruct (command_in command ["/say"]).
  { unfold cmd_say. by destruct (muted me). }
  destruct (command_in command ["/me"; "/action"; "/describe"]).
  { unfold cmd_me. by destruct (muted me). }
  destruct (command_in command ["/color"; "/setcolor"]).
  { unfold cmd_color. destruct (muted me) eqn:Hmuted; [done|].
    destruct (get_color _ _) as [[n|]|] eqn:Hcol; simpl; try done.
    destruct (n =? 0); simpl; [done|]. rewrite Hw.
    eapply sess_recolor; eauto using get_color_range. }
  destruct (command_in command ["/name"; "/nick"]).
  { unfold cmd_name. destruct (muted me) eqn:Hmuted; [done|].
    destruct (30 <=? _)%nat eqn:Hshort; [done|].
    destruct (name_taken _ _ _); [done|].
    destruct (Nat.eqb _ 0) eqn:Hlen; [done|].
    simpl. rewrite Hw. apply Nat.eqb_neq in Hlen. apply Nat.leb_gt in Hshort.
    eapply sess_rename; eauto. lia. }
  destruct (command_in command ["/help"]); [done|].
  destruct (command_in command ["/users"]); [done|].
  destruct (command_in command ["/settings"]).
  { unfold cmd_settings. destruct (negb _); [done|].
    by destruct (select_streamer _ _ _) as [|? [|]]. }
  destruct (command_in command ["/mute"; "/quiet"]).
  { unfold cmd_mute. destruct (negb _) eqn:Hpriv; [done|].
    apply negb_false_iff in Hpriv. by apply moderate_muted_session_step. }
  destruct (command_in command ["/unmute"; "/unquiet"]).
  { unfold cmd_unmute. destruct (negb _) eqn:Hpriv; [done|].
    apply negb_false_iff in Hpriv. by apply moderate_muted_session_step. }
  destruct (command_in command ["/mod"]).
  { unfold cmd_mod. destruct (negb _) eqn:Hpriv; [done|].
    apply negb_false_iff in Hpriv. by apply moderate_moderator_session_step. }
  destruct (command_in command ["/demod"; "/unmod"]).
  { unfold cmd_demod. destruct (negb _) eqn:Hpriv; [done|].
    apply negb_false_iff in Hpriv. by apply moderate_moderator_session_step. }
  destruct (command_in command ["/desc"; "/description"]).
  { unfold cmd_desc. destruct (negb _); [done|].
    destruct (update_streamer _ _ _ _) eqn:E; simpl; [|done].
    by rewrite (update_streamer_info _ _ _ _ _ E). }
  destruct (command_in command ["/password"]); [|done].
  unfold cmd_password. destruct (negb (admin me)); [done|].
  destruct (negb _);
    destruct (update_streamer _ _ _ _) eqn:E; simpl; try done;
    by rewrite (update_streamer_info _ _ _ _ _ E).
Qed.

Lemma message_session_step json w :
  session_step env req (EvMessage json) w
    (info_of (handle_message env req json w)).
Proof.
  unfold handle_message.
  destruct json as [text|]; [|same].
  destruct (Nat.eqb _ 0); [same|].
  destruct (Dict.get _ _) as [me|] eqn:Hme; [|same].
  destruct (Py.strip text) as [|first rest]; [same|].
  destruct (Ascii.eqb first "/").
  - destruct (split_command _) as [command message].
    by apply run_command_session_step.
  - unfold cmd_say. destruct (muted me); same.
Qed.

Lemma handle_session_step ev w :
  session_step env req ev w (info_of (handle env req ev w)).
Proof.
  destruct ev as [| |json|json|json| |json]; simpl.
  - unfold connect. destruct (Dict.contains _ _); simpl;
      [apply sess_del; auto|same].
  - unfold disconnect. destruct (Dict.get _ _); simpl;
      [apply sess_del; auto|same].
  - unfold handle_presence. destruct json; same.
  - apply login_session_step.
  - apply message_session_step.
  - unfold return_color. destruct (Dict.get _ _); same.
  - unfold handle_drawing. destruct json; [|same].
    destruct (Dict.get _ _) as [me|]; [|same].
    destruct (muted me); same.
Qed.

End session_steps.

(** ** Reading the dictionary after an operation *)

Section dict_reads.

Implicit Types (d : Dict.t) (k : string) (v : SocketInfo).

Lemma update_elem_key k f d x i :
  (x, i) ∈ Dict.update k f d ->
  (x, i) ∈ d ∨ ∃ v, (x, v) ∈ d ∧ x = k ∧ Dict.get k d = Some v ∧ i = f v.
Proof.
  induction d as [|[k' v'] r IH]; simpl; [auto|].
  destruct (String.eqb k k') eqn:E; simpl.
  - apply String.eqb_eq in E as <-.
    intros [[= -> ->]|H]%elem_of_cons.
    + right. exists v'. split; [apply elem_of_cons; auto|done].
    + left. apply elem_of_cons. auto.
  - intros [[= -> ->]|H]%elem_of_cons.
    + left. apply elem_of_cons. auto.
    + destruct (IH H) as [?|(v & ? & ? & ? & ?)].
      * left. apply elem_of_cons. auto.
      * right. exists v. split; [apply elem_of_cons; auto|done].
Qed.

Lemma get_none_keys k d : Dict.get k d = None -> k ∉ Dict.keys d.
Proof.
  intros H. apply contains_false_keys. unfold Dict.contains. by rewrite H.
Qed.

Lemma keys_get_none k d : k ∉ Dict.keys d -> Dict.get k d = None.
Proof.
  induction d as [|[k' v'] r IH]; simpl; [done|].
  intros [Hne Hr]%not_elem_of_cons.
  destruct (String.eqb k k') eqn:E; [by apply String.eqb_eq in E|auto].
Qed.

Lemma get_del k k' d :
  NoDup (Dict.keys d) ->
  Dict.get k (Dict.del k' d) = if String.eqb k k' then None else Dict.get k d.
Proof.
  induction d as [|[k0 v0] r IH]; simpl; intros Hnd.
  - by destruct (String.eqb k k').
  - apply NoDup_cons in Hnd as [Hk0 Hnd].
    destruct (String.eqb k' k0) eqn:E0.
    + apply String.eqb_eq in E0 as ->.
      destruct (String.eqb k k0) eqn:E; [|done].
      apply String.eqb_eq in E as ->. by apply keys_get_none.
    + simpl. destruct (String.eqb k k0) eqn:E; [|by apply IH].
      apply String.eqb_eq in E as ->.
      by rewrite String.eqb_sym, E0.
Qed.

Lemma get_update k k' f d :
  Dict.get k (Dict.update k' f d)
  = if String.eqb k k' then f <$> Dict.get k d else Dict.get k d.
Proof.
  induction d as [|[k0 v0] r IH]; simpl; [by destruct (String.eqb k k')|].
  destruct (String.eqb k' k0) eqn:E0; simpl.
  - apply String.eqb_eq in E0 as ->. by destruct (String.eqb k k0).
  - destruct (String.eqb k k0) eqn:E; [|done].
    apply String.eqb_eq in E as ->. by rewrite String.eqb_sym, E0.
Qed.

Lemma get_set_other k k' v d :
  Dict.get k d ≠ None -> Dict.contains k' d = false ->
  Dict.get k (Dict.set k' v d) = Dict.get k d.
Proof.
  unfold Dict.contains.
  induction d as [|[k0 v0] r IH]; simpl; [done|].
  destruct (String.eqb k' k0) eqn:E0; [done|]. simpl.
  destruct (String.eqb k k0); auto.
Qed.

Lemma get_update_first_inv k p f d v' :
  Dict.get k (update_first p f d) = Some v' ->
  ∃ v, Dict.get k d = Some v ∧ (v' = v ∨ v' = f v).
Proof.
  induction d as [|[k0 v0] r IH]; simpl; [done|].
  destruct (p v0); simpl; destruct (String.eqb k k0); eauto.
  intros [= <-]. eauto.
Qed.

End dict_reads.

Lemma lower_char_idem c : Py.lower_char (Py.lower_char c) = Py.lower_char c.
Proof. by destruct c as [[] [] [] [] [] [] [] []]. Qed.

Lemma lower_idem s : Py.lower (Py.lower s) = Py.lower s.
Proof.
  induction s as [|c r IH]; simpl; [done|]. by rewrite lower_char_idem, IH.
Qed.

(** ** Where a session comes from *)

(** A session found after an event was there before it with the same
    [sid], address, room and admin flag, or it is the session this login
    has just built. *)
Lemma session_origin env req ev w d' k i :
  session_step env req ev w d' -> (k, i) ∈ d' ->
  (∃ i0, (k, i0) ∈ socket_to_info w ∧ fixed_part i = fixed_part i0
         ∧ (session_ok k i0 -> session_ok k i))
  ∨ (∃ json name room resolved,
       ev = EvLogin json ∧ k = request_sid req
       ∧ login_username json = Some name ∧ login_streamer json = Some room
       ∧ Dict.contains (request_sid req) (socket_to_info w) = false
       ∧ (1 <= Py.len name < 30)%nat
       ∧ i = mkSocketInfo (request_sid req) (remote_addr req) (Py.lower room)
               name (admin i) false false (or_zero resolved)
       ∧ 0 <= or_zero resolved <= 0xFFFFFF
       ∧ (admin i = true ->
          ∃ result, select_streamer env w (Py.lower room) = [result]
                    ∧ login_key json = Some (row_key result)
                    ∧ Py.lower name = Py.lower room)).
Proof.
  intros Hstep Hin.
  destruct Hstep as [|Hev
                    |json name room col resolved is_admin
                       Hev Hu Hs Hc Hfree Hlen Htaken Hcol Hadm
                    |text me col Hev Hme Hmuted Hrange
                    |text me name Hev Hme Hmuted Hlen
                    |text me p b Hev Hme Hpriv|text me p b Hev Hme Hadm].
  - left. by exists i.
  - left. exists i. split; [|done].
    eapply elem_of_sublist; [exact Hin|apply del_sublist].
  - rewrite (set_fresh _ _ _ Hfree) in Hin.
    apply elem_of_app in Hin as [Hin|[= -> ->]%list_elem_of_singleton].
    + left. by exists i.
    + right. exists json, name, room, resolved. simpl.
      repeat (split; [done|]). split; [|done].
      destruct resolved as [n|]; simpl; [|lia].
      by apply get_color_range in Hcol.
  - apply update_elem_key in Hin as [Hin|(v & Hv & -> & _ & ->)];
      left; [by exists i|].
    exists v. split; [done|]. split; [done|].
    unfold session_ok. simpl. tauto.
  - apply update_elem_key in Hin as [Hin|(v & Hv & -> & _ & ->)];
      left; [by exists i|].
    exists v. split; [done|]. split; [done|].
    unfold session_ok. simpl. tauto.
  - apply update_first_elem in Hin as [Hin|(v & Hv & ->)];
      left; [by exists i|].
    exists v. split; [done|]. split; [done|].
    unfold session_ok. simpl. tauto.
  - apply update_first_elem in Hin as [Hin|(v & Hv & ->)];
      left; [by exists i|].
    exists v. split; [done|]. split; [done|].
    unfold session_ok. simpl. tauto.
Qed.

Lemma reachable_session_ok env w k i :
  reachable env w -> (k, i) ∈ socket_to_info w -> session_ok k i.
Proof.
  intros Hreach. revert k i.
  induction Hreach as [t|w req ev _ IH _|w t _ IH]; simpl; intros k i Hin.
  - by apply elem_of_nil in Hin.
  - destruct (session_origin env req ev w _ k i (handle_session_step _ _ _ _)
                Hin)
      as [(i0 & Hin0 & _ & Hok)
         |(json & name & room & resolved & _ & -> & _ & _ & _ & Hlen & ->
           & Hcol & _)].
    + by apply Hok, IH.
    + unfold session_ok. simpl. by rewrite lower_idem.
  - by apply IH.
Qed.

(** In every reachable world each session is well formed: its [sid]
    attribute is the key it is stored under, its room is in lower case,
    its display name has 1 to 29 characters and its colour is a 24-bit
    value. *)
Theorem sessions_well_formed env w k i :
  reachable env w -> (k, i) ∈ socket_to_info w -> session_ok k i.
Proof. apply reachable_session_ok. Qed.

Lemma sessions_well_formed_witness :
  session_ok "B"
    (mkSocketInfo "B" "203.0.113.7" "bob" "BOB" true false false 0xFF0000).
Proof.
  apply (sessions_well_formed Scenario.env Scenario.bob_in);
    [apply scenario_bob_in_reachable|by apply get_elem].
Defined.

(** No event changes the [sid], the address, the room or the admin flag of
    a session: a session found after an event either was stored under the
    same key before it with those four attributes, or is the session that
    this login event created for its own connection, which had none. *)
Theorem sessions_keep_identity env req ev w k i :
  (k, i) ∈ socket_to_info (world (handle env req ev w)) ->
  (∃ i0, (k, i0) ∈ socket_to_info w
         ∧ sid i = sid i0 ∧ ip i = ip i0 ∧ streamer i = streamer i0
         ∧ admin i = admin i0)
  ∨ (∃ json, ev = EvLogin json ∧ k = request_sid req
             ∧ Dict.get (request_sid req) (socket_to_info w) = None
             ∧ moderator i = false ∧ muted i = false).
Proof.
  intros Hin.
  destruct (session_origin env req ev w _ k i (handle_session_step _ _ _ _)
              Hin)
    as [(i0 & Hin0 & Hfixed & _)
       |(json & name & room & resolved & Hev & Hk & _ & _ & Hfree & _ & Hi
         & _)].
  - left. exists i0. unfold fixed_part in Hfixed.
    injection Hfixed as -> -> -> ->. done.
  - right. exists json. rewrite Hi. simpl. repeat (split; [done|]).
    split; [|done]. unfold Dict.contains in Hfree.
    by destruct (Dict.get _ _).
Qed.

(** The admin flag is given by login alone, and only against the key: a
    session that has the flag after an event either had it before, or was
    created by this login event, whose room has exactly one settings row,
    whose key equals that row's key and whose claimed name equals the room
    name up to case. *)
Theorem admin_needs_key env req ev w k i :
  (k, i) ∈ socket_to_info (world (handle env req ev w)) ->
  admin i = true ->
  (∃ i0, (k, i0) ∈ socket_to_info w ∧ admin i0 = true)
  ∨ (∃ json room result,
       ev = EvLogin json ∧ k = request_sid req
       ∧ login_streamer json = Some room
       ∧ select_streamer env w (Py.lower room) = [result]
       ∧ login_key json = Some (row_key result)
       ∧ Py.lower (username i) = Py.lower room).
Proof.
  intros Hin Hadm.
  destruct (session_origin env req ev w _ k i (handle_session_step _ _ _ _)
              Hin)
    as [(i0 & Hin0 & Hfixed & _)
       |(json & name & room & resolved & Hev & Hk & _ & Hs & _ & _ & Hi
         & _ & Hkey)].
  - left. exists i0. split; [done|]. unfold fixed_part in Hfixed.
    injection Hfixed as _ _ _ <-. done.
  - right. destruct (Hkey Hadm) as (result & Hrow & Hk' & Hname).
    exists json, room, result. rewrite Hi. simpl. done.
Qed.

Lemma admin_needs_key_witness :
  (∃ i0, ("B", i0) ∈ socket_to_info Scenario.alice_in ∧ admin i0 = true)
  ∨ (∃ json room result,
       EvLogin (Scenario.login "BOB" "bob" "red" (Some "s3cret"))
       = EvLogin json
       ∧ "B" = "B"
       ∧ login_streamer json = Some room
       ∧ select_streamer Scenario.env Scenario.alice_in (Py.lower room)
         = [result]
       ∧ login_key json = Some (row_key result)
       ∧ Py.lower "BOB" = Py.lower room).
Proof.
  apply (admin_needs_key Scenario.env (Scenario.at_time "B" 5)
           (EvLogin (Scenario.login "BOB" "bob" "red" (Some "s3cret")))
           Scenario.alice_in "B"
           (mkSocketInfo "B" "203.0.113.7" "bob" "BOB" true false false
              0xFF0000));
    [by apply get_elem|reflexivity].
Defined.

(** Who may change what.  In a reachable world, when a session is stored
    under the same key before and after an event: its moderator flag
    differs only if the event is a message from a session with the admin
    flag; its muted flag differs only if the event is a message from a
    session with the admin or the moderator flag; its display name or its
    colour differ only if the event is a message from that very session,
    which is not muted. *)
Theorem changes_need_privilege env req ev w k i0 i :
  reachable env w ->
  Dict.get k (socket_to_info w) = Some i0 ->
  Dict.get k (socket_to_info (world (handle env req ev w))) = Some i ->
  (moderator i ≠ moderator i0 ->
   ∃ text me, ev = EvMessage (Some text)
              ∧ Dict.get (request_sid req) (socket_to_info w) = Some me
              ∧ admin me = true)
  ∧ (muted i ≠ muted i0 ->
     ∃ text me, ev = EvMessage (Some text)
                ∧ Dict.get (request_sid req) (socket_to_info w) = Some me
                ∧ admin me || moderator me = true)
  ∧ (username i ≠ username i0 ∨ color i ≠ color i0 ->
     ∃ text, ev = EvMessage (Some text) ∧ k = request_sid req
             ∧ muted i0 = false).
Proof.
  intros [Hkeys _]%reachable_by_ok Hget0 Hget.
  assert (∀ P Q R : Prop, i = i0 ->
            (moderator i ≠ moderator i0 -> P) ∧ (muted i ≠ muted i0 -> Q)
            ∧ (username i ≠ username i0 ∨ color i ≠ color i0 -> R))
    as Hsame by (intros P Q R ->; intuition).
  destruct (handle_session_step env req ev w)
    as [|Hev
       |json name room col resolved is_admin
          Hev Hu Hs Hc Hfree Hlen Htaken Hcol Hadm
       |text me col Hev Hme Hmuted Hrange
       |text me name Hev Hme Hmuted Hlen
       |text me p b Hev Hme Hpriv|text me p b Hev Hme Hadm].
  - apply Hsame. congruence.
  - apply Hsame. rewrite get_del in Hget by done.
    destruct (String.eqb k _); congruence.
  - apply Hsame. rewrite get_set_other in Hget; congruence.
  - rewrite get_update, Hget0 in Hget.
    destruct (String.eqb k _) eqn:E; [|apply Hsame; congruence].
    apply String.eqb_eq in E as ->. injection Hget as <-. simpl.
    assert (i0 = me) as -> by congruence.
    split; [done|]. split; [done|]. intros _. by exists text.
  - rewrite get_update, Hget0 in Hget.
    destruct (String.eqb k _) eqn:E; [|apply Hsame; congruence].
    apply String.eqb_eq in E as ->. injection Hget as <-. simpl.
    assert (i0 = me) as -> by congruence.
    split; [done|]. split; [done|]. intros _. by exists text.
  - apply get_update_first_inv in Hget as (v & Hv & [->| ->]);
      assert (v = i0) as -> by congruence; [by apply Hsame|]. simpl.
    split; [done|]. split; [|intros [?|?]; done].
    intros _. by exists text, me.
  - apply get_update_first_inv in Hget as (v & Hv & [->| ->]);
      assert (v = i0) as -> by congruence; [by apply Hsame|]. simpl.
    split; [|split; [done|intros [?|?]; done]].
    intros _. by exists text, me.
Qed.

Lemma changes_need_privilege_witness :
  ∃ text me,
    EvMessage (Some "/mute Alice") = EvMessage (Some text)
    ∧ Dict.get "B" (socket_to_info Scenario.bob_in) = Some me
    ∧ admin me || moderator me = true.
Proof.
  destruct (changes_need_privilege Scenario.env (Scenario.at_time "B" 7)
              (EvMessage (Some "/mute Alice")) Scenario.bob_in "A"
              (mkSocketInfo "A" "203.0.113.7" "bob" "alice" false false false
                 255)
              (mkSocketInfo "A" "203.0.113.7" "bob" "alice" false false true
                 255))
    as (_ & Hmuted & _);
    [apply scenario_bob_in_reachable|reflexivity|reflexivity|].
  apply Hmuted. discriminate.
Defined.

Lemma sessions_keep_identity_witness :
  (∃ i0, ("A", i0) ∈ socket_to_info Scenario.bob_in
         ∧ "A" = sid i0 ∧ "203.0.113.7" = ip i0 ∧ "bob" = streamer i0
         ∧ false = admin i0)
  ∨ (∃ json, EvMessage (Some "/mute Alice") = EvLogin json ∧ "A" = "B"
             ∧ Dict.get "B" (socket_to_info Scenario.bob_in) = None
             ∧ false = false ∧ true = false).
Proof.
  apply (sessions_keep_identity Scenario.env (Scenario.at_time "B" 7)
           (EvMessage (Some "/mute Alice")) Scenario.bob_in "A"
           (mkSocketInfo "A" "203.0.113.7" "bob" "alice" false false true
              255)).
  by apply get_elem.
Defined.

(** ** Connections without a session *)

(** A connection that has no session cannot change anything or reach
    anyone else: its message, drawing and get-color events leave the whole
    world as it was, end without an exception, and emit exactly one event,
    addressed to the caller. *)
Theorem no_session_no_effect env req w :
  Dict.get (request_sid req) (socket_to_info w) = None ->
  ∀ ev, (∃ json, ev = EvMessage json) ∨ (∃ json, ev = EvDrawing json)
        ∨ ev = EvGetColor ->
    world (handle env req ev w) = w
    ∧ raised (handle env req ev w) = None
    ∧ ∃ e, effects (handle env req ev w) = [e] ∧ sent_to (request_sid req) e.
Proof.
  intros Hnone ev [[json ->]|[[json ->]| ->]]; simpl.
  - unfold handle_message. rewrite Hnone.
    destruct json as [text|]; [destruct (Nat.eqb _ 0)|]; simpl;
      repeat split; eexists; (split; [done|]); by do 2 eexists.
  - unfold handle_drawing. rewrite Hnone.
    destruct json; simpl; repeat split; eexists; (split; [done|]);
      by do 2 eexists.
  - unfold return_color. rewrite Hnone. simpl.
    repeat split; eexists; (split; [done|]); by do 2 eexists.
Qed.

Lemma no_session_no_effect_witness :
  effects (handle Scenario.env (Scenario.at_time "Z" 9)
             (EvMessage (Some "/mute alice")) Scenario.bob_in)
  = [error "User is not authenticated?" "Z"]
  ∧ world (handle Scenario.env (Scenario.at_time "Z" 9)
             (EvMessage (Some "/mute alice")) Scenario.bob_in)
    = Scenario.bob_in.
Proof.
  destruct (no_session_no_effect Scenario.env (Scenario.at_time "Z" 9)
              Scenario.bob_in eq_refl (EvMessage (Some "/mute alice")))
    as (Hworld & _ & _); [left; by eexists|].
  split; [reflexivity|exact Hworld].
Defined.

(** ** Mute gating *)

Lemma command_in_cases command names :
  command_in command names = true -> command ∈ names.
Proof.
  unfold command_in. induction names as [|n names IH]; simpl; [done|].
  intros [E|E]%orb_true_iff.
  - apply String.eqb_eq in E as ->. apply elem_of_cons. auto.
  - apply elem_of_cons. auto.
Qed.

(** A muted session that speaks, acts, recolors or renames, or sends a
    drawing, gets the private notice ['You are muted!'] and nothing else
    happens: no broadcast, no change to any session; only its presence
    record is refreshed. *)
Theorem muted_session_is_silenced env req w me :
  Dict.get (request_sid req) (socket_to_info w) = Some me ->
  muted me = true ->
  (∀ text, mute_gated text = true ->
     handle_message env req (Some text) w
     = done (touch req (streamer me) w) [you_are_muted (request_sid req)])
  ∧ (∀ src,
       handle_drawing req (Some src) w
       = done (touch req (streamer me) w) [you_are_muted (request_sid req)]).
Proof.
  intros Hme Hmuted. split.
  - intros text Hgated. unfold mute_gated in Hgated. unfold handle_message.
    destruct (Nat.eqb (Py.len text) 0) eqn:Hlen.
    { by destruct text. }
    rewrite Hme.
    destruct (Py.strip text) as [|first rest]; [done|].
    destruct (Ascii.eqb first "/"); [|unfold cmd_say; by rewrite Hmuted].
    destruct (split_command _) as [command message]. cbn [fst] in Hgated.
    apply command_in_cases in Hgated.
    repeat (apply elem_of_cons in Hgated as [->|Hgated];
            [unfold run_command; simpl;
             unfold cmd_say, cmd_me, cmd_color, cmd_name;
             by rewrite Hmuted|]).
    by apply elem_of_nil in Hgated.
  - intros src. unfold handle_drawing. by rewrite Hme, Hmuted.
Qed.

Lemma muted_session_is_silenced_witness :
  effects (handle_message Scenario.env (Scenario.at_time "A" 9)
             (Some "/say hello") Scenario.alice_muted)
  = [server "You are muted!" "A"]
  ∧ socket_to_info
      (world (handle_message Scenario.env (Scenario.at_time "A" 9)
                (Some "/say hello") Scenario.alice_muted))
    = socket_to_info Scenario.alice_muted.
Proof.
  destruct (muted_session_is_silenced Scenario.env (Scenario.at_time "A" 9)
              Scenario.alice_muted
              (mkSocketInfo "A" "203.0.113.7" "bob" "alice" false false true
                 255) eq_refl eq_refl) as [Hmsg _].
  rewrite (Hmsg "/say hello" eq_refl). split; reflexivity.
Defined.

(** ** Privileged commands *)

Lemma command_not_in command names :
  command ∉ names -> command_in command names = false.
Proof.
  unfold command_in. induction names as [|n names IH]; simpl; [done|].
  intros [Hne Hr]%not_elem_of_cons. rewrite IH by done.
  destruct (String.eqb command n) eqn:E; [|done].
  by apply String.eqb_eq in E.
Qed.

(** The command line of a message that is one, and the dispatch of
    [handle_message] on it. *)
Lemma message_runs_command env req w me text command arg :
  Dict.get (request_sid req) (socket_to_info w) = Some me ->
  split_command (Py.strip text) = (String "/" command, arg) ->
  handle_message env req (Some text) w
  = run_command env req me (String "/" command) arg
      (touch req (streamer me) w).
Proof.
  intros Hme Hsplit.
  destruct (split_command_first _ _ _ _ Hsplit) as [rest Hstrip].
  unfold handle_message.
  destruct (Nat.eqb (Py.len text) 0) eqn:Hlen.
  { destruct text; [|done]. by rewrite strip_empty in Hstrip. }
  rewrite Hme. rewrite Hstrip in Hsplit |- *.
  change (Ascii.eqb "/" "/") with true. cbv iota. by rewrite Hsplit.
Qed.

(** A privileged command from a session that lacks the privilege is
    answered exactly like a command that does not exist: the private
    notice ['Unrecognized command ...'], no broadcast, no change to any
    session or to the settings. *)
Theorem privileged_commands_are_hidden env req w me text command arg :
  Dict.get (request_sid req) (socket_to_info w) = Some me ->
  split_command (Py.strip text) = (String "/" command, arg) ->
  (String "/" command ∈ admin_commands ∧ admin me = false)
  ∨ (String "/" command ∈ moderation_commands
     ∧ admin me || moderator me = false)
  ∨ String "/" command ∉ known_commands ->
  handle_message env req (Some text) w
  = done (touch req (streamer me) w)
      [unrecognized (String "/" command) (request_sid req)].
Proof.
  intros Hme Hsplit Hcase.
  rewrite (message_runs_command env req w me text command arg) by done.
  destruct Hcase as [[Hin Hadm]|[[Hin Hpriv]|Hnot]].
  - unfold admin_commands in Hin.
    repeat (apply elem_of_cons in Hin as [[= ->]|Hin];
            [unfold run_command; simpl;
             unfold cmd_settings, cmd_mod, cmd_demod, cmd_desc, cmd_password;
             by rewrite Hadm|]).
    by apply elem_of_nil in Hin.
  - unfold moderation_commands in Hin.
    repeat (apply elem_of_cons in Hin as [[= ->]|Hin];
            [unfold run_command; simpl; unfold cmd_mute, cmd_unmute;
             by rewrite Hpriv|]).
    by apply elem_of_nil in Hin.
  - unfold run_command.
    rewrite !command_not_in; [done|intros Hin; apply Hnot; revert Hin;
      unfold known_commands, admin_commands, moderation_commands;
      rewrite !elem_of_app, !elem_of_cons; tauto..].
Qed.

Lemma privileged_commands_are_hidden_witness :
  handle_message Scenario.env (Scenario.at_time "A" 9) (Some "/mod alice")
    Scenario.bob_in
  = handle_message Scenario.env (Scenario.at_time "A" 9) (Some "/mod")
      Scenario.bob_in
  ∧ effects (handle_message Scenario.env (Scenario.at_time "A" 9)
               (Some "/mod alice") Scenario.bob_in)
    = [server "Unrecognized command '/mod', use '/help' for info." "A"].
Proof.
  rewrite (privileged_commands_are_hidden Scenario.env
             (Scenario.at_time "A" 9) Scenario.bob_in
             (mkSocketInfo "A" "203.0.113.7" "bob" "alice" false false false
                255)
             "/mod alice" "mod" "alice" eq_refl eq_refl);
    [split; reflexivity|].
  left. split; [|reflexivity].
  unfold admin_commands. rewrite !elem_of_cons. tauto.
Defined.

(** ** The presence store and the settings under the chat commands *)

Section frames.

Variables (env : Env) (req : Request).

Lemma update_streamer_frame w w' name f :
  update_streamer env w name f = Ok w' ->
  socket_to_presence w' = socket_to_presence w ∧ read_only env = false.
Proof.
  unfold update_streamer. destruct (read_only env); [done|].
  by intros [= <-].
Qed.

Lemma moderate_frame me message flag assign value did already notice w :
  let o := moderate req me message flag assign value did already notice w in
  socket_to_presence (world o) = socket_to_presence w
  ∧ streamersettings (world o) = streamersettings w.
Proof.
  unfold moderate. destruct (first_target _ _); [|done].
  by destruct (negb _).
Qed.

Lemma run_command_frame me command message w :
  let o := run_command env req me command message w in
  socket_to_presence (world o) = socket_to_presence w
  ∧ (streamersettings (world o) = streamersettings w
     ∨ admin me = true ∧ read_only env = false).
Proof.
  assert (∀ flag assign value did already notice,
            let o := moderate req me message flag assign value
                       did already notice w in
            socket_to_presence (world o) = socket_to_presence w
            ∧ (streamersettings (world o) = streamersettings w
               ∨ admin me = true ∧ read_only env = false)) as Hmod.
  { intros. destruct (moderate_frame me message flag assign value
                        did already notice w) as [? ?]. auto. }
  unfold run_command.
  destruct (command_in command ["/say"]).
  { unfold cmd_say. destruct (muted me); simpl; auto. }
  destruct (command_in command ["/me"; "/action"; "/describe"]).
  { unfold cmd_me. destruct (muted me); simpl; auto. }
  destruct (command_in command ["/color"; "/setcolor"]).
  { unfold cmd_color. destruct (muted me); [simpl; auto|].
    destruct (get_color _ _) as [[n|]|]; simpl; auto.
    destruct (n =? 0); simpl; auto. }
  destruct (command_in command ["/name"; "/nick"]).
  { unfold cmd_name. destruct (muted me); [simpl; auto|].
    destruct (30 <=? _)%nat; [simpl; auto|].
    destruct (name_taken _ _ _); [simpl; auto|].
    destruct (Nat.eqb _ 0); simpl; auto. }
  destruct (command_in command ["/help"]); [simpl; auto|].
  destruct (command_in command ["/users"]); [simpl; auto|].
  destruct (command_in command ["/settings"]).
  { unfold cmd_settings. destruct (negb _); [simpl; auto|].
    destruct (select_streamer _ _ _) as [|? [|]]; simpl; auto. }
  destruct (command_in command ["/mute"; "/quiet"]).
  { unfold cmd_mute. destruct (negb _); [simpl; auto|apply Hmod]. }
  destruct (command_in command ["/unmute"; "/unquiet"]).
  { unfold cmd_unmute. destruct (negb _); [simpl; auto|apply Hmod]. }
  destruct (command_in command ["/mod"]).
  { unfold cmd_mod. destruct (negb _); [simpl; auto|apply Hmod]. }
  destruct (command_in command ["/demod"; "/unmod"]).
  { unfold cmd_demod. destruct (negb _); [simpl; auto|apply Hmod]. }
  destruct (command_in command ["/desc"; "/description"]).
  { unfold cmd_desc. destruct (negb _) eqn:Hadm; [simpl; auto|].
    apply negb_false_iff in Hadm.
    destruct (update_streamer _ _ _ _) eqn:E; simpl; auto.
    destruct (update_streamer_frame _ _ _ _ E). auto. }
  destruct (command_in command ["/password"]); [|simpl; auto].
  unfold cmd_password. destruct (negb (admin me)) eqn:Hadm; [simpl; auto|].
  apply negb_false_iff in Hadm.
  destruct (negb _);
    destruct (update_streamer _ _ _ _) eqn:E; simpl; auto;
    destruct (update_streamer_frame _ _ _ _ E); auto.
Qed.

(** What a message from a session leaves in the presence store and in the
    settings, whatever the command and however the handler ends. *)
Lemma message_frame w me text :
  Dict.get (request_sid req) (socket_to_info w) = Some me ->
  Py.len text ≠ 0%nat ->
  let o := handle_message env req (Some text) w in
  socket_to_presence (world o)
  = <[request_sid req :=
        mkPresenceInfo (request_sid req) (streamer me) (now req)]>
      (socket_to_presence w)
  ∧ (streamersettings (world o) = streamersettings w
     ∨ admin me = true ∧ read_only env = false).
Proof.
  intros Hme Hlen. apply Nat.eqb_neq in Hlen.
  unfold handle_message. rewrite Hlen, Hme.
  destruct (Py.strip text) as [|first rest]; [simpl; auto|].
  destruct (Ascii.eqb first "/").
  - destruct (split_command _) as [command message].
    apply (run_command_frame me command message (touch req (streamer me) w)).
  - unfold cmd_say. destruct (muted me); simpl; auto.
Qed.

End frames.

(** The settings table is written by the streamer's commands only: if an
    event leaves the settings different, it is a message from a session
    with the admin flag, and the store is not in read-only mode. *)
Theorem settings_need_admin env req ev w :
  streamersettings (world (handle env req ev w)) ≠ streamersettings w ->
  ∃ text me, ev = EvMessage (Some text)
             ∧ Dict.get (request_sid req) (socket_to_info w) = Some me
             ∧ admin me = true ∧ read_only env = false.
Proof.
  intros Hdiff. destruct ev as [| |json|json|json| |json]; simpl in Hdiff.
  - exfalso. apply Hdiff. unfold connect. by destruct (Dict.contains _ _).
  - exfalso. apply Hdiff. unfold disconnect. by destruct (Dict.get _ _).
  - exfalso. apply Hdiff. unfold handle_presence. by destruct json.
  - exfalso. apply Hdiff. unfold handle_login, login_insert.
    repeat case_match; done.
  - destruct json as [text|]; [|done].
    destruct (Nat.eqb (Py.len text) 0) eqn:Hlen.
    { exfalso. apply Hdiff. unfold handle_message. by rewrite Hlen. }
    destruct (Dict.get (request_sid req) (socket_to_info w)) as [me|] eqn:Hme.
    + apply Nat.eqb_neq in Hlen.
      destruct (message_frame env req w me text Hme Hlen) as [_ [?|[? ?]]];
        [done|]. by exists text, me.
    + exfalso. apply Hdiff. unfold handle_message. by rewrite Hlen, Hme.
  - exfalso. apply Hdiff. unfold return_color. by destruct (Dict.get _ _).
  - exfalso. apply Hdiff. unfold handle_drawing.
    destruct json; [|done]. destruct (Dict.get _ _) as [me|]; [|done].
    by destruct (muted me).
Qed.

Lemma settings_need_admin_witness :
  ∃ text me,
    EvMessage (Some "/password hunter2") = EvMessage (Some text)
    ∧ Dict.get "B" (socket_to_info Scenario.bob_in) = Some me
    ∧ admin me = true ∧ read_only Scenario.env = false.
Proof.
  apply (settings_need_admin Scenario.env (Scenario.at_time "B" 9)
           (EvMessage (Some "/password hunter2")) Scenario.bob_in).
  intros H. apply (f_equal (map row_streampass)) in H. discriminate H.
Defined.

(** ** Presence *)

(** An event writes no presence record but the sender's: the record of
    every other connection is after the event what it was before. *)
Theorem presence_of_others_is_kept env req ev w k :
  k ≠ request_sid req ->
  socket_to_presence (world (handle env req ev w)) !! k
  = socket_to_presence w !! k.
Proof.
  intros Hk.
  assert (∀ room, socket_to_presence (touch req room w) !! k
                  = socket_to_presence w !! k) as Htouch.
  { intros room. simpl. by rewrite lookup_insert_ne. }
  destruct ev as [| |json|json|json| |json]; simpl.
  - unfold connect. by destruct (Dict.contains _ _).
  - unfold disconnect. destruct (Dict.get _ _); simpl;
      by rewrite lookup_delete_ne.
  - unfold handle_presence. destruct json; simpl;
      by rewrite ?lookup_insert_ne.
  - unfold handle_login, login_insert.
    repeat case_match; simpl; by rewrite ?lookup_insert_ne.
  - destruct json as [text|]; [|done].
    destruct (Nat.eqb (Py.len text) 0) eqn:Hlen.
    { unfold handle_message. by rewrite Hlen. }
    destruct (Dict.get (request_sid req) (socket_to_info w)) as [me|] eqn:Hme.
    + apply Nat.eqb_neq in Hlen.
      destruct (message_frame env req w me text Hme Hlen) as [-> _].
      by rewrite lookup_insert_ne.
    + unfold handle_message. by rewrite Hlen, Hme.
  - unfold return_color. by destruct (Dict.get _ _).
  - unfold handle_drawing. destruct json; [|done].
    destruct (Dict.get _ _) as [me|]; [|done].
    destruct (muted me); simpl; by rewrite lookup_insert_ne.
Qed.

Lemma presence_of_others_is_kept_witness :
  socket_to_presence
    (world (handle Scenario.env (Scenario.at_time "B" 7)
              (EvMessage (Some "/mute Alice")) Scenario.bob_in)) !! "A"
  = Some (mkPresenceInfo "A" "bob" 0).
Proof.
  rewrite (presence_of_others_is_kept Scenario.env (Scenario.at_time "B" 7)
             (EvMessage (Some "/mute Alice")) Scenario.bob_in "A");
    [reflexivity|discriminate].
Defined.

(** Any message that is not empty, from a connection with a session,
    counts as a heartbeat for the session's room, whatever the command and
    even when the handler ends with an exception: at every observation
    time up to thirty seconds after the event the connection is one of the
    live viewers of that room, and of no other room. *)
Theorem message_marks_presence env req w me text time :
  Dict.get (request_sid req) (socket_to_info w) = Some me ->
  Py.len text ≠ 0%nat ->
  let after := world (handle_message env req (Some text) w) in
  (time <= now req + 30 ->
   request_sid req ∈ live_ids time after (streamer me))
  ∧ ∀ room, room ≠ streamer me -> request_sid req ∉ live_ids time after room.
Proof.
  intros Hme Hlen after. subst after.
  destruct (message_frame env req w me text Hme Hlen) as [Hpresence _].
  split.
  - intros Htime. apply live_ids_spec. rewrite Hpresence, lookup_insert_eq.
    eexists. split; [done|]. simpl. split; [done|lia].
  - intros room Hroom. rewrite live_ids_spec, Hpresence, lookup_insert_eq.
    intros (x & [= <-] & Hx & _). by simpl in Hx.
Qed.

Lemma message_marks_presence_witness :
  "A" ∈ live_ids 39 (world (handle_message Scenario.env
                              (Scenario.at_time "A" 9) (Some "   ")
                              Scenario.bob_in)) "bob".
Proof.
  apply (message_marks_presence Scenario.env (Scenario.at_time "A" 9)
           Scenario.bob_in
           (mkSocketInfo "A" "203.0.113.7" "bob" "alice" false false false
              255)
           "   " 39);
    [reflexivity|simpl; lia|simpl; lia].
Defined.

(** ** Leaving *)

(** In a reachable world, after [disconnect] (and after [connect], which
    clears a stale entry) the connection has no session; [disconnect] also
    removes its presence record, so that it is a live viewer of no room.
    The sessions of all other connections are what they were.  The room
    is told exactly when there was a session: one ['disconnected'] event
    to the session's room, carrying the roster without the leaver. *)
Theorem disconnect_forgets_connection env req w :
  reachable env w ->
  let gone := disconnect req w in
  Dict.get (request_sid req) (socket_to_info (world gone)) = None
  ∧ Dict.get (request_sid req) (socket_to_info (world (connect req w))) = None
  ∧ socket_to_presence (world gone) !! request_sid req = None
  ∧ (∀ time room, request_sid req ∉ live_ids time (world gone) room)
  ∧ (∀ k, k ≠ request_sid req ->
       Dict.get k (socket_to_info (world gone)) = Dict.get k (socket_to_info w)
       ∧ Dict.get k (socket_to_info (world (connect req w)))
         = Dict.get k (socket_to_info w))
  ∧ effects gone
    = match Dict.get (request_sid req) (socket_to_info w) with
      | Some me =>
          [Emit "disconnected"
             (JObj (identity (username me) me
                    ++ [("users",
                         users_json (Dict.del (request_sid req)
                                       (socket_to_info w)) (streamer me))]))
             (streamer me)]
      | None => []
      end.
Proof.
  intros [Hkeys _]%reachable_by_ok gone. subst gone.
  assert (∀ k, Dict.get k (Dict.del (request_sid req) (socket_to_info w))
               = if String.eqb k (request_sid req) then None
                 else Dict.get k (socket_to_info w)) as Hdel.
  { intros k. by apply get_del. }
  unfold disconnect, connect, Dict.contains.
  destruct (Dict.get (request_sid req) (socket_to_info w)) as [me|] eqn:Hme;
    simpl.
  - rewrite !Hdel, String.eqb_refl, lookup_delete_eq.
    repeat (split; [done|]). split; [|split; [|done]].
    + intros time room. rewrite live_ids_spec. simpl.
      rewrite lookup_delete_eq. by intros (x & [=] & _).
    + intros k Hk. rewrite Hdel.
      destruct (String.eqb k _) eqn:E; [by apply String.eqb_eq in E|done].
  - rewrite Hme, lookup_delete_eq. repeat (split; [done|]).
    split; [|done].
    intros time room. rewrite live_ids_spec. simpl.
    rewrite lookup_delete_eq. by intros (x & [=] & _).
Qed.

Lemma disconnect_forgets_connection_witness :
  Dict.keys (socket_to_info (world (disconnect (Scenario.at_time "A" 9)
                                      Scenario.bob_in))) = ["B"]
  ∧ Dict.get "A" (socket_to_info (world (disconnect (Scenario.at_time "A" 9)
                                           Scenario.bob_in))) = None.
Proof.
  destruct (disconnect_forgets_connection Scenario.env
              (Scenario.at_time "A" 9) Scenario.bob_in
              scenario_bob_in_reachable) as [Hgone _].
  split; [reflexivity|exact Hgone].
Defined.

(** ** Renaming *)

Lemma name_taken_holder d room name k holder :
  (k, holder) ∈ d -> streamer holder = room ->
  Py.lower (username holder) = Py.lower name ->
  name_taken d room name = true.
Proof.
  intros Hin Hroom Hname.
  destruct (name_taken d room name) eqn:E; [done|].
  apply name_taken_elem in E. exfalso. apply E.
  apply list_elem_of_fmap. exists (k, holder). split; [|done].
  unfold room_name. simpl. by rewrite Hroom, Hname.
Qed.

(** A rename to a name of fewer than 30 characters that a session of
    the caller's room holds up to case is refused with the private notice
    ['Name has already been taken, ...'] and changes no session.  The
    length comes first in the handler: a name of 30 characters or more is
    answered ['Too long of a name ...'] whoever holds it.  The holder may
    be the caller: a session cannot change the case of its own name. *)
Theorem rename_to_held_name_is_refused
    env req w me text command arg k holder :
  Dict.get (request_sid req) (socket_to_info w) = Some me ->
  muted me = false ->
  split_command (Py.strip text) = (String "/" command, arg) ->
  String "/" command ∈ ["/name"; "/nick"] ->
  (Py.len (Py.strip arg) < 30)%nat ->
  (k, holder) ∈ socket_to_info w ->
  streamer holder = streamer me ->
  Py.lower (username holder) = Py.lower (Py.strip arg) ->
  handle_message env req (Some text) w
  = done (touch req (streamer me) w)
      [server "Name has already been taken, try a different name."
         (request_sid req)].
Proof.
  intros Hme Hmuted Hsplit Hcmd Hlen Hin Hroom Hname.
  rewrite (message_runs_command env req w me text command arg) by done.
  assert (run_command env req me (String "/" command) arg
            (touch req (streamer me) w)
          = cmd_name req me arg (touch req (streamer me) w)) as ->.
  { repeat (apply elem_of_cons in Hcmd as [[= ->]|Hcmd]; [done|]).
    by apply elem_of_nil in Hcmd. }
  unfold cmd_name. rewrite Hmuted.
  destruct (30 <=? Py.len (Py.strip arg))%nat eqn:E;
    [apply Nat.leb_le in E; lia|].
  change (socket_to_info (touch req (streamer me) w))
    with (socket_to_info w).
  by rewrite (name_taken_holder _ _ _ k holder Hin Hroom Hname).
Qed.

Lemma rename_to_held_name_is_refused_witness :
  handle_message Scenario.env (Scenario.at_time "A" 9) (Some "/nick ALICE")
    Scenario.bob_in
  = done (touch (Scenario.at_time "A" 9) "bob" Scenario.bob_in)
      [server "Name has already been taken, try a different name." "A"].
Proof.
  apply (rename_to_held_name_is_refused Scenario.env (Scenario.at_time "A" 9)
           Scenario.bob_in
           (mkSocketInfo "A" "203.0.113.7" "bob" "alice" false false false
              255)
           "/nick ALICE" "nick" "ALICE" "A"
           (mkSocketInfo "A" "203.0.113.7" "bob" "alice" false false false
              255));
    [reflexivity|reflexivity|reflexivity|rewrite !elem_of_cons; tauto
    |vm_compute; lia|by apply get_elem|reflexivity|reflexivity].
Defined.

(** The length test comes before the test of the name: a name of 30
    characters that a session holds up to case would be answered as too
    long. *)
Example rename_too_long_comes_first :
  effects (handle_message Scenario.env (Scenario.at_time "A" 9)
             (Some "/name abcdefghijklmnopqrstuvwxyz0123")
             Scenario.bob_in)
  = [server "Too long of a name specified, try a different name." "A"].
Proof. reflexivity. Qed.

(** ** A successful login *)

Lemma users_in_room_app d room k i :
  streamer i = room ->
  users_in_room (d ++ [(k, i)]) room
  = users_in_room d room ++ [mkUser (username i) (get_type i) (htmlcolor i)].
Proof.
  intros Hroom. unfold users_in_room, Dict.values.
  rewrite map_app, List.filter_app, map_app. simpl.
  unfold in_room. by rewrite Hroom, String.eqb_refl.
Qed.

(** A colour field that [get_color] cannot read as a number ends the
    login with [ValueError]: no session is created and nothing is
    emitted. *)
Example login_bad_digits_raises :
  let o := handle_login Scenario.env (Scenario.at_time "C" 9)
             (mkLoginJson (Some "carol") (Some "Bob") (Some "#gggggg") None)
             Scenario.bob_in in
  raised o = Some ValueError
  ∧ effects o = []
  ∧ socket_to_info (world o) = socket_to_info Scenario.bob_in.
Proof. repeat split; reflexivity. Qed.

(** A login from a connection without a session, with a display name of
    1 to 29 characters that is free in the room and differs from the room
    name up to case, a colour field on which [get_color] does not raise
    (it returns a value or [None]), and a room that has exactly one
    settings row, succeeds whatever the key: the session is appended to
    the registry with no privilege and no mute, coloured as resolved or
    black (0) when [get_color] returned [None]; the connection joins the
    room, is told ['login success'], and the room is told ['connected']
    with a roster that ends with the newcomer.  Any further login on that
    connection is answered ['SID already taken?'] and changes nothing. *)
Theorem login_creates_session env req w name room col key resolved result :
  Dict.contains (request_sid req) (socket_to_info w) = false ->
  Py.len name ≠ 0%nat ->
  (Py.len name < 30)%nat ->
  name_taken (socket_to_info w) (Py.lower room) name = false ->
  get_color (rand req) (Py.lower (Py.strip col)) = Ok resolved ->
  select_streamer env w (Py.lower room) = [result] ->
  Py.lower name ≠ Py.lower room ->
  let new := mkSocketInfo (request_sid req) (remote_addr req) (Py.lower room)
               name false false false (or_zero resolved) in
  let o := handle_login env req
             (mkLoginJson (Some name) (Some room) (Some col) key) w in
  o = done (set_info (socket_to_info w ++ [(request_sid req, new)])
              (touch req (Py.lower room) w))
        [JoinRoom (request_sid req) (Py.lower room);
         Emit "login success" (JObj [("username", JStr name)])
           (request_sid req);
         Emit "connected"
           (JObj (identity name new
                  ++ [("users",
                       JList (map user_json
                                (users_in_room (socket_to_info w)
                                   (Py.lower room)
                                 ++ [mkUser name "normal" (htmlcolor new)])))]))
           (Py.lower room)]
  ∧ ∀ req2 json2,
      request_sid req2 = request_sid req ->
      handle_login env req2 json2 (world o)
      = done (world o) [error "SID already taken?" (request_sid req)].
Proof.
  intros Hfree Hlen Hshort Htaken Hcolor Hrow Hclaim new o.
  assert (o = done (set_info (socket_to_info w ++ [(request_sid req, new)])
                      (touch req (Py.lower room) w))
                [JoinRoom (request_sid req) (Py.lower room);
                 Emit "login success" (JObj [("username", JStr name)])
                   (request_sid req);
                 Emit "connected"
                   (JObj (identity name new
                          ++ [("users",
                               JList (map user_json
                                        (users_in_room (socket_to_info w)
                                           (Py.lower room)
                                         ++ [mkUser name "normal"
                                               (htmlcolor new)])))]))
                   (Py.lower room)]) as Ho.
  { subst o. unfold handle_login.
    cbn [login_username login_streamer login_color login_key].
    rewrite Hfree, Htaken, Hcolor.
    apply Nat.eqb_neq in Hlen. rewrite Hlen.
    apply Nat.leb_gt in Hshort. rewrite Hshort.
    change (select_streamer env (touch req (Py.lower room) w) (Py.lower room))
      with (select_streamer env w (Py.lower room)).
    rewrite Hrow.
    destruct (String.eqb (Py.lower name) (Py.lower room)) eqn:E;
      [by apply String.eqb_eq in E|].
    unfold login_insert.
    change (socket_to_info (touch req (Py.lower room) w))
      with (socket_to_info w).
    rewrite name_taken_again_eq, Htaken, (set_fresh _ _ _ Hfree).
    unfold users_json. by rewrite users_in_room_app. }
  split; [exact Ho|].
  intros req2 json2 Hsid. rewrite Ho. unfold handle_login. simpl.
  rewrite Hsid.
  assert (Dict.contains (request_sid req)
            (socket_to_info w ++ [(request_sid req, new)]) = true) as ->;
    [|done].
  unfold Dict.contains.
  rewrite <- (set_fresh _ _ _ Hfree), get_set_fresh; done.
Qed.

Lemma login_creates_session_witness :
  Dict.get "C"
    (socket_to_info
       (world (handle_login Scenario.env (Scenario.at_time "C" 9)
                 (Scenario.login "Carol" "BOB" "not-a-color" (Some "guess"))
                 Scenario.bob_in)))
  = Some (mkSocketInfo "C" "203.0.113.7" "bob" "Carol" false false false 0).
Proof.
  destruct (login_creates_session Scenario.env (Scenario.at_time "C" 9)
              Scenario.bob_in "Carol" "BOB" "not-a-color" (Some "guess")
              None (mkStreamerRow "Bob" "s3cret" None None))
    as [Ho _];
    [reflexivity|simpl; lia|simpl; lia|reflexivity|reflexivity|reflexivity
    |discriminate|].
  unfold Scenario.login. rewrite Ho. reflexivity.
Defined.

(** ** Moderation: one call, and a call undone *)

Section moderation.

Variable flag : SocketInfo -> bool.
Variable assign : bool -> SocketInfo -> SocketInfo.

Hypothesis flag_assign : ∀ b v, flag (assign b v) = b.
Hypothesis assign_same : ∀ b v, flag v = b -> assign b v = v.
Hypothesis assign_again : ∀ b b' v, assign b (assign b' v) = assign b v.
Hypothesis assign_identity :
  ∀ b v, username (assign b v) = username v
         ∧ streamer (assign b v) = streamer v
         ∧ sid (assign b v) = sid v ∧ admin (assign b v) = admin v.

Lemma targets_assign name room b v :
  targets name room (assign b v) = targets name room v.
Proof.
  unfold targets. by destruct (assign_identity b v) as (-> & -> & _).
Qed.

Lemma first_target_found p d v : first_target p d = Some v -> p v = true.
Proof.
  induction d as [|[k' v'] r IH]; simpl; [done|].
  destruct (p v') eqn:E; [by intros [= <-]|done].
Qed.

Lemma update_first_undo name room value d target :
  first_target (targets name room) d = Some target ->
  flag target = negb value ->
  update_first (targets name room) (assign (negb value))
    (update_first (targets name room) (assign value) d) = d.
Proof.
  intros Hfirst Hflag.
  induction d as [|[k' v'] r IH]; simpl in *; [done|].
  destruct (targets name room v') eqn:E; simpl.
  - injection Hfirst as ->. rewrite targets_assign, E, assign_again.
    by rewrite assign_same.
  - rewrite E. by rewrite IH.
Qed.

Variable env : Env.

(** A moderation command line whose argument names a session of the
    caller's room. *)
Lemma moderation_message
    req w me text command arg target value did already notice :
  Dict.get (request_sid req) (socket_to_info w) = Some me ->
  split_command (Py.strip text) = (String "/" command, arg) ->
  (∀ w', run_command env req me (String "/" command) arg w'
         = moderate req me arg flag assign value did already notice w') ->
  first_target (targets (Py.lower (Py.strip arg)) (streamer me))
    (socket_to_info w) = Some target ->
  handle_message env req (Some text) w
  = let name := Py.lower (Py.strip arg) in
    done (set_info (update_first (targets name (streamer me)) (assign value)
                      (socket_to_info w))
            (touch req (streamer me) w))
      (if Bool.eqb (flag target) value
       then [server ("User '" +:+ name +:+ "' " +:+ already)
               (request_sid req)]
       else [server ("User '" +:+ name +:+ "' " +:+ did) (request_sid req);
             server notice (sid target)]).
Proof.
  intros Hme Hsplit Hrun Htarget.
  rewrite (message_runs_command env req w me text command arg) by done.
  rewrite Hrun. unfold moderate.
  change (socket_to_info (touch req (streamer me) w))
    with (socket_to_info w).
  rewrite Htarget. cbv zeta. by destruct (Bool.eqb (flag target) value).
Qed.

(** A moderation command followed by its inverse, on the same name, from
    the same connection: the second call finds the flag changed, changes
    it back, notifies caller and target, and the registry is what it was
    before the first call. *)
Lemma moderation_undone
    req req2 w me text text2 command command2 arg arg2 target value
    did already notice did2 already2 notice2 :
  Dict.get (request_sid req) (socket_to_info w) = Some me ->
  split_command (Py.strip text) = (String "/" command, arg) ->
  split_command (Py.strip text2) = (String "/" command2, arg2) ->
  Py.lower (Py.strip arg2) = Py.lower (Py.strip arg) ->
  (∀ me' w', streamer me' = streamer me -> admin me' = admin me ->
             (me' = me ∨ me' = assign value me) ->
     run_command env req me' (String "/" command) arg w'
     = moderate req me' arg flag assign value did already notice w'
     ∧ run_command env req2 me' (String "/" command2) arg2 w'
       = moderate req2 me' arg2 flag assign (negb value)
           did2 already2 notice2 w') ->
  first_target (targets (Py.lower (Py.strip arg)) (streamer me))
    (socket_to_info w) = Some target ->
  flag target = negb value ->
  request_sid req2 = request_sid req ->
  let name := Py.lower (Py.strip arg) in
  let first := handle_message env req (Some text) w in
  let second := handle_message env req2 (Some text2) (world first) in
  first = done (set_info (update_first (targets name (streamer me))
                            (assign value) (socket_to_info w))
                  (touch req (streamer me) w))
            [server ("User '" +:+ name +:+ "' " +:+ did) (request_sid req);
             server notice (sid target)]
  ∧ effects second
    = [server ("User '" +:+ name +:+ "' " +:+ did2) (request_sid req);
       server notice2 (sid target)]
  ∧ raised second = None
  ∧ socket_to_info (world second) = socket_to_info w.
Proof.
  intros Hme Hsplit Hsplit2 Harg Hrun Htarget Hflag Hsid name first second.
  set (p := targets name (streamer me)).
  assert (first = done (set_info (update_first p (assign value)
                                    (socket_to_info w))
                          (touch req (streamer me) w))
                    [server ("User '" +:+ name +:+ "' " +:+ did)
                       (request_sid req);
                     server notice (sid target)]) as Hfirst.
  { subst first.
    rewrite (moderation_message req w me text command arg target value
               did already notice); [|done|done| |done].
    - cbv zeta. rewrite Hflag. by destruct value.
    - intros w'. by apply (Hrun me w'); auto. }
  split; [exact Hfirst|].
  assert (first_target p (socket_to_info (world first))
          = Some (assign value target)) as Hafter.
  { rewrite Hfirst. simpl. apply first_target_update; [done|].
    subst p. rewrite targets_assign. by eapply first_target_found. }
  assert (∃ me2, Dict.get (request_sid req2) (socket_to_info (world first))
                 = Some me2
                 ∧ streamer me2 = streamer me ∧ admin me2 = admin me
                 ∧ (me2 = me ∨ me2 = assign value me))
    as (me2 & Hme2 & Hroom & Hadm & Hcases).
  { rewrite Hsid, Hfirst. simpl.
    destruct (get_update_first (request_sid req) p (assign value)
                (socket_to_info w) me Hme) as [->| ->].
    - exists me. auto.
    - exists (assign value me).
      destruct (assign_identity value me) as (_ & ? & _ & ?). auto. }
  subst second.
  rewrite (moderation_message req2 (world first) me2 text2 command2 arg2
             (assign value target) (negb value) did2 already2 notice2);
    [|done|done| |by rewrite Harg, Hroom].
  - cbv zeta. rewrite flag_assign, Harg, Hroom, Hsid. fold name. fold p.
    destruct (assign_identity value target) as (_ & _ & -> & _).
    replace (Bool.eqb value (negb value)) with false by by destruct value.
    simpl. split; [done|]. split; [done|].
    rewrite Hfirst. simpl. subst p.
    by apply (update_first_undo name (streamer me) value _ target).
  - intros w'. by apply (Hrun me2 w').
Qed.

End moderation.

Section dispatch.

Variables (env : Env) (req : Request) (me : SocketInfo).
Variables (command arg : string).

Ltac by_cases H :=
  repeat (apply elem_of_cons in H as [[= ->]|H];
          [unfold run_command; simpl;
           unfold cmd_mute, cmd_unmute, cmd_mod, cmd_demod;
           by match goal with Hp : _ = true |- _ => rewrite Hp end|]);
  by apply elem_of_nil in H.

Lemma dispatch_mute w :
  String "/" command ∈ ["/mute"; "/quiet"] ->
  admin me || moderator me = true ->
  run_command env req me (String "/" command) arg w
  = moderate req me arg muted with_muted true
      "has been muted." "is already muted." "You have been muted." w.
Proof. intros Hin Hpriv. by_cases Hin. Qed.

Lemma dispatch_unmute w :
  String "/" command ∈ ["/unmute"; "/unquiet"] ->
  admin me || moderator me = true ->
  run_command env req me (String "/" command) arg w
  = moderate req me arg muted with_muted false
      "has been unmuted." "is not muted." "You have been unmuted." w.
Proof. intros Hin Hpriv. by_cases Hin. Qed.

Lemma dispatch_mod w :
  String "/" command ∈ ["/mod"] ->
  admin me = true ->
  run_command env req me (String "/" command) arg w
  = moderate req me arg moderator with_moderator true
      "has been promoted to moderator." "is already a moderator."
      "You have been promoted to moderator." w.
Proof. intros Hin Hpriv. by_cases Hin. Qed.

Lemma dispatch_demod w :
  String "/" command ∈ ["/demod"; "/unmod"] ->
  admin me = true ->
  run_command env req me (String "/" command) arg w
  = moderate req me arg moderator with_moderator false
      "has been demoted from moderator." "is not a moderator."
      "You have been demoted from moderator." w.
Proof. intros Hin Hpriv. by_cases Hin. Qed.

End dispatch.

(** [/unmute] (or [/unquiet]) from a moderator or admin, muted or not,
    whose argument names a session of the caller's room: a muted target is
    unmuted and caller and target are told; a target that is not muted
    only gets the caller the notice ['is not muted'], and no session
    changes.  The command is not mute-gated, so a muted moderator can
    unmute itself. *)
Theorem unmute_clears_mute env req me w text command arg target :
  Dict.get (request_sid req) (socket_to_info w) = Some me ->
  admin me || moderator me = true ->
  split_command (Py.strip text) = (String "/" command, arg) ->
  String "/" command ∈ ["/unmute"; "/unquiet"] ->
  first_target (targets (Py.lower (Py.strip arg)) (streamer me))
    (socket_to_info w) = Some target ->
  let name := Py.lower (Py.strip arg) in
  let o := handle_message env req (Some text) w in
  raised o = None
  ∧ (muted target = true ->
     o = done (set_info (update_first (targets name (streamer me))
                           (with_muted false) (socket_to_info w))
                 (touch req (streamer me) w))
           [server ("User '" +:+ name +:+ "' has been unmuted.")
              (request_sid req);
            server "You have been unmuted." (sid target)]
     ∧ first_target (targets name (streamer me)) (socket_to_info (world o))
       = Some (with_muted false target))
  ∧ (muted target = false ->
     o = done (touch req (streamer me) w)
           [server ("User '" +:+ name +:+ "' is not muted.")
              (request_sid req)]).
Proof.
  intros Hme Hpriv Hsplit Hcmd Htarget name o. subst o.
  rewrite (moderation_message muted with_muted env req w me text command arg
             target false "has been unmuted." "is not muted."
             "You have been unmuted."); [|done|done| |done].
  2: { intros w'. by apply dispatch_unmute. }
  cbv zeta. fold name. split; [by destruct (muted target)|]. split.
  - intros Hm. rewrite Hm. simpl. split; [done|].
    apply first_target_update; [done|].
    unfold targets. simpl. by apply (first_target_found _ _ _ Htarget).
  - intros Hm. rewrite Hm. simpl.
    rewrite (update_first_id _ _ _ _ Htarget) by by apply with_muted_id.
    change (socket_to_info w)
      with (socket_to_info (touch req (streamer me) w)).
    by rewrite set_info_id.
Qed.

Lemma unmute_clears_mute_witness :
  Dict.get "A" (socket_to_info Scenario2.alice_moderator_muted)
  = Some (mkSocketInfo "A" "203.0.113.7" "bob" "alice" false true true 255)
  ∧ effects (handle_message Scenario.env (Scenario.at_time "A" 10)
               (Some "/unmute alice") Scenario2.alice_moderator_muted)
    = [server "User 'alice' has been unmuted." "A";
       server "You have been unmuted." "A"].
Proof.
  split; [reflexivity|].
  destruct (unmute_clears_mute Scenario.env (Scenario.at_time "A" 10)
              (mkSocketInfo "A" "203.0.113.7" "bob" "alice" false true true
                 255)
              Scenario2.alice_moderator_muted "/unmute alice" "unmute"
              "alice"
              (mkSocketInfo "A" "203.0.113.7" "bob" "alice" false true true
                 255))
    as (_ & Hmuted & _);
    [reflexivity|reflexivity|reflexivity|rewrite !elem_of_cons; tauto
    |reflexivity|].
  destruct (Hmuted eq_refl) as [-> _]. reflexivity.
Defined.

(** [/mute] then [/unmute] on the same name, from the same moderator or
    admin, against a session that was not muted: the second call tells
    caller and target of the unmute, and the session registry is exactly
    what it was before the first call. *)
Theorem mute_then_unmute_restores
    env req req2 me w text text2 command command2 arg arg2 target :
  Dict.get (request_sid req) (socket_to_info w) = Some me ->
  admin me || moderator me = true ->
  split_command (Py.strip text) = (String "/" command, arg) ->
  String "/" command ∈ ["/mute"; "/quiet"] ->
  split_command (Py.strip text2) = (String "/" command2, arg2) ->
  String "/" command2 ∈ ["/unmute"; "/unquiet"] ->
  Py.lower (Py.strip arg2) = Py.lower (Py.strip arg) ->
  first_target (targets (Py.lower (Py.strip arg)) (streamer me))
    (socket_to_info w) = Some target ->
  muted target = false ->
  request_sid req2 = request_sid req ->
  let name := Py.lower (Py.strip arg) in
  let first := handle_message env req (Some text) w in
  let second := handle_message env req2 (Some text2) (world first) in
  effects second
  = [server ("User '" +:+ name +:+ "' has been unmuted.") (request_sid req);
     server "You have been unmuted." (sid target)]
  ∧ raised second = None
  ∧ socket_to_info (world second) = socket_to_info w.
Proof.
  intros Hme Hpriv Hsplit Hcmd Hsplit2 Hcmd2 Harg Htarget Hm Hsid.
  eapply (moderation_undone muted with_muted); try done.
  - intros b v Hv. by apply with_muted_id.
  - intros me' w' _ Hadm [->| ->]; split;
      (apply dispatch_mute || apply dispatch_unmute); done.
  - exact Hm.
Qed.

Lemma mute_then_unmute_restores_witness :
  socket_to_info
    (world (handle_message Scenario.env (Scenario.at_time "B" 20)
              (Some "/unquiet ALICE")
              (world (handle_message Scenario.env (Scenario.at_time "B" 7)
                        (Some "/mute Alice") Scenario.bob_in))))
  = socket_to_info Scenario.bob_in.
Proof.
  apply (mute_then_unmute_restores Scenario.env (Scenario.at_time "B" 7)
           (Scenario.at_time "B" 20)
           (mkSocketInfo "B" "203.0.113.7" "bob" "BOB" true false false
              0xFF0000)
           Scenario.bob_in "/mute Alice" "/unquiet ALICE" "mute" "unquiet"
           "Alice" "ALICE"
           (mkSocketInfo "A" "203.0.113.7" "bob" "alice" false false false
              255));
    first [reflexivity | rewrite !elem_of_cons; tauto].
Defined.

(** [/mod] by the streamer on a session of the room that is not a
    moderator gives it the moderator flag (nothing else changes in the
    registry) and tells caller and target; [/demod] (or [/unmod]) on the
    same name then takes the flag back, tells both, and the session
    registry is exactly what it was before the [/mod]. *)
Theorem mod_then_demod_restores
    env req req2 me w text text2 command command2 arg arg2 target :
  Dict.get (request_sid req) (socket_to_info w) = Some me ->
  admin me = true ->
  split_command (Py.strip text) = (String "/" command, arg) ->
  String "/" command ∈ ["/mod"] ->
  split_command (Py.strip text2) = (String "/" command2, arg2) ->
  String "/" command2 ∈ ["/demod"; "/unmod"] ->
  Py.lower (Py.strip arg2) = Py.lower (Py.strip arg) ->
  first_target (targets (Py.lower (Py.strip arg)) (streamer me))
    (socket_to_info w) = Some target ->
  moderator target = false ->
  request_sid req2 = request_sid req ->
  let name := Py.lower (Py.strip arg) in
  let first := handle_message env req (Some text) w in
  let second := handle_message env req2 (Some text2) (world first) in
  first = done (set_info (update_first (targets name (streamer me))
                            (with_moderator true) (socket_to_info w))
                  (touch req (streamer me) w))
            [server ("User '" +:+ name +:+ "' has been promoted to moderator.")
               (request_sid req);
             server "You have been promoted to moderator." (sid target)]
  ∧ effects second
    = [server ("User '" +:+ name +:+ "' has been demoted from moderator.")
         (request_sid req);
       server "You have been demoted from moderator." (sid target)]
  ∧ raised second = None
  ∧ socket_to_info (world second) = socket_to_info w.
Proof.
  intros Hme Hadm Hsplit Hcmd Hsplit2 Hcmd2 Harg Htarget Hm Hsid.
  eapply (moderation_undone moderator with_moderator); try done.
  - intros b v Hv. destruct v. simpl in *. by rewrite Hv.
  - intros me' w' _ Hadm' _; split;
      (apply dispatch_mod || apply dispatch_demod); congruence.
Qed.

Lemma mod_then_demod_restores_witness :
  Dict.get "A" (socket_to_info Scenario2.alice_moderator)
  = Some (mkSocketInfo "A" "203.0.113.7" "bob" "alice" false true false 255)
  ∧ socket_to_info
      (world (handle_message Scenario.env (Scenario.at_time "B" 20)
                (Some "/unmod alice") Scenario2.alice_moderator))
    = socket_to_info Scenario.bob_in.
Proof.
  split; [reflexivity|].
  apply (mod_then_demod_restores Scenario.env (Scenario.at_time "B" 8)
           (Scenario.at_time "B" 20)
           (mkSocketInfo "B" "203.0.113.7" "bob" "BOB" true false false
              0xFF0000)
           Scenario.bob_in "/mod alice" "/unmod alice" "mod" "unmod"
           "alice" "alice"
           (mkSocketInfo "A" "203.0.113.7" "bob" "alice" false false false
              255));
    first [reflexivity | rewrite !elem_of_cons; tauto].
Defined.

(** ** The viewer count over time and over rooms *)

Lemma stream_count_size time w room :
  stream_count time w room = size (live_ids time w room).
Proof.
  unfold stream_count, live_ids. rewrite size_dom. cbv zeta.
  by rewrite count_values_size.
Qed.

(** The count of a room never grows as the observation moves later over
    an unchanged presence store, and a connection counts for one room at
    most: the counts of two different rooms add up to no more than the
    number of presence records. *)
Theorem stream_count_decays time1 time2 w room room2 :
  time1 <= time2 ->
  room ≠ room2 ->
  (stream_count time2 w room <= stream_count time1 w room)%nat
  ∧ (stream_count time1 w room + stream_count time1 w room2
     <= size (socket_to_presence w))%nat.
Proof.
  intros Htime Hrooms. rewrite !stream_count_size. split.
  - apply subseteq_size. intros k. rewrite !live_ids_spec.
    intros (x & Hx & Hr & Ht). exists x. repeat split; [done..|lia].
  - rewrite <- size_union.
    + rewrite <- (size_dom (D := gset string) (socket_to_presence w)).
      apply subseteq_size. intros k.
      rewrite elem_of_union, !live_ids_spec, elem_of_dom.
      intros [(x & Hx & _)|(x & Hx & _)]; by exists x.
    + intros k. rewrite !live_ids_spec.
      intros (x & Hx & Hr & _) (y & Hy & Hr2 & _). congruence.
Qed.

Lemma stream_count_decays_witness :
  (stream_count 40 Scenario.bob_in "bob" <= stream_count 10 Scenario.bob_in "bob")%nat
  ∧ stream_count 10 Scenario.bob_in "bob" = 2%nat
  ∧ stream_count 31 Scenario.bob_in "bob" = 1%nat
  ∧ stream_count 40 Scenario.bob_in "bob" = 0%nat.
Proof.
  destruct (stream_count_decays 10 40 Scenario.bob_in "bob" "carol")
    as [Hle _]; [lia|discriminate|].
  split; [exact Hle|]. by vm_compute.
Defined.

(** ** [htmlcolor] and [get_color] *)

Section hex.

Lemma append_cons c s t : String c s +:+ t = String c (s +:+ t).
Proof. reflexivity. Qed.

Lemma repeat_zero_shift j acc :
  Py.repeat_char "0" j +:+ String "0" acc
  = String "0" (Py.repeat_char "0" j +:+ acc).
Proof. induction j as [|j IH]; simpl; [done|]. by rewrite !append_cons, IH. Qed.

Lemma hex_fixed_zero j acc :
  hex_fixed j 0 acc = Py.repeat_char "0" j +:+ acc.
Proof.
  revert acc. induction j as [|j IH]; intros acc; simpl; [done|].
  change (0 / 16) with 0. change (Py.hex_digit (0 mod 16)) with "0"%char.
  by rewrite IH, repeat_zero_shift, append_cons.
Qed.

Lemma hex_fixed_pad k j n acc :
  0 <= n < 16 ^ Z.of_nat k ->
  hex_fixed (j + k) n acc = Py.repeat_char "0" j +:+ hex_fixed k n acc.
Proof.
  revert n acc. induction k as [|k IH]; intros n acc Hn.
  - rewrite Nat.add_0_r. simpl in *. assert (n = 0) as -> by lia.
    apply hex_fixed_zero.
  - rewrite Nat.add_succ_r. simpl. apply IH.
    rewrite Nat2Z.inj_succ, Z.pow_succ_r in Hn by lia.
    split; [apply Z.div_pos; lia|apply Z.div_lt_upper_bound; lia].
Qed.

Lemma len_hex_fixed k n acc :
  Py.len (hex_fixed k n acc) = (k + Py.len acc)%nat.
Proof.
  revert n acc. induction k as [|k IH]; intros n acc; simpl; [done|].
  rewrite IH. simpl. lia.
Qed.

(** [hex_onto] stops at the first digit count that holds [n]. *)
Lemma hex_onto_fixed fuel n acc :
  (1 <= fuel)%nat -> 0 <= n < 16 ^ Z.of_nat fuel ->
  ∃ k, (1 <= k <= fuel)%nat
       ∧ Py.hex_onto fuel n acc = hex_fixed k n acc
       ∧ n < 16 ^ Z.of_nat k
       ∧ (k = 1%nat ∨ 16 ^ Z.of_nat (k - 1) <= n).
Proof.
  revert n acc. induction fuel as [|fuel IH]; intros n acc Hfuel Hn; [lia|].
  simpl. destruct (n / 16 =? 0) eqn:E.
  - apply Z.eqb_eq in E. exists 1%nat. simpl.
    repeat split; [lia..|done| |auto].
    pose proof (Z.div_mod n 16). pose proof (Z.mod_pos_bound n 16). lia.
  - apply Z.eqb_neq in E.
    rewrite Nat2Z.inj_succ, Z.pow_succ_r in Hn by lia.
    assert (0 <= n / 16 < 16 ^ Z.of_nat fuel) as Hq.
    { split; [apply Z.div_pos; lia|apply Z.div_lt_upper_bound; lia]. }
    assert (1 <= fuel)%nat as Hf.
    { destruct fuel; [|lia]. simpl in Hq. lia. }
    destruct (IH (n / 16) (String (Py.hex_digit (n mod 16)) acc) Hf Hq)
      as (k & Hk & Heq & Hlt & Hmin).
    exists (S k). split; [lia|]. split; [done|].
    pose proof (Z.div_mod n 16). pose proof (Z.mod_pos_bound n 16).
    rewrite Nat2Z.inj_succ, Z.pow_succ_r by lia.
    split; [lia|]. right.
    replace (S k - 1)%nat with k by lia.
    destruct Hmin as [->|Hmin].
    + change (16 ^ Z.of_nat 1) with 16. lia.
    + replace k with (S (k - 1)) at 1 by lia.
      rewrite Nat2Z.inj_succ, Z.pow_succ_r by lia. lia.
Qed.

Lemma hex_six n :
  0 <= n <= 0xFFFFFF ->
  ∃ k, (1 <= k <= 6)%nat ∧ Py.hex n = hex_fixed k n "" ∧ n < 16 ^ Z.of_nat k.
Proof.
  intros Hn. unfold Py.hex.
  destruct (hex_onto_fixed (S (Z.to_nat (Z.log2 n))) n "")
    as (k & Hk & Heq & Hlt & Hmin); [lia| |].
  - split; [lia|].
    destruct (decide (n = 0)) as [->|Hpos]; [done|].
    rewrite Nat2Z.inj_succ, Z2Nat.id by apply Z.log2_nonneg.
    pose proof (Z.log2_spec n ltac:(lia)) as [_ Hup].
    eapply Z.lt_le_trans; [exact Hup|].
    change 16 with (2 ^ 4). rewrite <- Z.pow_mul_r; [|lia|].
    + apply Z.pow_le_mono_r; [lia|]. pose proof (Z.log2_nonneg n). lia.
    + pose proof (Z.log2_nonneg n). lia.
  - exists k. split; [|done]. split; [lia|].
    destruct Hmin as [->|Hmin]; [lia|].
    destruct (decide (k <= 6)%nat) as [?|Hbig]; [done|exfalso].
    assert (16 ^ 6 <= 16 ^ Z.of_nat (k - 1)) by (apply Z.pow_le_mono_r; lia).
    change (16 ^ 6) with 16777216 in *. lia.
Qed.

(** The hex form [htmlcolor] shows: [#] and the six digits of the colour. *)
Lemma htmlcolor_fixed i :
  0 <= color i <= 0xFFFFFF ->
  htmlcolor i = String "#" (hex_fixed 6 (color i) "").
Proof.
  intros Hc. unfold htmlcolor.
  destruct (hex_six (color i) Hc) as (k & Hk & -> & Hlt).
  cbv zeta. rewrite len_hex_fixed. simpl (k + Py.len "")%nat.
  rewrite Nat.add_0_r. f_equal.
  destruct (k <? 6)%nat eqn:E.
  - rewrite <- hex_fixed_pad by lia. f_equal. apply Nat.ltb_lt in E. lia.
  - apply Nat.ltb_ge in E. by replace k with 6%nat by lia.
Qed.

End hex.

Section parse_back.

Ltac digit_cases d :=
  let H := fresh "Hd" in
  assert (d = 0 ∨ d = 1 ∨ d = 2 ∨ d = 3 ∨ d = 4 ∨ d = 5 ∨ d = 6 ∨ d = 7
          ∨ d = 8 ∨ d = 9 ∨ d = 10 ∨ d = 11 ∨ d = 12 ∨ d = 13 ∨ d = 14
          ∨ d = 15) as H by lia;
  repeat (destruct H as [->|H]); [..|subst d].

Lemma lstrip_nonspace c r :
  Py.isspace c = false -> Py.lstrip (String c r) = String c r.
Proof. intros H. simpl. by rewrite H. Qed.

Lemma hex_digit_facts d :
  0 <= d < 16 ->
  Py.isspace (Py.hex_digit d) = false
  ∧ Py.lower_char (Py.hex_digit d) = Py.hex_digit d
  ∧ webcolors.is_hex_digit (Py.hex_digit d) = true.
Proof. intros Hd. digit_cases d; by vm_compute. Qed.

Lemma int16_digits_hex d r acc prev_us seen :
  0 <= d < 16 ->
  Py.int16_digits (String (Py.hex_digit d) r) acc prev_us seen
  = Py.int16_digits r (16 * acc + d) false true.
Proof. intros Hd. digit_cases d; reflexivity. Qed.

Lemma int16_two_hex d e r :
  0 <= d < 16 -> 0 <= e < 16 ->
  Py.int16 (String (Py.hex_digit d) (String (Py.hex_digit e) r))
  = Py.int16_digits (String (Py.hex_digit d) (String (Py.hex_digit e) r))
      0 false false.
Proof. intros Hd He. digit_cases d; digit_cases e; reflexivity. Qed.

Lemma assoc_hash rest :
  webcolors.assoc (String "#" rest) webcolors.CSS3_NAMES_TO_HEX = None.
Proof. reflexivity. Qed.

(** A [#] and six lower-case hex digits resolve to the number they
    spell. *)
Lemma get_color_six rand d5 d4 d3 d2 d1 d0 :
  0 <= d5 < 16 -> 0 <= d4 < 16 -> 0 <= d3 < 16 ->
  0 <= d2 < 16 -> 0 <= d1 < 16 -> 0 <= d0 < 16 ->
  get_color rand
    (String "#"
       (String (Py.hex_digit d5) (String (Py.hex_digit d4)
       (String (Py.hex_digit d3) (String (Py.hex_digit d2)
       (String (Py.hex_digit d1) (String (Py.hex_digit d0) "")))))))
  = Ok (Some (16 * (16 * (16 * (16 * (16 * d5 + d4) + d3) + d2) + d1) + d0)).
Proof.
  intros H5 H4 H3 H2 H1 H0.
  destruct (hex_digit_facts d5 H5) as (S5 & L5 & X5).
  destruct (hex_digit_facts d4 H4) as (S4 & L4 & X4).
  destruct (hex_digit_facts d3 H3) as (S3 & L3 & X3).
  destruct (hex_digit_facts d2 H2) as (S2 & L2 & X2).
  destruct (hex_digit_facts d1 H1) as (S1 & L1 & X1).
  destruct (hex_digit_facts d0 H0) as (S0 & L0 & X0).
  set (x5 := Py.hex_digit d5) in *. set (x4 := Py.hex_digit d4) in *.
  set (x3 := Py.hex_digit d3) in *. set (x2 := Py.hex_digit d2) in *.
  set (x1 := Py.hex_digit d1) in *. set (x0 := Py.hex_digit d0) in *.
  set (digits := String x5 (String x4 (String x3 (String x2 (String x1
                   (String x0 "")))))).
  assert (Py.strip (String "#" digits) = String "#" digits) as Hstrip.
  { unfold Py.strip. rewrite lstrip_nonspace by reflexivity.
    unfold Py.rstrip.
    change (Py.rev (String "#" digits))
      with (String x0 (String x1 (String x2 (String x3 (String x4
              (String x5 "#")))))).
    by rewrite lstrip_nonspace. }
  assert (Py.lower (String "#" digits) = String "#" digits) as Hlower.
  { subst digits. simpl. by rewrite L5, L4, L3, L2, L1, L0. }
  assert (webcolors.normalize_hex (String "#" digits)
          = Some (String "#" digits)) as Hnorm.
  { unfold webcolors.normalize_hex.
    assert (webcolors.all_hex digits = true) as ->.
    { subst digits. simpl. by rewrite X5, X4, X3, X2, X1, X0. }
    change (Nat.eqb (Py.len digits) 3) with false.
    change (Nat.eqb (Py.len digits) 6) with true. cbv iota.
    f_equal. f_equal. subst digits. simpl.
    by rewrite L5, L4, L3, L2, L1, L0. }
  unfold get_color. rewrite Hstrip, Hlower.
  change (String.eqb (String "#" digits) "random") with false. cbv iota.
  unfold webcolors.name_to_hex. rewrite Hlower, assoc_hash, Hnorm.
  change (Nat.eqb (Py.len (String "#" digits)) 7) with true.
  change (Ascii.eqb "#" "#") with true. simpl negb. simpl orb. cbv iota.
  subst digits x5 x4. rewrite int16_two_hex by done.
  subst x3 x2 x1 x0. rewrite !int16_digits_hex by done.
  simpl Py.int16_digits. cbv iota beta.
  replace (16 * 0 + d5) with d5 by lia.
  set (n := 16 * (16 * (16 * (16 * (16 * d5 + d4) + d3) + d2) + d1) + d0).
  destruct (n <? 0) eqn:E1; [apply Z.ltb_lt in E1; lia|].
  destruct (16777215 <? n) eqn:E2; [apply Z.ltb_lt in E2; lia|].
  done.
Qed.

End parse_back.

Lemma htmlcolor_parses_back rand i :
  0 <= color i <= 0xFFFFFF ->
  get_color rand (htmlcolor i) = Ok (Some (color i)).
Proof.
  intros Hc. rewrite (htmlcolor_fixed i Hc). simpl hex_fixed.
  rewrite get_color_six; try (apply Z.mod_pos_bound; lia).
  do 2 f_equal.
  assert (color i / 16 / 16 / 16 / 16 / 16 / 16 = 0) as Htop.
  { rewrite !Z.div_div by lia. apply Z.div_small. simpl. lia. }
  pose proof (Z.div_mod (color i) 16).
  pose proof (Z.div_mod (color i / 16) 16).
  pose proof (Z.div_mod (color i / 16 / 16) 16).
  pose proof (Z.div_mod (color i / 16 / 16 / 16) 16).
  pose proof (Z.div_mod (color i / 16 / 16 / 16 / 16) 16).
  pose proof (Z.div_mod (color i / 16 / 16 / 16 / 16 / 16) 16).
  lia.
Qed.

(** What [htmlcolor] shows, [get_color] reads back: for a session whose
    colour is a 24-bit value, [htmlcolor] is [#] followed by six
    characters, and resolving that text gives the session's colour
    again. *)
Theorem htmlcolor_round_trip rand i :
  0 <= color i <= 0xFFFFFF ->
  Py.len (htmlcolor i) = 7%nat
  ∧ get_color rand (htmlcolor i) = Ok (Some (color i)).
Proof.
  intros Hc. split; [|by apply htmlcolor_parses_back].
  rewrite (htmlcolor_fixed i Hc).
  change (Py.len (String "#" (hex_fixed 6 (color i) "")))
    with (S (Py.len (hex_fixed 6 (color i) ""))).
  by rewrite len_hex_fixed.
Qed.

Lemma htmlcolor_round_trip_witness :
  htmlcolor (mkSocketInfo "A" "203.0.113.7" "bob" "alice" false false false
               0x00A0FF) = "#00a0ff"
  ∧ get_color 3 "#00a0ff" = Ok (Some 0x00A0FF).
Proof.
  split; [reflexivity|].
  apply (htmlcolor_round_trip 3
           (mkSocketInfo "A" "203.0.113.7" "bob" "alice" false false false
              0x00A0FF)).
  simpl. lia.
Defined.

(** ** The playlist routes *)

Section playlists.

Variables (cfg : Config) (fs : Files).

Lemma rewrite_lines_clean key old_prefix new_prefix skip lines linked out :
  rewrite_lines cfg fs key old_prefix new_prefix skip lines
  = (linked, Ok out) ->
  Forall (fun line => PyStr.contains line key = false) out
  ∧ Forall2 (fun line shown =>
               shown = line
               ∨ PyStr.startswith line old_prefix = true
                 ∧ shown = "/hls/" +:+ new_prefix +:+ PyStr.drop skip line)
            lines out.
Proof.
  revert linked out.
  induction lines as [|line rest IH]; intros linked out; simpl.
  - intros [= <- <-]. split; constructor.
  - destruct (PyStr.startswith line old_prefix
              && String.eqb (PyStr.last3 line) ".ts") eqn:Hre.
    + destruct (PyStr.contains _ key) eqn:Hkey; [done|].
      destruct (rewrite_lines cfg fs key old_prefix new_prefix skip rest)
        as [later [shown|]] eqn:Hrest; [|done].
      intros [= <- <-]. destruct (IH later shown eq_refl) as [Hclean Hshape].
      split; constructor; try done.
      right. by apply andb_true_iff in Hre as [-> _].
    + destruct (PyStr.contains line key) eqn:Hkey; [done|].
      destruct (rewrite_lines cfg fs key old_prefix new_prefix skip rest)
        as [later [shown|]] eqn:Hrest; [|done].
      intros [= <- <-]. destruct (IH later shown eq_refl) as [Hclean Hshape].
      split; constructor; auto.
Qed.

Lemma serve_playlist_clean env request w streamer quality old_prefix
    new_prefix skip result text :
  select_streamer env w streamer = [result] ->
  response (serve_playlist env cfg fs request w streamer quality old_prefix
              new_prefix skip) = Body text ->
  ∃ content shown,
    fetch_m3u8 cfg fs (row_key result) quality = Some content
    ∧ text = PyStr.join_lines shown
    ∧ Forall (fun line => PyStr.contains line (row_key result) = false) shown
    ∧ Forall2 (fun line shown =>
                 shown = line
                 ∨ PyStr.startswith line (old_prefix (row_key result)) = true
                   ∧ shown = "/hls/" +:+ new_prefix
                             +:+ PyStr.drop (skip (row_key result)) line)
              (PyStr.splitlines content) shown.
Proof.
  intros Hrow. unfold serve_playlist. rewrite Hrow.
  destruct (locked_out _ _); [done|].
  destruct (negb _); [done|].
  destruct (fetch_m3u8 _ _ _ _) as [content|]; [|done].
  destruct (rewrite_lines _ _ _ _ _ _ _) as [linked [shown|]] eqn:Hre;
    [|done].
  simpl. intros [= <-]. exists content, shown.
  destruct (rewrite_lines_clean _ _ _ _ _ _ _ Hre). done.
Qed.

End playlists.

(** A playlist that is served never shows the stream key.  Whenever
    [streamplaylist] or [streamplaylistwithquality] answers with a body,
    the body is the lines of the playlist file joined by newlines, none
    of which contains the streamer's key, and each of which is either the
    line of the file or the public path [/hls/] + streamer name + the rest
    of a line that started with the key. *)
Theorem served_playlist_hides_key
    env cfg fs request w streamer result text :
  select_streamer env w (Py.lower streamer) = [result] ->
  response (streamplaylist env cfg fs request w streamer) = Body text
  ∨ (∃ quality,
       response (streamplaylistwithquality env cfg fs request w streamer
                   quality) = Body text) ->
  ∃ shown,
    text = PyStr.join_lines shown
    ∧ Forall (fun line => PyStr.contains line (row_key result) = false) shown
    ∧ ∃ content quality,
        fetch_m3u8 cfg fs (row_key result) quality = Some content
        ∧ Forall2 (fun line shown =>
                     shown = line
                     ∨ PyStr.startswith line (row_key result) = true
                       ∧ PyStr.startswith shown
                           ("/hls/" +:+ Py.lower streamer) = true)
                  (PyStr.splitlines content) shown.
Proof.
  assert (∀ a b, PyStr.startswith (a +:+ b) a = true) as Hprefix.
  { intros a b. induction a as [|c a IH]; simpl; [by destruct b|].
    by rewrite Ascii.eqb_refl. }
  assert (∀ a b, PyStr.startswith (a +:+ b) a = true ->
                 ∀ s, PyStr.startswith s (a +:+ b) = true ->
                      PyStr.startswith s a = true) as Hweaken.
  { intros a b _. induction a as [|c a IH]; intros s; [by destruct s|].
    rewrite append_cons. destruct s as [|c' s]; [done|]. simpl.
    intros [-> ?]%andb_true_iff. simpl. auto. }
  assert (∀ a b c, (a +:+ b) +:+ c = a +:+ (b +:+ c)) as Hassoc.
  { intros a b c. induction a as [|x a IH]; [done|].
    by rewrite !append_cons, IH. }
  intros Hrow [Hbody|[quality Hbody]].
  - destruct (serve_playlist_clean cfg fs env request w _ _ _ _ _ result text
                Hrow Hbody)
      as (content & shown & Hfile & Htext & Hclean & Hshape).
    exists shown. split; [done|]. split; [done|].
    eexists content, _. split; [exact Hfile|].
    eapply Forall2_impl; [exact Hshape|]. simpl.
    intros line out [->|[Hstart ->]]; [by left|right].
    split; [done|]. rewrite <- Hassoc. apply Hprefix.
  - destruct (serve_playlist_clean cfg fs env request w _ _ _ _ _ result text
                Hrow Hbody)
      as (content & shown & Hfile & Htext & Hclean & Hshape).
    exists shown. split; [done|]. split; [done|].
    eexists content, _. split; [exact Hfile|].
    eapply Forall2_impl; [exact Hshape|]. simpl.
    intros line out [->|[Hstart ->]]; [by left|right]. split.
    + eapply Hweaken; [apply Hprefix|exact Hstart].
    + rewrite (Hassoc (Py.lower streamer)), <- (Hassoc "/hls/").
      apply Hprefix.
Qed.

Lemma served_playlist_hides_key_witness :
  ∃ shown,
    "#EXTM3U" +:+ PyStr.newline +:+ "#EXTINF:4.0," +:+ PyStr.newline
    +:+ "/hls/bob-17.ts" +:+ PyStr.newline +:+ "#EXTINF:4.0,"
    +:+ PyStr.newline +:+ "/hls/bob-18.ts"
    = PyStr.join_lines shown
    ∧ Forall (fun line => PyStr.contains line "s3cret" = false) shown
    ∧ ∃ content quality,
        fetch_m3u8 Disk.cfg Disk.fs "s3cret" quality = Some content
        ∧ Forall2 (fun line shown =>
                     shown = line
                     ∨ PyStr.startswith line "s3cret" = true
                       ∧ PyStr.startswith shown ("/hls/" +:+ Py.lower "BOB")
                         = true)
                  (PyStr.splitlines content) shown.
Proof.
  apply (served_playlist_hides_key Scenario.env Disk.cfg Disk.fs
           (mkHttpRequest (Some "hunter2") 110) Disk.locked "BOB"
           (mkStreamerRow "Bob" "s3cret" None (Some "hunter2")));
    [reflexivity|left; reflexivity].
Defined.

(** A stream with a password is closed to a request whose [streampass]
    cookie is missing or different: both playlist routes and [streaminfo]
    answer 403.  The playlist routes have then read no file and linked
    nothing; [streaminfo] has already run its cleanup of dangling links. *)
Theorem locked_stream_is_refused
    env cfg fs request w streamer result password :
  select_streamer env w (Py.lower streamer) = [result] ->
  row_streampass result = Some password ->
  cookie_streampass request ≠ Some password ->
  streamplaylist env cfg fs request w streamer = mkHttpOutcome (Abort 403) []
  ∧ (∀ quality,
       streamplaylistwithquality env cfg fs request w streamer quality
       = mkHttpOutcome (Abort 403) [])
  ∧ streaminfo env cfg fs request w streamer
    = mkHttpOutcome (Abort 403) [CleanSymlinks].
Proof.
  intros Hrow Hpass Hcookie.
  assert (locked_out (row_streampass result) (cookie_streampass request)
          = true) as Hlocked.
  { rewrite Hpass. unfold locked_out.
    destruct (cookie_streampass request) as [c|]; [|done].
    destruct (String.eqb c password) eqn:E; [|done].
    apply String.eqb_eq in E as ->. done. }
  unfold streamplaylist, streamplaylistwithquality, serve_playlist, streaminfo.
  cbv zeta. by rewrite Hrow, Hlocked.
Qed.

Lemma locked_stream_is_refused_witness :
  streamplaylist Scenario.env Disk.cfg Disk.fs (mkHttpRequest (Some "guess") 110)
    Disk.locked "Bob"
  = mkHttpOutcome (Abort 403) [].
Proof.
  apply (locked_stream_is_refused Scenario.env Disk.cfg Disk.fs
           (mkHttpRequest (Some "guess") 110) Disk.locked "Bob"
           (mkStreamerRow "Bob" "s3cret" None (Some "hunter2")) "hunter2");
    [reflexivity|reflexivity|discriminate].
Defined.

(** ** Recolor and rename, when they succeed *)

Lemma dispatch_color env req me command arg w :
  String "/" command ∈ ["/color"; "/setcolor"] ->
  run_command env req me (String "/" command) arg w = cmd_color req me arg w.
Proof.
  intros Hin.
  repeat (apply elem_of_cons in Hin as [[= ->]|Hin]; [done|]).
  by apply elem_of_nil in Hin.
Qed.

Lemma dispatch_name env req me command arg w :
  String "/" command ∈ ["/name"; "/nick"] ->
  run_command env req me (String "/" command) arg w = cmd_name req me arg w.
Proof.
  intros Hin.
  repeat (apply elem_of_cons in Hin as [[= ->]|Hin]; [done|]).
  by apply elem_of_nil in Hin.
Qed.

(** [/color] (or [/setcolor]) from a session that is not muted, with an
    argument that resolves to a value other than 0: the session takes that
    colour and nothing else in the registry changes, the room gets an
    ['action received'] notice and the caller a ['return color'] event
    whose text is [#] and six hex digits that resolve to the new colour
    again. *)
Theorem recolor_sets_color env req w me text command arg n :
  Dict.get (request_sid req) (socket_to_info w) = Some me ->
  muted me = false ->
  split_command (Py.strip text) = (String "/" command, arg) ->
  String "/" command ∈ ["/color"; "/setcolor"] ->
  get_color (rand req) (Py.lower (Py.strip arg)) = Ok (Some n) ->
  n ≠ 0 ->
  let o := handle_message env req (Some text) w in
  let shown := htmlcolor (with_color n me) in
  raised o = None
  ∧ effects o
    = [Emit "action received"
         (spoken (with_color n me) "changed their color!") (streamer me);
       Emit "return color" (JObj [("color", JStr shown)]) (request_sid req)]
  ∧ (∀ rnd, get_color rnd shown = Ok (Some n))
  ∧ ∀ k, Dict.get k (socket_to_info (world o))
         = if String.eqb k (request_sid req) then Some (with_color n me)
           else Dict.get k (socket_to_info w).
Proof.
  intros Hme Hmuted Hsplit Hcmd Hcolor Hn o shown. subst o shown.
  rewrite (message_runs_command env req w me text command arg) by done.
  rewrite dispatch_color by done.
  rewrite (cmd_color_resolved req me arg _ n) by done.
  simpl. split; [done|]. split; [done|]. split.
  - intros rnd.
    apply (htmlcolor_parses_back rnd (with_color n me)). simpl.
    by apply get_color_range in Hcolor.
  - intros k. rewrite get_update.
    destruct (String.eqb k _) eqn:E; [|done].
    apply String.eqb_eq in E as ->. by rewrite Hme.
Qed.

Lemma recolor_sets_color_witness :
  Dict.get "A"
    (socket_to_info
       (world (handle_message Scenario.env (Scenario.at_time "A" 9)
                 (Some "/setcolor  #FA0 ") Scenario.bob_in)))
  = Some (mkSocketInfo "A" "203.0.113.7" "bob" "alice" false false false
            0xFFAA00).
Proof.
  destruct (recolor_sets_color Scenario.env (Scenario.at_time "A" 9)
              Scenario.bob_in
              (mkSocketInfo "A" "203.0.113.7" "bob" "alice" false false false
                 255)
              "/setcolor  #FA0 " "setcolor" " #FA0" 0xFFAA00)
    as (_ & _ & _ & Hget);
    [reflexivity|reflexivity|reflexivity|rewrite !elem_of_cons; tauto
    |reflexivity|discriminate|].
  exact (Hget "A").
Defined.

Lemma name_taken_true_elem d room name :
  name_taken d room name = true -> (room, Py.lower name) ∈ map room_name d.
Proof.
  unfold name_taken, users_in_room, Dict.values.
  induction d as [|[k v] r IH]; simpl; [done|].
  destruct (in_room room v) eqn:Hroom; simpl.
  - intros [E|E]%orb_true_iff.
    + apply elem_of_cons. left. unfold room_name. simpl.
      unfold in_room in Hroom.
      apply String.eqb_eq in Hroom as ->. by apply String.eqb_eq in E as ->.
    + apply elem_of_cons. right. auto.
  - intros E. apply elem_of_cons. right. auto.
Qed.

Lemma rename_frees_old d k me name :
  NoDup (map room_name d) ->
  Dict.get k d = Some me ->
  Py.lower name ≠ Py.lower (username me) ->
  room_name (k, me) ∉ map room_name (Dict.update k (with_username name) d).
Proof.
  induction d as [|[k0 v0] r IH]; simpl; [done|].
  intros [Hhd Hnd]%NoDup_cons Hget Hne.
  destruct (String.eqb k k0) eqn:E; simpl.
  - injection Hget as ->. apply not_elem_of_cons. split; [|done].
    unfold room_name. simpl. congruence.
  - apply not_elem_of_cons. split; [|by apply IH].
    intros Heq. apply Hhd.
    change (room_name (k0, v0) ∈ map room_name r). rewrite <- Heq.
    apply get_elem in Hget.
    by apply (list_elem_of_fmap_2 room_name) in Hget.
Qed.

(** In a reachable world, [/name] (or [/nick]) from a session that is not
    muted, with a new name of 1 to 29 characters that nobody in the room
    holds up to case: the session takes the name, no other session
    changes, and the room gets one ['rename'] event with the old and the
    new name.  Afterwards the new name is taken in the room and the old
    one is free again. *)
Theorem rename_moves_name env req w me text command arg :
  reachable env w ->
  Dict.get (request_sid req) (socket_to_info w) = Some me ->
  muted me = false ->
  split_command (Py.strip text) = (String "/" command, arg) ->
  String "/" command ∈ ["/name"; "/nick"] ->
  Py.len (Py.strip arg) ≠ 0%nat ->
  (Py.len (Py.strip arg) < 30)%nat ->
  name_taken (socket_to_info w) (streamer me) (Py.strip arg) = false ->
  let name := Py.strip arg in
  let o := handle_message env req (Some text) w in
  raised o = None
  ∧ effects o
    = [Emit "rename"
         (JObj [("newname", JStr name); ("oldname", JStr (username me));
                ("type", JStr (get_type me)); ("color", JStr (htmlcolor me));
                ("users", users_json (socket_to_info (world o)) (streamer me))])
         (streamer me)]
  ∧ (∀ k, Dict.get k (socket_to_info (world o))
          = if String.eqb k (request_sid req) then Some (with_username name me)
            else Dict.get k (socket_to_info w))
  ∧ name_taken (socket_to_info (world o)) (streamer me) name = true
  ∧ name_taken (socket_to_info (world o)) (streamer me) (username me) = false.
Proof.
  intros Hreach Hme Hmuted Hsplit Hcmd Hlen Hshort Hfree name o.
  subst o name.
  rewrite (message_runs_command env req w me text command arg) by done.
  rewrite dispatch_name by done. unfold cmd_name. rewrite Hmuted.
  apply Nat.leb_gt in Hshort. rewrite Hshort.
  change (socket_to_info (touch req (streamer me) w))
    with (socket_to_info w).
  rewrite Hfree. apply Nat.eqb_neq in Hlen. rewrite Hlen. simpl.
  split; [done|]. split; [done|].
  assert (∀ k, Dict.get k (Dict.update (request_sid req)
                             (with_username (Py.strip arg)) (socket_to_info w))
               = if String.eqb k (request_sid req)
                 then Some (with_username (Py.strip arg) me)
                 else Dict.get k (socket_to_info w)) as Hget.
  { intros k. rewrite get_update.
    destruct (String.eqb k _) eqn:E; [|done].
    apply String.eqb_eq in E as ->. by rewrite Hme. }
  split; [exact Hget|]. split.
  - eapply (name_taken_holder _ _ _ (request_sid req)
              (with_username (Py.strip arg) me)); [|done..].
    apply get_elem. by rewrite Hget, String.eqb_refl.
  - destruct (name_taken _ _ (username me)) eqn:E; [|done]. exfalso.
    apply name_taken_true_elem in E.
    destruct (reachable_by_ok _ _ _ Hreach) as [_ Hnames].
    apply (rename_frees_old (socket_to_info w) (request_sid req) me
             (Py.strip arg)); [done|done| |done].
    intros Heq. apply name_taken_elem in Hfree. apply Hfree.
    rewrite Heq. apply get_elem in Hme.
    by apply (list_elem_of_fmap_2 room_name) in Hme.
Qed.

Lemma rename_moves_name_witness :
  name_taken
    (socket_to_info
       (world (handle_message Scenario.env (Scenario.at_time "A" 9)
                 (Some "/nick Alicia") Scenario.bob_in))) "bob" "alice"
  = false
  ∧ Dict.get "A"
      (socket_to_info
         (world (handle_message Scenario.env (Scenario.at_time "A" 9)
                   (Some "/nick Alicia") Scenario.bob_in)))
    = Some (mkSocketInfo "A" "203.0.113.7" "bob" "Alicia" false false false
              255).
Proof.
  destruct (rename_moves_name Scenario.env (Scenario.at_time "A" 9)
              Scenario.bob_in
              (mkSocketInfo "A" "203.0.113.7" "bob" "alice" false false false
                 255)
              "/nick Alicia" "nick" "Alicia")
    as (_ & _ & Hget & _ & Hold);
    [apply scenario_bob_in_reachable|reflexivity|reflexivity|reflexivity
    |rewrite !elem_of_cons; tauto|simpl; lia|simpl; lia|reflexivity|].
  split; [exact Hold|exact (Hget "A")].
Defined.
